(** * AIStudyBuddy: the Express server of [src/login.js], embedded in Rocq

    The second document of [src/login.js] is the server: the chat endpoint
    with its Gemini path and keyword fallback ladder, the session chat
    history, and the note-tree endpoints over the Mongoose [User] document
    (subjects, chapters, notes) with the upload to the object store.

    Conventions of the embedding.
    - A JavaScript string is the sequence of its UTF-16 code units
      ([Utf16.string], a code unit being an [N] below 65536): length,
      [substring], [includes], [trim] and [===] act on code units, as they
      do in the language.  The string literals of this file are ASCII.
    - [toLowerCase] follows the Unicode case mapping of the engine.  It is
      a parameter of the embedding ([CaseMapping]), known by two facts: on
      ASCII text it lower-cases A to Z and nothing else, and it maps white
      space to white space.
    - A request body field is an [option string]: [None] is [undefined].
    - The handlers run in a small state-and-exit monad: the state is the
      document store, the object store and the session; a handler stops
      early with [reply] (a [return res.status(..).json(..)]) or with
      [throw] (an exception, turned into a 500 by the handler's [catch]).
    - What the outer world decides during a request (the clock, whether the
      object store accepts the write) is the request's [Env].
    - The document store and the session store give back the strings they
      were given. *)

From Stdlib Require Import List Bool Arith NArith ZArith Lia.
From Stdlib Require Import Strings.Byte DecimalN.
From stdpp Require Import base option list gmap.

Local Open Scope list_scope.

(** ** Strings of UTF-16 code units *)

Module Utf16.

Inductive string : Set :=
| EmptyString : string
| String (c : N) (s : string) : string.

(** [a + b] *)
Fixpoint append (a b : string) : string :=
  match a with
  | EmptyString => b
  | String c a' => String c (append a' b)
  end.

(** [s.length] *)
Fixpoint length (s : string) : nat :=
  match s with
  | EmptyString => 0
  | String _ s' => S (length s')
  end.

(** [a === b] *)
Fixpoint eqb (a b : string) : bool :=
  match a, b with
  | EmptyString, EmptyString => true
  | String c a', String d b' => N.eqb c d && eqb a' b'
  | _, _ => false
  end.

(** Literals: an ASCII text between double quotes stands for its code
    units, one per character; a single ASCII character for its code unit. *)
Fixpoint ofBytes (l : list Byte.byte) : option string :=
  match l with
  | [] => Some EmptyString
  | b :: l' =>
      if (Byte.to_N b <? 128)%N
      then option_map (String (Byte.to_N b)) (ofBytes l')
      else None
  end.

Fixpoint toBytes (s : string) : option (list Byte.byte) :=
  match s with
  | EmptyString => Some []
  | String c s' =>
      if (c <? 128)%N then
        match Byte.of_N c, toBytes s' with
        | Some b, Some l => Some (b :: l)
        | _, _ => None
        end
      else None
  end.

Definition unitOfBytes (l : list Byte.byte) : option N :=
  match l with
  | [b] => if (Byte.to_N b <? 128)%N then Some (Byte.to_N b) else None
  | _ => None
  end.

Definition noBytes (c : N) : option (list Byte.byte) := None.

Declare Scope utf16_scope.
Delimit Scope utf16_scope with utf16.
Bind Scope utf16_scope with string.
String Notation string ofBytes toBytes : utf16_scope.
Infix "+:+" := append (at level 60, right associativity) : utf16_scope.

Declare Scope unit_scope.
Delimit Scope unit_scope with char.
String Notation N unitOfBytes noBytes : unit_scope.
Arguments String c%_char s%_utf16.

(** Strings as keys of finite maps. *)
Fixpoint units (s : string) : list N :=
  match s with
  | EmptyString => []
  | String c s' => c :: units s'
  end.

Fixpoint ofUnits (l : list N) : string :=
  match l with
  | [] => EmptyString
  | c :: l' => String c (ofUnits l')
  end.

#[global] Instance string_eq_dec : EqDecision string.
Proof. solve_decision. Defined.

#[global] Program Instance string_countable : Countable string :=
  inj_countable' units ofUnits _.
Next Obligation. intros s. induction s as [|c s IH]; simpl; congruence. Qed.

End Utf16.

Import (notations) Utf16.
Import Utf16(string(..)).
Local Open Scope utf16_scope.

(** ** JavaScript string primitives *)

Module Js.

Definition nl : string := String 10%N EmptyString.

(** The code units removed by [String.prototype.trim], the WhiteSpace and
    LineTerminator code points of the language: TAB, LF, VT, FF, CR, SPACE,
    NO-BREAK SPACE, U+1680, U+2000 to U+200A, LINE SEPARATOR, PARAGRAPH
    SEPARATOR, U+202F, U+205F, U+3000 and U+FEFF. *)
Definition isWhiteSpace (c : N) : bool :=
  ((9 <=? c) && (c <=? 13)
   || (c =? 32) || (c =? 160) || (c =? 5760)
   || (8192 <=? c) && (c <=? 8202)
   || (c =? 8232) || (c =? 8233) || (c =? 8239) || (c =? 8287)
   || (c =? 12288) || (c =? 65279))%N.

Fixpoint trimStart (s : string) : string :=
  match s with
  | EmptyString => EmptyString
  | String c s' => if isWhiteSpace c then trimStart s' else s
  end.

Fixpoint trimEnd (s : string) : string :=
  match s with
  | EmptyString => EmptyString
  | String c s' =>
      match trimEnd s' with
      | EmptyString => if isWhiteSpace c then EmptyString else String c EmptyString
      | t => String c t
      end
  end.

Definition trim (s : string) : string := trimEnd (trimStart s).

(** [s] consists of white space only. *)
Fixpoint blank (s : string) : bool :=
  match s with
  | EmptyString => true
  | String c s' => isWhiteSpace c && blank s'
  end.

(** Lower-casing within ASCII: A to Z become a to z. *)
Definition lowerUnit (c : N) : N :=
  if ((65 <=? c) && (c <=? 90))%N then (c + 32)%N else c.

Fixpoint lowerAscii (s : string) : string :=
  match s with
  | EmptyString => EmptyString
  | String c s' => String (lowerUnit c) (lowerAscii s')
  end.

Fixpoint isAscii (s : string) : bool :=
  match s with
  | EmptyString => true
  | String c s' => (c <? 128)%N && isAscii s'
  end.

(** [String.prototype.toLowerCase]: the case mapping of the engine, with
    what the handlers rely on. *)
Class CaseMapping := {
  toLowerCase : string -> string;
  toLowerCase_ascii : forall s, isAscii s = true -> toLowerCase s = lowerAscii s;
  toLowerCase_blank : forall s, blank s = true -> blank (toLowerCase s) = true
}.

(** [startsWith t s]: [t] is a prefix of [s]. *)
Fixpoint startsWith (t s : string) : bool :=
  match t, s with
  | EmptyString, _ => true
  | String _ _, EmptyString => false
  | String a t', String b s' => N.eqb a b && startsWith t' s'
  end.

(** [s.includes(t)] *)
Fixpoint includes (s t : string) : bool :=
  startsWith t s ||
  match s with
  | EmptyString => false
  | String _ s' => includes s' t
  end.

(** [s.substring(0, n)]: the first [n] code units. *)
Fixpoint substring0 (n : nat) (s : string) : string :=
  match n, s with
  | S n', String c s' => String c (substring0 n' s')
  | _, _ => EmptyString
  end.

(** Truthiness of an optional string: [undefined] and [""] are falsy. *)
Definition truthy (o : option string) : bool :=
  match o with
  | Some (String _ _) => true
  | _ => false
  end.

Definition nonEmpty (s : string) : bool :=
  match s with
  | EmptyString => false
  | String _ _ => true
  end.

(** [!o || !o.trim()] *)
Definition missingOrBlank (o : option string) : bool :=
  match o with
  | Some s => negb (nonEmpty s) || negb (nonEmpty (trim s))
  | None => true
  end.

(** A value other than [undefined]. *)
Definition defined {A} (o : option A) : bool :=
  match o with
  | Some _ => true
  | None => false
  end.

(** [a.slice(-n)] on an array: the last [n] elements. *)
Definition sliceLast {A} (n : nat) (l : list A) : list A :=
  skipn (List.length l - n) l.

(** A non-negative integer interpolated in a template literal. *)
Fixpoint digits (u : Decimal.uint) : string :=
  match u with
  | Decimal.Nil => EmptyString
  | Decimal.D0 u' => String "0" (digits u')
  | Decimal.D1 u' => String "1" (digits u')
  | Decimal.D2 u' => String "2" (digits u')
  | Decimal.D3 u' => String "3" (digits u')
  | Decimal.D4 u' => String "4" (digits u')
  | Decimal.D5 u' => String "5" (digits u')
  | Decimal.D6 u' => String "6" (digits u')
  | Decimal.D7 u' => String "7" (digits u')
  | Decimal.D8 u' => String "8" (digits u')
  | Decimal.D9 u' => String "9" (digits u')
  end.

Definition decimal (n : N) : string := digits (N.to_uint n).

End Js.



(** ** Data model: the Mongoose schemas *)

(** An [ObjectId] is a 12-byte value; the client sees it as 24 hexadecimal
    digits.  The driver draws a new one from a counter. *)
Definition ObjectId := N.

Definition hexDigit (c : N) : option N :=
  if ((48 <=? c) && (c <=? 57))%N then Some (c - 48)%N
  else if ((97 <=? c) && (c <=? 102))%N then Some (c - 87)%N
  else if ((65 <=? c) && (c <=? 70))%N then Some (c - 55)%N
  else None.

Fixpoint parseHex (s : string) (acc : N) : option N :=
  match s with
  | EmptyString => Some acc
  | String c s' =>
      match hexDigit c with
      | Some d => parseHex s' (16 * acc + d)%N
      | None => None
      end
  end.

(** The cast that [DocumentArray.id] applies to its argument: a string of
    24 hexadecimal digits is an id, anything else matches nothing. *)
Definition castObjectId (s : string) : option ObjectId :=
  if Nat.eqb (Utf16.length s) 24 then parseHex s 0%N else None.

(** [noteSchema] *)
Record Note := mkNote {
  n_id : ObjectId;
  n_title : string;
  n_content : string;
  n_type : string;
  n_fileUrl : string;
  n_mimeType : string;
  n_createdAt : N
}.

(** [chapterSchema] *)
Record Chapter := mkChapter {
  c_id : ObjectId;
  c_name : string;
  c_notes : list Note;
  c_createdAt : N
}.

(** [subjectSchema] *)
Record Subject := mkSubject {
  s_id : ObjectId;
  s_name : string;
  s_chapters : list Chapter;
  s_createdAt : N
}.

(** [userSchema] *)
Record User := mkUser {
  u_id : ObjectId;
  u_uuid : string;
  u_createdAt : N;
  u_subjects : list Subject
}.

(** The [enum] of the note's [type] path. *)
Definition noteTypes : list string := ["test"; "assignment"; "project"; "notes"].

(** An entry of [req.session.chatHistory]. *)
Record ChatMsg := mkMsg { role : string; content : string }.

(** The fields of the session the handlers read and write. *)
Record Session := mkSession {
  userUUID : option string;
  chatHistory : option (list ChatMsg)
}.

(** ** Errors and responses *)

Inductive JsError :=
| ValidatorError (path kind : string)   (* raised by [user.save()] *)
| ExternalError (message : string).     (* raised by a remote service *)

Inductive Body :=
| JError (error : string)
| JErrorDetails (error : string) (details : JsError)
| JMessage (message : string)
| JResponse (response : string)
| JSubjectList (hasSubjects : bool) (message : option string) (subjects : list Subject)
| JSubjects (message : string) (subjects : list Subject)
| JChapters (message : string) (chapters : list Chapter)
| JNotes (message : string) (notes : list Note)
| JFileUrl (message : string) (fileUrl : string).

Record Response := mkResponse { status : nat; body : Body }.

(** The error taxonomy of the specification, read off a response. *)
Definition ValidationError (r : Response) : Prop := status r = 400.
Definition Unauthenticated (r : Response) : Prop := status r = 401.
Definition NotFound (r : Response) : Prop := status r = 404.
Definition ServiceUnavailable (r : Response) : Prop :=
  r = mkResponse 500 (JError "Cloud storage not configured").
Definition Succeeds (r : Response) : Prop := status r = 200 \/ status r = 201.

(** ** Module state of the server and the outer world *)

Inductive GenerateResult :=
| Text (t : string)          (* [response.text()] *)
| Raises (e : JsError).      (* [generateContent] or [text()] threw *)

Record GenerativeModel := mkModel { generateContent : string -> GenerateResult }.

Inductive StorageClient := GcsClient.

Record Bucket := mkBucket { bucket_name : string }.

(** [geminiReady], [model], [gcpConfigured], [storage], [bucket] *)
Record Config := mkConfig {
  geminiReady : bool;
  model : option GenerativeModel;
  gcpConfigured : bool;
  storage : option StorageClient;
  bucket : option Bucket
}.

(** A file as multer hands it to the handler ([req.file]). *)
Record UploadedFile := mkFile {
  originalname : string;
  mimetype : string;
  buffer : string
}.

Record GcsObject := mkObject {
  o_data : string;
  o_contentType : string;
  o_public : bool
}.

(** What the world decides while a request runs. *)
Record Env := mkEnv {
  now : N;                         (* [Date.now()] *)
  blobSave : option JsError;       (* [Some e]: [blob.save] throws [e] *)
  makePublic : option JsError      (* [Some e]: [blob.makePublic] throws [e] *)
}.

(** The [users] collection (one document per [uuid]), the driver's id
    counter, the bucket's objects and the caller's session. *)
Record State := mkState {
  users : gmap string User;
  oidCounter : N;
  objects : gmap string GcsObject;
  session : Session
}.

Definition setUsers (f : gmap string User -> gmap string User) (st : State) : State :=
  mkState (f (users st)) (oidCounter st) (objects st) (session st).
Definition setObjects (f : gmap string GcsObject -> gmap string GcsObject) (st : State) : State :=
  mkState (users st) (oidCounter st) (f (objects st)) (session st).
Definition setHistory (h : option (list ChatMsg)) (st : State) : State :=
  mkState (users st) (oidCounter st) (objects st) (mkSession (userUUID (session st)) h).

(** ** The handler monad *)

Inductive Outcome (A : Type) :=
| Value (a : A)
| Reply (r : Response)
| Throw (e : JsError).
Arguments Value {A} a.
Arguments Reply {A} r.
Arguments Throw {A} e.

Definition M (A : Type) : Type := State -> Outcome A * State.

Definition ret {A} (a : A) : M A := fun st => (Value a, st).
Definition bind {A B} (m : M A) (k : A -> M B) : M B :=
  fun st =>
    match m st with
    | (Value a, st') => k a st'
    | (Reply r, st') => (Reply r, st')
    | (Throw e, st') => (Throw e, st')
    end.
Definition reply {A} (code : nat) (b : Body) : M A :=
  fun st => (Reply (mkResponse code b), st).
Definition throw {A} (e : JsError) : M A := fun st => (Throw e, st).
Definition get {A} (f : State -> A) : M A := fun st => (Value (f st), st).
Definition modify (f : State -> State) : M unit := fun st => (Value tt, f st).

Declare Scope handler_scope.
Delimit Scope handler_scope with handler.
Notation "x <- m ;; k" := (bind m (fun x => k))
  (at level 100, m at next level, right associativity) : handler_scope.
Notation "m ;;; k" := (bind m (fun _ => k))
  (at level 100, right associativity) : handler_scope.
Local Open Scope handler_scope.

(** [try { ... } catch (err) { res.status(500).json(onError err) }] around
    a whole handler. *)
Definition handle (h : M Response) (onError : JsError -> Body) (st : State)
  : Response * State :=
  match h st with
  | (Value r, st') => (r, st')
  | (Reply r, st') => (r, st')
  | (Throw e, st') => (mkResponse 500 (onError e), st')
  end.

(** [requireAuth] *)
Definition requireAuth : M string :=
  fun st =>
    match userUUID (session st) with
    | Some (String a u) => (Value (String a u), st)
    | _ => (Reply (mkResponse 401 (JError "Not authenticated. Please log in.")), st)
    end.

(** ** POST /api/ai-buddy/chat *)

Module Chat.
Import Js.

Definition preamble : string :=
  "You are a friendly AI study buddy. Be encouraging and concise (2-3 sentences)."
  +:+ nl +:+ nl.

(** The label of one history line: [msg.role === "user" ? "Student" : "AI"]. *)
Definition speaker (m : ChatMsg) : string :=
  if Utf16.eqb (role m) "user" then "Student" else "AI".

Definition historyLine (m : ChatMsg) : string :=
  speaker m +:+ ": " +:+ content m +:+ nl.

(** [notesContext && notesContext.trim()] *)
Definition hasNotes (notesContext : option string) : bool :=
  match notesContext with
  | Some s => nonEmpty s && nonEmpty (trim s)
  | None => false
  end.

(** The assembly of [fullPrompt]. *)
Definition buildPrompt (notesContext : option string) (history : list ChatMsg)
    (message : string) : string :=
  let p0 := preamble in
  let p1 :=
    if hasNotes notesContext
    then p0 +:+ "Student's materials:" +:+ nl
            +:+ substring0 300 (default "" notesContext) +:+ nl +:+ nl
    else p0 in
  let recentHistory := sliceLast 6 history in
  let p2 :=
    if (0 <? List.length recentHistory)%nat
    then fold_left (fun acc msg => acc +:+ historyLine msg) recentHistory
                   (p1 +:+ "Recent chat:" +:+ nl)
    else p1 in
  p2 +:+ "Student: " +:+ message +:+ nl +:+ "AI Buddy:".

(** The Gemini attempt: [None] is the [null] the [catch] assigns; without a
    ready client [aiResponse] keeps its initial [""]. *)
Definition tryGemini (cfg : Config) (notesContext : option string)
    (history : list ChatMsg) (message : string) : option string :=
  match geminiReady cfg, model cfg with
  | true, Some m =>
      match generateContent m (buildPrompt notesContext history message) with
      | Text t => Some t
      | Raises _ => None
      end
  | _, _ => Some ""
  end.

Definition greeting : string :=
  "Hi there! I'm your AI study buddy! I'm here to help you learn and understand your materials better. What would you like to study today?".
Definition helpOffer : string :=
  "I can help you in many ways! I can explain concepts, quiz you on topics, break down complex ideas, and provide study tips. Just ask me anything about your subjects!".
Definition explanation (notesContext : option string) : string :=
  "Great question! " +:+ (if truthy notesContext then "Based on your notes, " else "")
  +:+ "Let me break this down for you. This concept is fundamental - once you grasp it, everything becomes clearer! Would you like me to go deeper into any specific aspect?".
Definition quizPrompt : string :=
  "Excellent! Testing yourself is one of the best ways to learn. Can you explain the main concept from your recent notes in your own words? This helps reinforce understanding!".
Definition encouragement : string :=
  "Don't worry, that's completely normal! Let's break this down into smaller pieces. Which specific part is confusing? We'll tackle it step by step together!".
Definition examAdvice : string :=
  "Preparing for exams? Smart! Review regularly, practice explaining concepts aloud, and test yourself frequently. Focus on understanding, not memorizing. You've got this!".
Definition welcome : string :=
  "You're very welcome! I'm always here to help you succeed. Keep up the great work! Is there anything else you'd like to learn about?".
Definition defaultAnswer (notesContext : option string) : string :=
  "That's an interesting question! "
  +:+ (if truthy notesContext then "Looking at your study materials, " else "")
  +:+ "The best approach is to break it down systematically. Can you tell me more about what you'd like to explore? I'm here to help!".

Section WithCaseMapping.
Context `{CM : CaseMapping}.

(** The [if / else if] ladder over [lowerMsg]. *)
Definition fallback (message : string) (notesContext : option string) : string :=
  let lowerMsg := toLowerCase message in
  if includes lowerMsg "hello" || includes lowerMsg "hi" || includes lowerMsg "hey"
  then greeting
  else if includes lowerMsg "help" || includes lowerMsg "what can you"
  then helpOffer
  else if includes lowerMsg "explain" || includes lowerMsg "what is"
  then explanation notesContext
  else if includes lowerMsg "quiz" || includes lowerMsg "test"
  then quizPrompt
  else if includes lowerMsg "difficult" || includes lowerMsg "hard"
          || includes lowerMsg "don't understand"
  then encouragement
  else if includes lowerMsg "exam" || includes lowerMsg "preparation"
  then examAdvice
  else if includes lowerMsg "thank"
  then welcome
  else defaultAnswer notesContext.

(** [!aiResponse]: [null] and [""] both send the request to the ladder. *)
Definition answer (aiResponse : option string) (message : string)
    (notesContext : option string) : string :=
  match aiResponse with
  | Some (String a t) => String a t
  | _ => fallback message notesContext
  end.

(** The two [push]es and the cut to the last ten entries. *)
Definition remember (history : list ChatMsg) (message aiResponse : string)
  : list ChatMsg :=
  let pushed := history ++ [mkMsg "user" message; mkMsg "assistant" aiResponse] in
  if (10 <? List.length pushed)%nat then sliceLast 10 pushed else pushed.

Definition chatBody (cfg : Config) (message notesContext : option string)
  : M Response :=
  _ <- requireAuth ;;
  if missingOrBlank message then reply 400 (JError "Message is required") else
  let message := default "" message in
  old <- get (fun st => chatHistory (session st)) ;;
  let history := default [] old in
  modify (setHistory (Some history)) ;;;
  let aiResponse := tryGemini cfg notesContext history message in
  let aiResponse := answer aiResponse message notesContext in
  modify (setHistory (Some (remember history message aiResponse))) ;;;
  ret (mkResponse 200 (JResponse aiResponse)).

Definition chatError (e : JsError) : Body :=
  JErrorDetails
    "I'm having a technical difficulty, but I'm still here to help! Could you try asking again?"
    e.

Definition chat (cfg : Config) (message notesContext : option string)
  : State -> Response * State :=
  handle (chatBody cfg message notesContext) chatError.

End WithCaseMapping.

(** POST /api/ai-buddy/clear-chat.  The route has no [try]; nothing in it
    throws, and Express's own error handler would answer if it did. *)
Definition uncaught (e : JsError) : Body := JErrorDetails "Internal Server Error" e.

Definition clearChat : State -> Response * State :=
  handle (_ <- requireAuth ;;
          modify (setHistory (Some [])) ;;;
          ret (mkResponse 200 (JMessage "Chat history cleared")))
         uncaught.

End Chat.

(** ** The note tree: /api/user/subjects, /chapters, /upload-note-file *)

Module Notes.
Import Js.

(** [new ObjectId()] *)
Definition newObjectId : M ObjectId :=
  fun st =>
    (Value (oidCounter st),
     mkState (users st) (oidCounter st + 1)%N (objects st) (session st)).

(** [UserModel.findOne({ uuid })] *)
Definition findOne (uuid : string) : M (option User) :=
  get (fun st => users st !! uuid).

(** [array.id(id)]: the first sub-document whose [_id] is the cast of [id],
    with its position in the array. *)
Definition findById {A} (getId : A -> ObjectId) (l : list A) (id : option string)
  : option (nat * A) :=
  match id ≫= castObjectId with
  | Some oid => list_find (fun x => getId x = oid) l
  | None => None
  end.

(** [user.save()] on the document found under [uuid]: the validators of
    the paths just pushed run first; the document is written back in place
    only when they pass. *)
Definition save (uuid : string) (user : User) (invalid : option JsError) : M unit :=
  match invalid with
  | Some e => throw e
  | None => modify (setUsers (insert uuid user))
  end.

(** [required: true] on a string path rejects the empty string. *)
Definition checkRequired (path value : string) : option JsError :=
  if nonEmpty value then None else Some (ValidatorError path "required").

Definition validateChapter (c : Chapter) : option JsError :=
  checkRequired "name" (c_name c).

Definition validateNote (n : Note) : option JsError :=
  match checkRequired "title" (n_title n) with
  | Some e => Some e
  | None =>
      if bool_decide (n_type n ∈ noteTypes) then None
      else Some (ValidatorError "type" "enum")
  end.

Definition pushChapter (c : Chapter) (s : Subject) : Subject :=
  mkSubject (s_id s) (s_name s) (s_chapters s ++ [c]) (s_createdAt s).
Definition pushNote (n : Note) (c : Chapter) : Chapter :=
  mkChapter (c_id c) (c_name c) (c_notes c ++ [n]) (c_createdAt c).
Definition setChapter (j : nat) (c : Chapter) (s : Subject) : Subject :=
  mkSubject (s_id s) (s_name s) (<[j := c]> (s_chapters s)) (s_createdAt s).
Definition setSubject (i : nat) (s : Subject) (u : User) : User :=
  mkUser (u_id u) (u_uuid u) (u_createdAt u) (<[i := s]> (u_subjects u)).
Definition pushSubject (s : Subject) (u : User) : User :=
  mkUser (u_id u) (u_uuid u) (u_createdAt u) (u_subjects u ++ [s]).

(** GET /api/user/subjects *)
Definition getSubjects : State -> Response * State :=
  handle (uuid <- requireAuth ;;
          userDoc <- findOne uuid ;;
          match userDoc with
          | Some u =>
              match u_subjects u with
              | [] => ret (mkResponse 200
                       (JSubjectList false (Some "Add your first subject to get started!") []))
              | subjects => ret (mkResponse 200 (JSubjectList true None subjects))
              end
          | None => ret (mkResponse 200
                       (JSubjectList false (Some "Add your first subject to get started!") []))
          end)
         (fun _ => JError "Server error").

(** [findOneAndUpdate({ uuid }, { $push: { subjects } }, { upsert, new })] *)
Definition findOneAndUpdate_push (env : Env) (uuid name : string) : M User :=
  sid <- newObjectId ;;
  let subject := mkSubject sid name [] (now env) in
  found <- findOne uuid ;;
  match found with
  | Some u =>
      let u' := pushSubject subject u in
      modify (setUsers (insert uuid u')) ;;; ret u'
  | None =>
      uid <- newObjectId ;;
      let u' := mkUser uid uuid (now env) [subject] in
      modify (setUsers (insert uuid u')) ;;; ret u'
  end.

(** POST /api/user/subjects *)
Definition createSubject (env : Env) (name : option string)
  : State -> Response * State :=
  handle (uuid <- requireAuth ;;
          if missingOrBlank name
          then reply 400 (JError "Subject name required")
          else
            update <- findOneAndUpdate_push env uuid (trim (default "" name)) ;;
            ret (mkResponse 201 (JSubjects "Subject created" (u_subjects update))))
         (fun _ => JError "Server error").

(** POST /api/user/chapters *)
Definition createChapter (env : Env) (subjectId name : option string)
  : State -> Response * State :=
  handle (uuid <- requireAuth ;;
          if negb (truthy subjectId) || negb (truthy name)
          then reply 400 (JError "subjectId and name required")
          else
            found <- findOne uuid ;;
            match found with
            | None => reply 404 (JError "User not found")
            | Some user =>
                match findById s_id (u_subjects user) subjectId with
                | None => reply 404 (JError "Subject not found")
                | Some (i, subject) =>
                    cid <- newObjectId ;;
                    let chapter := mkChapter cid (trim (default "" name)) [] (now env) in
                    let subject' := pushChapter chapter subject in
                    save uuid (setSubject i subject' user) (validateChapter chapter) ;;;
                    ret (mkResponse 201
                           (JChapters "Chapter created" (s_chapters subject')))
                end
            end)
         (fun _ => JError "Server error").

(** The template literal of [gcsFileName]. *)
Definition gcsFileName (userUUID subjectId chapterId : string) (now : N)
    (originalname : string) : string :=
  userUUID +:+ "/" +:+ subjectId +:+ "/" +:+ chapterId +:+ "/"
  +:+ decimal now +:+ "_" +:+ originalname.

(** The template literal of [publicUrl]. *)
Definition publicUrl (b : Bucket) (blobName : string) : string :=
  "https://storage.googleapis.com/" +:+ bucket_name b +:+ "/" +:+ blobName.

(** [await blob.save(file.buffer, { contentType })] *)
Definition blob_save (env : Env) (name : string) (file : UploadedFile) : M unit :=
  match blobSave env with
  | Some e => throw e
  | None => modify (setObjects (insert name (mkObject (buffer file) (mimetype file) false)))
  end.

(** [try { await blob.makePublic(); } catch (e) {}] *)
Definition blob_makePublic (env : Env) (name : string) : M unit :=
  match makePublic env with
  | Some _ => ret tt
  | None =>
      modify (setObjects (alter (fun o => mkObject (o_data o) (o_contentType o) true) name))
  end.

(** The multipart fields of an upload request and [req.file]. *)
Record UploadBody := mkUpload {
  up_subjectId : option string;
  up_chapterId : option string;
  up_title : option string;
  up_type : option string;
  up_content : option string;
  up_file : option UploadedFile
}.

(** What a template literal prints for a field. *)
Definition interpolate (o : option string) : string := default "undefined" o.

(** POST /api/user/upload-note-file *)
Definition uploadNoteFileBody (cfg : Config) (env : Env) (req : UploadBody)
  : M Response :=
  uuid <- requireAuth ;;
  let subjectId := up_subjectId req in
  let chapterId := up_chapterId req in
  let title := default "" (up_title req) in
  let type := default "notes" (up_type req) in
  let content := default "" (up_content req) in
  let file := up_file req in
  if negb (defined file) && negb (nonEmpty title)
  then reply 400 (JError "Title or file required")
  else
    found <- findOne uuid ;;
    match found with
    | None => reply 404 (JError "User not found")
    | Some user =>
    match findById s_id (u_subjects user) subjectId with
    | None => reply 404 (JError "Subject not found")
    | Some (i, subject) =>
    match findById c_id (s_chapters subject) chapterId with
    | None => reply 404 (JError "Chapter not found")
    | Some (j, chapter) =>
        let store (n : Note) : M unit :=
          save uuid (setSubject i (setChapter j (pushNote n chapter) subject) user)
               (validateNote n) in
        match file with
        | None =>
            nid <- newObjectId ;;
            store (mkNote nid (trim title) content type "" "" (now env)) ;;;
            ret (mkResponse 201 (JMessage "Note saved"))
        | Some file =>
            match gcpConfigured cfg, storage cfg, bucket cfg with
            | true, Some _, Some bucket =>
                let name := gcsFileName uuid (interpolate subjectId)
                              (interpolate chapterId) (now env) (originalname file) in
                blob_save env name file ;;;
                blob_makePublic env name ;;;
                let url := publicUrl bucket name in
                nid <- newObjectId ;;
                store (mkNote nid
                         (if nonEmpty title then title else originalname file)
                         content type url (mimetype file) (now env)) ;;;
                ret (mkResponse 201 (JFileUrl "File uploaded" url))
            | _, _, _ => reply 500 (JError "Cloud storage not configured")
            end
        end
    end end end.

Definition uploadNoteFile (cfg : Config) (env : Env) (req : UploadBody)
  : State -> Response * State :=
  handle (uploadNoteFileBody cfg env req) (JErrorDetails "Upload failed").

End Notes.

(** ** Notions used in the statements *)

Definition authenticated (st : State) : Prop :=
  Js.truthy (userUUID (session st)) = true.

Definition history (st : State) : list ChatMsg :=
  default [] (chatHistory (session st)).

Definition aiUnavailable (cfg : Config) : Prop :=
  geminiReady cfg = false \/ model cfg = None.

Definition subjectsOf (st : State) (uuid : string) : list Subject :=
  match users st !! uuid with
  | Some u => u_subjects u
  | None => []
  end.

Definition loggedInAs (st : State) (uuid : string) : Prop :=
  userUUID (session st) = Some uuid /\ uuid <> "".

(** The id a client sent denotes the sub-document [x]. *)
Definition matches {A} (getId : A -> ObjectId) (id : option string) (x : A) : Prop :=
  id ≫= castObjectId = Some (getId x).

(** ** The fallback ladder as an ordered rule table *)

Module Ladder.
Import Js Chat.

(** A rule: a keyword predicate on the lower-cased message and the response
    template, which may look at whether notes context was supplied. *)
Abbreviation Rule := ((string -> bool) * (option string -> string))%type.

(** The table as the specification words it: greeting, help, explanation,
    quiz, difficulty, exam preparation, thanks, and the default that always
    matches. *)
Definition rules : list Rule :=
  [ (fun l => includes l "hello" || includes l "hi" || includes l "hey",
     fun _ => greeting);
    (fun l => includes l "help" || includes l "what can you",
     fun _ => helpOffer);
    (fun l => includes l "explain" || includes l "what is",
     explanation);
    (fun l => includes l "quiz" || includes l "test",
     fun _ => quizPrompt);
    (fun l => includes l "difficult" || includes l "hard"
              || includes l "don't understand",
     fun _ => encouragement);
    (fun l => includes l "exam" || includes l "preparation",
     fun _ => examAdvice);
    (fun l => includes l "thank",
     fun _ => welcome);
    (fun _ => true,
     defaultAnswer) ].

(** Rule [k] fires on [l]: its predicate holds and no earlier one does. *)
Definition fires (k : nat) (l : string) : Prop :=
  exists r, rules !! k = Some r /\ fst r l = true
    /\ forall j r', j < k -> rules !! j = Some r' -> fst r' l = false.

(** First match wins. *)
Fixpoint dispatch (rs : list Rule) (l : string) (nc : option string)
  : option string :=
  match rs with
  | [] => None
  | (p, t) :: rs' => if p l then Some (t nc) else dispatch rs' l nc
  end.

End Ladder.

(** ** The session history across requests *)

Module Trace.
Import Js Chat.

(** The chat operations a client can issue in one session; the module state
    read by a request may differ from one request to the next. *)
Inductive Op :=
| OpChat (cfg : Config) (message notesContext : option string)
| OpClearChat.

Section WithCaseMapping.
Context `{CM : CaseMapping}.

Definition step (st : State) (op : Op) : State :=
  match op with
  | OpChat cfg message nc => snd (chat cfg message nc st)
  | OpClearChat => snd (clearChat st)
  end.

Definition run (ops : list Op) (st : State) : State := fold_left step ops st.

End WithCaseMapping.

End Trace.

(** ** The prompt sent to the AI client *)

Module Prompt.
Import Js Chat.

(** One history entry as the specification words it: ["{role}: {content}"]. *)
Definition specLine (m : ChatMsg) : string := role m +:+ ": " +:+ content m.

Definition joinLines (l : list ChatMsg) : string :=
  fold_right (fun m acc => historyLine m +:+ acc) "" l.

Definition notesSection (notesContext : option string) : string :=
  if hasNotes notesContext
  then "Student's materials:" +:+ nl
       +:+ substring0 300 (default "" notesContext) +:+ nl +:+ nl
  else "".

Definition historySection (history : list ChatMsg) : string :=
  match sliceLast 6 history with
  | [] => ""
  | recent => "Recent chat:" +:+ nl +:+ joinLines recent
  end.

(** The prompt, section by section: persona preamble, the first 300
    characters (code units) of the notes context, the last six history
    entries, the new message. *)
Definition layout (notesContext : option string) (history : list ChatMsg)
    (message : string) : string :=
  preamble +:+ notesSection notesContext +:+ historySection history
  +:+ "Student: " +:+ message +:+ nl +:+ "AI Buddy:".

End Prompt.

(** ** The upload route, case by case *)

Module Upload.
Import Js Notes.

Definition unconfigured (cfg : Config) : Prop :=
  gcpConfigured cfg = false \/ storage cfg = None \/ bucket cfg = None.

(** The notes of the chapter a request addresses, when it exists. *)
Definition notesOf (st : State) (uuid : string) (subjectId chapterId : option string)
  : option (list Note) :=
  match users st !! uuid with
  | Some user =>
      match findById s_id (u_subjects user) subjectId with
      | Some (_, subject) =>
          match findById c_id (s_chapters subject) chapterId with
          | Some (_, chapter) => Some (c_notes chapter)
          | None => None
          end
      | None => None
      end
  | None => None
  end.

(** The three lookups of the route succeed. *)
Definition resolves (st : State) (uuid : string) (req : UploadBody)
    (user : User) (i : nat) (subject : Subject) (j : nat) (chapter : Chapter) : Prop :=
  users st !! uuid = Some user
  /\ findById s_id (u_subjects user) (up_subjectId req) = Some (i, subject)
  /\ findById c_id (s_chapters subject) (up_chapterId req) = Some (j, chapter).

Definition written (st : State) (uuid : string) (user : User) (i : nat)
    (subject : Subject) (j : nat) (chapter : Chapter) (n : Note)
    (objs : gmap string GcsObject) : State :=
  mkState (<[uuid := setSubject i (setChapter j (pushNote n chapter) subject) user]> (users st))
          (oidCounter st + 1)%N objs (session st).

Definition refused (st : State) (e : JsError) (objs : gmap string GcsObject)
  : Response * State :=
  (mkResponse 500 (JErrorDetails "Upload failed" e),
   mkState (users st) (oidCounter st + 1)%N objs (session st)).

Definition published (env : Env) (name : string) (objs : gmap string GcsObject)
  : gmap string GcsObject :=
  match makePublic env with
  | Some _ => objs
  | None => alter (fun o => mkObject (o_data o) (o_contentType o) true) name objs
  end.

Definition textNote (env : Env) (req : UploadBody) (st : State) : Note :=
  mkNote (oidCounter st) (trim (default "" (up_title req)))
         (default "" (up_content req)) (default "notes" (up_type req)) "" "" (now env).

Definition objectName (env : Env) (req : UploadBody) (uuid : string)
    (file : UploadedFile) : string :=
  gcsFileName uuid (interpolate (up_subjectId req)) (interpolate (up_chapterId req))
              (now env) (originalname file).

Definition fileNote (env : Env) (req : UploadBody) (st : State) (url : string)
    (file : UploadedFile) : Note :=
  mkNote (oidCounter st)
         (if nonEmpty (default "" (up_title req)) then default "" (up_title req)
          else originalname file)
         (default "" (up_content req)) (default "notes" (up_type req))
         url (mimetype file) (now env).

(** What the route does once the three lookups have succeeded. *)
Definition resolved (cfg : Config) (env : Env) (req : UploadBody) (st : State)
    (uuid : string) (user : User) (i : nat) (subject : Subject) (j : nat)
    (chapter : Chapter) : Response * State :=
  match up_file req with
  | None =>
      let n := textNote env req st in
      match validateNote n with
      | None => (mkResponse 201 (JMessage "Note saved"),
                 written st uuid user i subject j chapter n (objects st))
      | Some e => refused st e (objects st)
      end
  | Some file =>
      match gcpConfigured cfg, storage cfg, bucket cfg with
      | true, Some _, Some b =>
          let name := objectName env req uuid file in
          match blobSave env with
          | Some e => (mkResponse 500 (JErrorDetails "Upload failed" e), st)
          | None =>
              let objs :=
                published env name
                  (<[name := mkObject (buffer file) (mimetype file) false]> (objects st)) in
              let n := fileNote env req st (publicUrl b name) file in
              match validateNote n with
              | None => (mkResponse 201 (JFileUrl "File uploaded" (publicUrl b name)),
                         written st uuid user i subject j chapter n objs)
              | Some e => refused st e objs
              end
          end
      | _, _, _ => (mkResponse 500 (JError "Cloud storage not configured"), st)
      end
  end.

(** The whole route for a logged-in caller. *)
Definition outcome (cfg : Config) (env : Env) (req : UploadBody) (st : State)
    (uuid : string) : Response * State :=
  if negb (defined (up_file req)) && negb (nonEmpty (default "" (up_title req)))
  then (mkResponse 400 (JError "Title or file required"), st)
  else
    match users st !! uuid with
    | None => (mkResponse 404 (JError "User not found"), st)
    | Some user =>
        match findById s_id (u_subjects user) (up_subjectId req) with
        | None => (mkResponse 404 (JError "Subject not found"), st)
        | Some (i, subject) =>
            match findById c_id (s_chapters subject) (up_chapterId req) with
            | None => (mkResponse 404 (JError "Chapter not found"), st)
            | Some (j, chapter) => resolved cfg env req st uuid user i subject j chapter
            end
        end
    end.

End Upload.

(** ** Digits of a printed timestamp *)

Definition isDigit (c : N) : bool := ((48 <=? c) && (c <=? 57))%N.

Fixpoint allDigits (s : string) : bool :=
  match s with
  | EmptyString => true
  | String c s' => isDigit c && allDigits s'
  end.

(** ** Sample data for the closed examples *)

Module Sample.
Import Js Chat Notes Trace Upload.

(** The case mapping under which the closed examples are evaluated: A to Z
    are lower-cased, every other code unit is left as it is.  It stands in
    for the engine's mapping on ASCII text only, which is all that the
    examples send. *)
#[global] Program Instance asciiOnly : CaseMapping := {| toLowerCase := lowerAscii |}.
Next Obligation. reflexivity. Qed.
Next Obligation.
  intros s. induction s as [|c s IH]; simpl; [reflexivity|].
  intros H. apply andb_true_iff in H as [Hc Hs].
  apply andb_true_iff. split; [|exact (IH Hs)].
  unfold lowerUnit. destruct ((65 <=? c) && (c <=? 90))%N eqn:E; [|exact Hc].
  exfalso. apply andb_true_iff in E as [E1 E2].
  apply N.leb_le in E1, E2. unfold isWhiteSpace in Hc.
  repeat (apply orb_true_iff in Hc as [Hc|Hc]);
    try (apply N.eqb_eq in Hc; lia);
    apply andb_true_iff in Hc as [H1 H2]; apply N.leb_le in H1, H2; lia.
Qed.

Definition offlineConfig : Config := mkConfig false None false None None.
Definition aliceSession : State :=
  mkState ∅ 0%N ∅ (mkSession (Some "user-1") None).

(** Six exchanges, then [clearChat], then one more. *)
Definition sixThenClearThenOne : list Op :=
  repeat (OpChat offlineConfig (Some "what is a cell?") None) 6
  ++ [OpClearChat; OpChat offlineConfig (Some "hello") None].

(** A client whose every call raises. *)
Definition failingConfig : Config :=
  mkConfig true (Some (mkModel (fun _ => Raises (ExternalError "fetch failed"))))
           false None None.

(** A client that answers every prompt with the same sentence. *)
Definition echoConfig : Config :=
  mkConfig true (Some (mkModel (fun p => Text ("Osmosis moves water.")))) false None None.

(** A client whose call succeeds with an empty text. *)
Definition silentConfig : Config :=
  mkConfig true (Some (mkModel (fun _ => Text ""))) false None None.

Definition morning : Env := mkEnv 1700000000123 None None.

(** user-1 after creating the subject "Math" (id 0; the profile got id 1). *)
Definition mathState : State := snd (createSubject morning (Some "Math") aliceSession).

Definition mathId : string := "000000000000000000000000".
Definition algebraId : string := "000000000000000000000002".

(** ... and after creating the chapter "Algebra" (id 2) in it. *)
Definition algebraState : State :=
  snd (createChapter morning (Some mathId) (Some "Algebra") mathState).

Definition math : Subject := mkSubject 0%N "Math" [] 1700000000123.
Definition algebra : Chapter := mkChapter 2%N "Algebra" [] 1700000000123.
Definition mathWithAlgebra : Subject := mkSubject 0%N "Math" [algebra] 1700000000123.
Definition alice : User := mkUser 1%N "user-1" 1700000000123 [math].
Definition aliceWithAlgebra : User := mkUser 1%N "user-1" 1700000000123 [mathWithAlgebra].

(** A configured store: bucket "study-files". *)
Definition storeConfig : Config :=
  mkConfig false None true (Some GcsClient) (Some (mkBucket "study-files")).

Definition lectureFile : UploadedFile :=
  mkFile "lecture1.pdf" "application/pdf" "%PDF-1.4 first".

Definition lectureUpload : UploadBody :=
  mkUpload (Some mathId) (Some algebraId) (Some "Lecture 1") None None (Some lectureFile).



(** A second, different file of the same name, sent in the same
    millisecond. *)
Definition revisedFile : UploadedFile :=
  mkFile "lecture1.pdf" "application/pdf" "%PDF-1.4 second".

Definition revisedUpload : UploadBody :=
  mkUpload (Some mathId) (Some algebraId) (Some "Lecture 1, revised") None None
           (Some revisedFile).

Definition lectureObject : string :=
  "user-1/000000000000000000000000/000000000000000000000002/1700000000123_lecture1.pdf".

End Sample.

(** ** POST /api/user/notes *)

Module NoteRoute.
Import Js Notes.

Definition createNote (env : Env) (subjectId chapterId title content type : option string)
  : State -> Response * State :=
  handle (uuid <- requireAuth ;;
          let content := default "" content in
          let type := default "notes" type in
          if negb (truthy subjectId) || negb (truthy chapterId) || negb (truthy title)
          then reply 400 (JError "subjectId, chapterId and title required")
          else
            found <- findOne uuid ;;
            match found with
            | None => reply 404 (JError "User not found")
            | Some user =>
            match findById s_id (u_subjects user) subjectId with
            | None => reply 404 (JError "Subject not found")
            | Some (i, subject) =>
            match findById c_id (s_chapters subject) chapterId with
            | None => reply 404 (JError "Chapter not found")
            | Some (j, chapter) =>
                nid <- newObjectId ;;
                let n := mkNote nid (trim (default "" title)) content type "" "" (now env) in
                let chapter' := pushNote n chapter in
                save uuid (setSubject i (setChapter j chapter' subject) user)
                     (validateNote n) ;;;
                ret (mkResponse 201 (JNotes "Note added" (c_notes chapter')))
            end end end)
         (fun _ => JError "Server error").

End NoteRoute.

(** ** The session routes of the server, as one request type *)

Module Server.
Import Js Chat Notes NoteRoute.

Inductive Request :=
| ChatReq (cfg : Config) (message notesContext : option string)
| ClearChatReq
| GetSubjectsReq
| CreateSubjectReq (env : Env) (name : option string)
| CreateChapterReq (env : Env) (subjectId name : option string)
| CreateNoteReq (env : Env) (subjectId chapterId title content type : option string)
| UploadReq (cfg : Config) (env : Env) (req : UploadBody).

Section WithCaseMapping.
Context `{CM : CaseMapping}.

Definition serve (r : Request) : State -> Response * State :=
  match r with
  | ChatReq cfg message nc => chat cfg message nc
  | ClearChatReq => clearChat
  | GetSubjectsReq => getSubjects
  | CreateSubjectReq env name => createSubject env name
  | CreateChapterReq env subjectId name => createChapter env subjectId name
  | CreateNoteReq env subjectId chapterId title content type =>
      createNote env subjectId chapterId title content type
  | UploadReq cfg env req => uploadNoteFile cfg env req
  end.

(** The requests of one session, one after the other. *)
Definition serveAll (rs : list Request) (st : State) : State :=
  fold_left (fun st r => snd (serve r st)) rs st.

End WithCaseMapping.

(** The routes that write the note tree. *)
Definition writesNotes (r : Request) : bool :=
  match r with
  | CreateSubjectReq _ _ | CreateChapterReq _ _ _
  | CreateNoteReq _ _ _ _ _ _ | UploadReq _ _ _ => true
  | _ => false
  end.

(** The routes that write the session. *)
Definition writesSession (r : Request) : bool :=
  match r with
  | ChatReq _ _ _ | ClearChatReq => true
  | _ => false
  end.

End Server.

(** ** Growth of the note tree *)

Module Growth.

(** [l'] is [l] with its elements possibly grown and new ones appended. *)
Definition grows {A} (R : A -> A -> Prop) (l l' : list A) : Prop :=
  exists m k, l' = m ++ k /\ Forall2 R l m.

(** A chapter keeps its identity and its notes, in order; notes may follow. *)
Definition chapterGrows (c c' : Chapter) : Prop :=
  c_id c' = c_id c /\ c_name c' = c_name c /\ c_createdAt c' = c_createdAt c
  /\ exists more, c_notes c' = c_notes c ++ more.

Definition subjectGrows (s s' : Subject) : Prop :=
  s_id s' = s_id s /\ s_name s' = s_name s /\ s_createdAt s' = s_createdAt s
  /\ grows chapterGrows (s_chapters s) (s_chapters s').

Definition userGrows (u u' : User) : Prop :=
  u_id u' = u_id u /\ u_uuid u' = u_uuid u /\ u_createdAt u' = u_createdAt u
  /\ grows subjectGrows (u_subjects u) (u_subjects u').

(** Every document of the old store is still there, grown. *)
Definition storeGrows (old new : gmap string User) : Prop :=
  forall uuid u, old !! uuid = Some u ->
    exists u', new !! uuid = Some u' /\ userGrows u u'.

End Growth.

(** ** Whole exchanges in the chat history *)

(** The history is a sequence of exchanges: a user entry, then the
    assistant's. *)
Inductive exchanges : list ChatMsg -> Prop :=
| exchanges_nil : exchanges []
| exchanges_cons (m a : string) (h : list ChatMsg) :
    exchanges h -> exchanges (mkMsg "user" m :: mkMsg "assistant" a :: h).

(** ** Registration, login, logout *)

Module Auth.
Import Js Notes.

(** A row of the [users] table of the credential store. *)
Record Account := mkAccount {
  a_id : string;
  a_username : string;
  a_email : string;
  a_password : option string
}.

(** [bcrypt.hash(password, 10)] with the salt it draws, and
    [bcrypt.compare]. *)
Record Bcrypt := mkBcrypt {
  bhash : string -> string -> string;
  bcompare : string -> string -> bool
}.

(** What the credential store and the session store decide during a
    request. *)
Record AuthEnv := mkAuthEnv {
  selectFails : option JsError;    (* the [select] query reports an error *)
  insertFails : option JsError;    (* the [insert] reports an error *)
  generatedId : string;            (* the [id] the table gives the new row *)
  salt : string;
  today : N;
  destroyFails : option JsError    (* [req.session.destroy] reports an error *)
}.

(** The credential table beside the state of the server. *)
Record Site := mkSite { accounts : list Account; app : State }.

Inductive AuthBody :=
| AError (error : string)
| ARegistered (message redirect : string)
| ALoggedIn (message redirect username email userId : string)
| ALoggedOut (message : string).

Record AuthResponse := mkAuthResponse { a_status : nat; a_body : AuthBody }.

(** The outcome of [.eq("email", email).maybeSingle()]. *)
Inductive Selected :=
| NoRow
| OneRow (a : Account)
| SelectError (e : JsError).

Definition maybeSingle (env : AuthEnv) (rows : list Account) (email : string) : Selected :=
  match selectFails env with
  | Some e => SelectError e
  | None =>
      match List.filter (fun a => Utf16.eqb (a_email a) email) rows with
      | [] => NoRow
      | [a] => OneRow a
      | _ => SelectError (ExternalError "more than one row")
      end
  end.

(** [UserModel.create({ uuid, subjects: [] })]: [None] when it throws. *)
Definition createProfile (env : AuthEnv) (uuid : string) (st : State) : option State :=
  if nonEmpty uuid then
    match users st !! uuid with
    | Some _ => None
    | None =>
        Some (mkState (<[uuid := mkUser (oidCounter st) uuid (today env) []]> (users st))
                      (oidCounter st + 1)%N (objects st) (session st))
    end
  else None.

(** POST /api/register *)
Definition register (b : Bcrypt) (env : AuthEnv) (username email password : option string)
    (site : Site) : AuthResponse * Site :=
  if negb (truthy username) || negb (truthy email) || negb (truthy password)
  then (mkAuthResponse 400 (AError "All fields are required"), site)
  else
    let failed := mkAuthResponse 500 (AError "Failed to register user") in
    match maybeSingle env (accounts site) (default "" email) with
    | OneRow _ => (mkAuthResponse 400 (AError "User already exists"), site)
    | _ =>
        let hashedPassword := bhash b (default "" password) (salt env) in
        match insertFails env with
        | Some _ => (failed, site)
        | None =>
            let data := mkAccount (generatedId env) (default "" username)
                                  (default "" email) (Some hashedPassword) in
            let rows := accounts site ++ [data] in
            match createProfile env (a_id data) (app site) with
            | None => (failed, mkSite rows (app site))
            | Some st =>
                (mkAuthResponse 200
                   (ARegistered "User registered successfully" "/login.html"),
                 mkSite rows st)
            end
        end
    end.

Definition invalidLogin : AuthResponse :=
  mkAuthResponse 400 (AError "Invalid email or password").

(** [req.session.userUUID = user.id]: the chat history of the session
    stays; [username] and [email], which no handler reads back, are not
    kept in the model of the session. *)
Definition setUser (id : string) (st : State) : State :=
  mkState (users st) (oidCounter st) (objects st)
          (mkSession (Some id) (chatHistory (session st))).

(** POST /api/login *)
Definition login (b : Bcrypt) (env : AuthEnv) (email password : option string)
    (site : Site) : AuthResponse * Site :=
  if negb (truthy email) || negb (truthy password)
  then (mkAuthResponse 400 (AError "Email and password are required"), site)
  else
    match maybeSingle env (accounts site) (default "" email) with
    | SelectError _ => (mkAuthResponse 500 (AError "Database query failed"), site)
    | NoRow => (invalidLogin, site)
    | OneRow user =>
        match a_password user with
        | None | Some EmptyString => (invalidLogin, site)
        | Some hashed =>
            if bcompare b (default "" password) hashed
            then (mkAuthResponse 200
                    (ALoggedIn "Login successful" "/dashboard.html"
                               (a_username user) (a_email user) (a_id user)),
                  mkSite (accounts site) (setUser (a_id user) (app site)))
            else (invalidLogin, site)
        end
    end.

(** POST /api/logout: a destroyed session has no fields left. *)
Definition logout (env : AuthEnv) (site : Site) : AuthResponse * Site :=
  match destroyFails env with
  | Some _ => (mkAuthResponse 500 (AError "Logout failed"), site)
  | None =>
      (mkAuthResponse 200 (ALoggedOut "Logged out successfully"),
       mkSite (accounts site)
              (mkState (users (app site)) (oidCounter (app site)) (objects (app site))
                       (mkSession None None)))
  end.

(** A hash is never the empty string, and the hash of a password is
    accepted for that password. *)
Definition sound (b : Bcrypt) : Prop :=
  forall password salt,
    bhash b password salt <> ""
    /\ bcompare b password (bhash b password salt) = true.

(** The rows of the table with a given email. *)
Definition withEmail (email : string) (rows : list Account) : list Account :=
  List.filter (fun a => Utf16.eqb (a_email a) email) rows.

End Auth.

(** ** The browser side: [ai-buddy.js] and [notes.js] *)

Module Client.
Import Js Chat Notes.

(** *** [formatNotesForAI] *)

Definition formatNote (context : string) (note : Note) : string :=
  let context :=
    context +:+ "    - " +:+ n_title note +:+ " (" +:+ n_type note +:+ ")" +:+ nl in
  if nonEmpty (n_content note)
  then context +:+ "      Content: " +:+ n_content note +:+ nl
  else context.

Definition formatChapter (context : string) (chapter : Chapter) : string :=
  let context := context +:+ "  Chapter: " +:+ c_name chapter +:+ nl in
  if (0 <? List.length (c_notes chapter))%nat
  then fold_left formatNote (c_notes chapter) context
  else context.

Definition formatSubject (context : string) (subject : Subject) : string :=
  let context := context +:+ "Subject: " +:+ s_name subject +:+ nl in
  let context :=
    if (0 <? List.length (s_chapters subject))%nat
    then fold_left formatChapter (s_chapters subject) context
    else context in
  context +:+ nl.

Definition notesHeader : string := "User's Study Materials:" +:+ nl +:+ nl.

Definition formatNotesForAI (subjects : list Subject) : string :=
  fold_left formatSubject subjects notesHeader.

(** The text of one note, chapter, subject on its own. *)
Definition noteText (note : Note) : string :=
  "    - " +:+ n_title note +:+ " (" +:+ n_type note +:+ ")" +:+ nl
  +:+ (if nonEmpty (n_content note)
       then "      Content: " +:+ n_content note +:+ nl else "").

Definition concatMap {A} (f : A -> string) (l : list A) : string :=
  fold_right (fun x acc => f x +:+ acc) "" l.

Definition chapterText (chapter : Chapter) : string :=
  "  Chapter: " +:+ c_name chapter +:+ nl +:+ concatMap noteText (c_notes chapter).

Definition subjectText (subject : Subject) : string :=
  "Subject: " +:+ s_name subject +:+ nl
  +:+ concatMap chapterText (s_chapters subject) +:+ nl.

(** *** [countTotalNotes] and [countNotes] *)

Definition countTotalNotes (subjects : list Subject) : nat :=
  fold_left
    (fun total subject =>
       fold_left (fun total chapter => total + List.length (c_notes chapter))
                 (s_chapters subject) total)
    subjects 0.

Definition countNotes (subject : Subject) : nat :=
  fold_left (fun acc ch => acc + List.length (c_notes ch)) (s_chapters subject) 0.

(** [ch.notes.length] *)
Definition notesIn (chapter : Chapter) : nat := List.length (c_notes chapter).

(** *** [escapeHtml] *)

Definition quot : N := 34%N.
Definition apos : N := 39%N.

(** The replacement of one character matched by the pattern: ampersand,
    angle brackets, double and single quote. *)
Definition escapeChar (c : N) : string :=
  if N.eqb c "&"%char then "&amp;"
  else if N.eqb c "<"%char then "&lt;"
  else if N.eqb c ">"%char then "&gt;"
  else if N.eqb c quot then "&quot;"
  else if N.eqb c apos then "&#39;"
  else String c EmptyString.

Fixpoint escapeHtml (s : string) : string :=
  match s with
  | EmptyString => EmptyString
  | String c s' => escapeChar c +:+ escapeHtml s'
  end.

(** A character with a meaning in HTML text or in an attribute value. *)
Definition markup (c : N) : bool :=
  N.eqb c "<"%char || N.eqb c ">"%char || N.eqb c quot || N.eqb c apos.

Fixpoint noMarkup (s : string) : bool :=
  match s with
  | EmptyString => true
  | String c s' => negb (markup c) && noMarkup s'
  end.

(** *** [loadUserNotes]: the notes context kept by the page *)

(** [response.ok] *)
Definition ok (r : Response) : bool :=
  (200 <=? status r)%nat && (status r <=? 299)%nat.

(** The value assigned to [notesContext] for the answer of
    GET /api/user/subjects; [None] is the [null] of the two branches that
    load nothing. *)
Definition notesContextOf (r : Response) : option string :=
  if ok r then
    match body r with
    | JSubjectList true _ (s :: l) => Some (formatNotesForAI (s :: l))
    | _ => None
    end
  else None.

Definition loadUserNotes (st : State) : option string * State :=
  let (r, st') := getSubjects st in (notesContextOf r, st').

(** *** [processUserInput] *)

(** The body of the request: [notesContext || ""]. *)
Definition sentContext (notesContext : option string) : option string :=
  Some (if truthy notesContext then default "" notesContext else "").

(** The text shown for a failed request, from the message of the error. *)
Definition failureText (message : string) : string :=
  let errorMsg := "Sorry, I couldn't process that. " in
  if includes message "Not authenticated"
  then errorMsg +:+ "Please log in again."
  else if includes message "AI service not configured"
  then errorMsg +:+ "The AI service is not set up. Please contact support."
  else if includes message "quota"
  then errorMsg +:+ "AI service quota exceeded. Please try again later."
  else errorMsg +:+ "Please try again. " +:+ message.

(** [data.error || data.details || "Failed to get response"]; [messageOf]
    gives the [message] of the error the server put in [details]. *)
Definition thrownMessage (messageOf : JsError -> string) (b : Body) : string :=
  match b with
  | JError e => if nonEmpty e then e else "Failed to get response"
  | JErrorDetails e d =>
      if nonEmpty e then e
      else if nonEmpty (messageOf d) then messageOf d
      else "Failed to get response"
  | _ => "Failed to get response"
  end.

(** The text handed to [addMessage] for the answer of the chat route;
    [None] is the [undefined] of a body without [response]. *)
Definition shown (messageOf : JsError -> string) (r : Response) : option string :=
  if ok r then
    match body r with
    | JResponse response => Some response
    | _ => None
    end
  else Some (failureText (thrownMessage messageOf (body r))).

Definition processUserInput `{CM : CaseMapping} (cfg : Config)
    (messageOf : JsError -> string)
    (userText : string) (notesContext : option string) (st : State)
  : option string * State :=
  let (r, st') := chat cfg (Some userText) (sentContext notesContext) st in
  (shown messageOf r, st').

(** *** The save-note button of [renderNotesView] *)

(** The form data sent for the inputs of the form; [None]: the alert
    "Title or file required", nothing is sent. *)
Definition saveNoteForm (subjectId chapterId : string)
    (titleInput contentInput typeInput : string) (file : option UploadedFile)
  : option UploadBody :=
  let title := trim titleInput in
  let content := trim contentInput in
  if negb (nonEmpty title) && negb (defined file) then None
  else
    Some (mkUpload (Some subjectId) (Some chapterId)
            (Some (if nonEmpty title then title
                   else match file with
                        | Some f => originalname f
                        | None => "Untitled"
                        end))
            (Some typeInput) (Some content) file).

(** The values of the options of the form's type selector. *)
Definition typeOptions : list string := ["notes"; "test"; "assignment"; "project"].

End Client.

(** ** Further sample data *)

Module Cases.
Import Js Chat Notes NoteRoute Server Upload Auth Client Sample.

(** A browser that never logged in. *)
Definition visitor : State := mkState ∅ 0%N ∅ (mkSession None None).

(** The answer of [getSubjects] to a user without subjects. *)
Definition firstUse : Body :=
  JSubjectList false (Some "Add your first subject to get started!") [].

(** A stand-in for bcrypt: the hash is the salt, a dollar sign and the
    password; a password is accepted when the hash ends in the dollar sign
    and that password. *)
Fixpoint endsWith (t s : string) : bool :=
  Utf16.eqb s t ||
  match s with
  | EmptyString => false
  | String _ s' => endsWith t s'
  end.

Definition toyBcrypt : Bcrypt :=
  mkBcrypt (fun password salt => salt +:+ "$" +:+ password)
           (fun password hashed => endsWith ("$" +:+ password) hashed).

Definition calm : AuthEnv := mkAuthEnv None None "user-7" "salt" 1700000000000 None.

Definition emptySite : Site := mkSite [] visitor.

(** A credential store whose lookup fails while its insert works. *)
Definition shakyLookup : AuthEnv :=
  mkAuthEnv (Some (ExternalError "fetch failed")) None "user-8" "pepper" 1700000000500 None.

(** A tree with one note. *)
Definition factoring : Note :=
  mkNote 3%N "Factoring" "x^2 - 1" "notes" "" "" 1700000000123%N.
Definition algebraWithNote : Chapter :=
  mkChapter 2%N "Algebra" [factoring] 1700000000123%N.
Definition mathWithNote : Subject :=
  mkSubject 0%N "Math" [algebraWithNote] 1700000000123%N.

End Cases.

(** * Theorems *)

(** ** The string primitives on concrete inputs *)

Example trim_ex : Js.trim "  Math  " = "Math". Proof. reflexivity. Qed.
Example trim_nbsp_ex : Js.trim (String 160%N ("Math" +:+ String 8232%N "")) = "Math".
Proof. reflexivity. Qed.
Example blank_nbsp_ex : Js.blank (String 160%N (String 65279%N " ")) = true.
Proof. reflexivity. Qed.
Example lower_ex : Js.lowerAscii "Can you QUIZ me?" = "can you quiz me?". Proof. reflexivity. Qed.
Example substring_ex : Js.substring0 3 "notes" = "not". Proof. reflexivity. Qed.
Example incl_ex : Js.includes "this" "hi" = true. Proof. reflexivity. Qed.
Example dec_ex : Js.decimal 1700000000123 = "1700000000123". Proof. reflexivity. Qed.
Example slice_ex : Js.sliceLast 2 [1;2;3] = [2;3]. Proof. reflexivity. Qed.

(** ** Facts about the string primitives *)

Section StringFacts.
Import Js Sample.

Lemma nonEmpty_trimEnd (s : string) : nonEmpty (trimEnd s) = negb (blank s).
Proof.
  induction s as [|c s IH]; simpl; [reflexivity|].
  destruct (trimEnd s); simpl in *.
  - destruct (blank s); [|discriminate].
    rewrite andb_true_r. now destruct (isWhiteSpace c).
  - destruct (blank s); [discriminate|]. now rewrite andb_false_r.
Qed.

Lemma blank_trimStart (s : string) : blank (trimStart s) = blank s.
Proof.
  induction s as [|c s IH]; simpl; [reflexivity|].
  destruct (isWhiteSpace c) eqn:E; simpl; [assumption|].
  now rewrite E.
Qed.

Lemma nonEmpty_trim (s : string) : nonEmpty (trim s) = negb (blank s).
Proof. unfold trim. now rewrite nonEmpty_trimEnd, blank_trimStart. Qed.

(** The guard [!s || !s.trim()] on a string is the blank test. *)
Lemma missingOrBlank_Some (s : string) : missingOrBlank (Some s) = blank s.
Proof.
  unfold missingOrBlank. rewrite nonEmpty_trim, negb_involutive.
  now destruct s.
Qed.

Lemma trim_nonEmpty_iff (s : string) : trim s <> "" <-> blank s = false.
Proof.
  pose proof (nonEmpty_trim s) as H.
  destruct (trim s), (blank s); simpl in H; split; intros; congruence.
Qed.

Lemma includes_cons (c : N) (s t : string) :
  includes (String c s) t = startsWith t (String c s) || includes s t.
Proof. reflexivity. Qed.

(** No word that starts with a visible character occurs in a blank text. *)
Lemma includes_blank (a : N) (t u : string) :
  isWhiteSpace a = false -> blank u = true -> includes u (String a t) = false.
Proof.
  intros Ha. induction u as [|c u IH]; [reflexivity|].
  simpl blank. intros H. apply andb_true_iff in H as [Hc Hu].
  rewrite includes_cons, (IH Hu), orb_false_r. simpl.
  destruct (N.eqb a c) eqn:E; [|reflexivity].
  apply N.eqb_eq in E. congruence.
Qed.

(** A text in whose lower-cased form a word starting with a visible
    character occurs is not blank. *)
Lemma includes_not_blank `{CM : CaseMapping} (a : N) (t s : string) :
  isWhiteSpace a = false ->
  includes (toLowerCase s) (String a t) = true -> blank s = false.
Proof.
  intros Ha H. destruct (blank s) eqn:Hb; [|reflexivity].
  rewrite (includes_blank a t _ Ha (toLowerCase_blank s Hb)) in H. discriminate.
Qed.

Lemma string_eqb_eq (a b : string) : Utf16.eqb a b = true <-> a = b.
Proof.
  revert b. induction a as [|c a IH]; intros [|d b]; simpl.
  - split; reflexivity.
  - split; discriminate.
  - split; discriminate.
  - rewrite andb_true_iff, N.eqb_eq, IH. split.
    + intros [-> ->]. reflexivity.
    + intros [= -> ->]. split; reflexivity.
Qed.

Lemma string_eqb_refl (a : string) : Utf16.eqb a a = true.
Proof. now apply string_eqb_eq. Qed.

Lemma string_eqb_neq (a b : string) : Utf16.eqb a b = false <-> a <> b.
Proof.
  split.
  - intros H ->. rewrite string_eqb_refl in H. discriminate.
  - intros H. destruct (Utf16.eqb a b) eqn:E; [|reflexivity].
    apply string_eqb_eq in E. contradiction.
Qed.

Lemma sliceLast_length {A} (n : nat) (l : list A) :
  List.length (sliceLast n l) = Nat.min n (List.length l).
Proof. unfold sliceLast. rewrite length_skipn. lia. Qed.

Lemma sliceLast_all {A} (n : nat) (l : list A) :
  List.length l <= n -> sliceLast n l = l.
Proof.
  intros H. unfold sliceLast.
  replace (List.length l - n) with 0 by lia. reflexivity.
Qed.

Lemma sliceLast_split {A} (n : nat) (l : list A) :
  l = firstn (List.length l - n) l ++ sliceLast n l.
Proof. unfold sliceLast. symmetry. apply firstn_skipn. Qed.

Lemma sliceLast_app {A} (n : nat) (l k : list A) :
  List.length k <= n -> exists pre, sliceLast n (l ++ k) = pre ++ k.
Proof.
  intros H. unfold sliceLast. rewrite length_app.
  exists (skipn (List.length l + List.length k - n) l).
  rewrite skipn_app.
  replace (List.length l + List.length k - n - List.length l) with 0 by lia.
  reflexivity.
Qed.

End StringFacts.

(** ** Sessions and the shape of a chat request *)

Lemma requireAuth_ok (st : State) :
  authenticated st ->
  exists uuid, userUUID (session st) = Some uuid /\ uuid <> ""
               /\ requireAuth st = (Value uuid, st).
Proof.
  unfold authenticated, requireAuth.
  destruct (userUUID (session st)) as [[|a u]|]; simpl; try discriminate.
  intros _. exists (String a u). repeat split. discriminate.
Qed.

Lemma requireAuth_fail (st : State) :
  ~ authenticated st ->
  requireAuth st
  = (Reply (mkResponse 401 (JError "Not authenticated. Please log in.")), st).
Proof.
  unfold authenticated, requireAuth.
  destruct (userUUID (session st)) as [[|a u]|]; simpl; try reflexivity.
  intros H. now destruct H.
Qed.

Section ChatFacts.
Import Js Chat Sample.

(** Every accepted chat request answers 200 with the produced response and
    leaves the remembered history in the session. *)
Lemma chat_accepted `{CM : CaseMapping} (cfg : Config) (msg : string) (nc : option string) (st : State) :
  authenticated st -> blank msg = false ->
  chat cfg (Some msg) nc st
  = (mkResponse 200 (JResponse (answer (tryGemini cfg nc (history st) msg) msg nc)),
     setHistory
       (Some (remember (history st) msg
                (answer (tryGemini cfg nc (history st) msg) msg nc))) st).
Proof.
  intros Ha Hb. destruct (requireAuth_ok st Ha) as (uuid & _ & _ & Hr).
  unfold chat, handle, chatBody, bind.
  rewrite Hr, missingOrBlank_Some, Hb. reflexivity.
Qed.

Lemma chat_rejected `{CM : CaseMapping} (cfg : Config) (message nc : option string) (st : State) :
  missingOrBlank message = true \/ ~ authenticated st ->
  snd (chat cfg message nc st) = st /\ ~ Succeeds (fst (chat cfg message nc st)).
Proof.
  intros H. unfold chat, handle, chatBody, bind.
  assert (D : authenticated st \/ ~ authenticated st).
  { unfold authenticated. destruct (truthy _); [left|right]; congruence. }
  destruct D as [Ha|Hn].
  - destruct (requireAuth_ok st Ha) as (uuid & _ & _ & Hr). rewrite Hr.
    destruct H as [H|H]; [|contradiction]. rewrite H. simpl.
    split; [reflexivity|]. unfold Succeeds. simpl. lia.
  - rewrite (requireAuth_fail st Hn). simpl.
    split; [reflexivity|]. unfold Succeeds. simpl. lia.
Qed.

Lemma tryGemini_unavailable (cfg : Config) nc h msg :
  aiUnavailable cfg -> tryGemini cfg nc h msg = Some "".
Proof.
  unfold tryGemini. intros [H|H]; rewrite H; [reflexivity|].
  now destruct (geminiReady cfg).
Qed.

Lemma remember_length (h : list ChatMsg) (m a : string) :
  List.length (remember h m a) <= 10.
Proof.
  unfold remember. destruct (10 <? _)%nat eqn:E.
  - rewrite sliceLast_length. lia.
  - apply Nat.ltb_ge in E. exact E.
Qed.

Lemma remember_sliceLast (h : list ChatMsg) (m a : string) :
  remember h m a = sliceLast 10 (h ++ [mkMsg "user" m; mkMsg "assistant" a]).
Proof.
  unfold remember. destruct (10 <? _)%nat eqn:E; [reflexivity|].
  apply Nat.ltb_ge in E. now rewrite sliceLast_all.
Qed.

Lemma remember_appended (h : list ChatMsg) (m a : string) :
  exists pre, remember h m a = pre ++ [mkMsg "user" m; mkMsg "assistant" a].
Proof.
  rewrite remember_sliceLast. apply sliceLast_app. simpl. lia.
Qed.

End ChatFacts.

(** ** The fallback ladder against its rule table *)

Section LadderFacts.
Import Js Chat Ladder Sample.

Lemma fires_unique (k k' : nat) (l : string) : fires k l -> fires k' l -> k = k'.
Proof.
  intros (r & Hr & Hp & Hlt) (r' & Hr' & Hp' & Hlt').
  destruct (Nat.lt_trichotomy k k') as [H|[H|H]]; [|assumption|].
  - rewrite (Hlt' k r H Hr) in Hp. discriminate.
  - rewrite (Hlt k' r' H Hr') in Hp'. discriminate.
Qed.

Lemma fallback_dispatch `{CM : CaseMapping} (msg : string) (nc : option string) :
  dispatch rules (toLowerCase msg) nc = Some (fallback msg nc).
Proof.
  unfold fallback, rules, dispatch.
  repeat match goal with
         | |- context [if ?b then _ else _] => destruct b; [reflexivity|]
         end.
  reflexivity.
Qed.

(** Whatever [dispatch] returns is the template of the one rule that fires. *)
Lemma dispatch_fires (rs pre : list Rule) (l : string) (nc : option string) (a : string) :
  rules = pre ++ rs ->
  (forall j r', rules !! j = Some r' -> j < List.length pre -> fst r' l = false) ->
  dispatch rs l nc = Some a ->
  exists k r, fires k l /\ rules !! k = Some r /\ a = snd r nc.
Proof.
  revert pre. induction rs as [|[p t] rs IH]; intros pre Hrules Hpre Hd.
  - discriminate.
  - simpl in Hd. destruct (p l) eqn:Hp.
    + injection Hd as <-. exists (List.length pre), (p, t).
      assert (Hk : rules !! List.length pre = Some (p, t)).
      { rewrite Hrules. rewrite lookup_app_r by lia.
        now rewrite Nat.sub_diag. }
      repeat split; try assumption.
      exists (p, t). repeat split; try assumption.
      intros j r' Hj Hr'. eapply Hpre; eassumption.
    + apply (IH (pre ++ [(p, t)])); try assumption.
      * now rewrite <- app_assoc.
      * intros j r' Hr' Hj. rewrite length_app in Hj. simpl in Hj.
        destruct (Nat.eq_dec j (List.length pre)) as [->|Hne].
        -- rewrite Hrules, lookup_app_r, Nat.sub_diag in Hr' by lia.
           simpl in Hr'. injection Hr' as <-. exact Hp.
        -- eapply Hpre; [eassumption|lia].
Qed.

Lemma fallback_fires `{CM : CaseMapping} (msg : string) (nc : option string) :
  exists k r, fires k (toLowerCase msg) /\ rules !! k = Some r
              /\ fallback msg nc = snd r nc.
Proof.
  apply (dispatch_fires rules [] _ nc); [reflexivity| |apply fallback_dispatch].
  intros j r' _ Hj. simpl in Hj. lia.
Qed.

End LadderFacts.

Section FallbackTheorems.
Import Js Chat Ladder Sample.

(** Without an AI client an accepted chat request is answered by the ladder. *)
Lemma chat_unavailable `{CM : CaseMapping} (cfg : Config) (msg : string) (nc : option string) (st : State) :
  aiUnavailable cfg -> authenticated st -> blank msg = false ->
  fst (chat cfg (Some msg) nc st) = mkResponse 200 (JResponse (fallback msg nc)).
Proof.
  intros Hu Ha Hb. rewrite chat_accepted by assumption.
  now rewrite tryGemini_unavailable.
Qed.

(** On ASCII text the ladder does not depend on the engine's case mapping. *)
Lemma fallback_ascii `{CM : CaseMapping} (msg : string) (nc : option string) :
  isAscii msg = true -> fallback msg nc = fallback (CM := asciiOnly) msg nc.
Proof. intros H. unfold fallback. now rewrite !toLowerCase_ascii by assumption. Qed.

(** C2: with the AI client unavailable, [chat] answers an accepted message
    through the ordered keyword ladder (greeting, help, explanation, quiz,
    difficulty, exam preparation, thanks, default): the response is the
    template of the first rule whose predicate matches the lower-cased
    message, exactly one rule fires, and in particular "hello" gets the
    greeting, "Can you quiz me?" the quiz response and "I need help with a
    quiz" the help response, not the quiz one; a keyword is found whatever
    its case: "What IS osmosis?" gets the explanation. *)
Theorem C2_fallback_ladder_first_match `{CM : CaseMapping}
    (cfg : Config) (st : State) (nc : option string)
    (Hcfg : aiUnavailable cfg) (Hauth : authenticated st) :
  (forall msg, blank msg = false ->
     exists k r,
       Ladder.fires k (toLowerCase msg)
       /\ (forall k', Ladder.fires k' (toLowerCase msg) -> k' = k)
       /\ Ladder.rules !! k = Some r
       /\ Ladder.dispatch Ladder.rules (toLowerCase msg) nc = Some (snd r nc)
       /\ fst (chat cfg (Some msg) nc st) = mkResponse 200 (JResponse (snd r nc)))
  /\ fst (chat cfg (Some "hello") nc st) = mkResponse 200 (JResponse greeting)
  /\ fst (chat cfg (Some "Can you quiz me?") nc st)
     = mkResponse 200 (JResponse quizPrompt)
  /\ fst (chat cfg (Some "I need help with a quiz") nc st)
     = mkResponse 200 (JResponse helpOffer)
  /\ helpOffer <> quizPrompt
  /\ fst (chat cfg (Some "What IS osmosis?") nc st)
     = mkResponse 200 (JResponse (explanation nc)).
Proof.
  assert (Hex : forall msg, isAscii msg = true -> blank msg = false ->
            fst (chat cfg (Some msg) nc st)
            = mkResponse 200 (JResponse (fallback (CM := asciiOnly) msg nc))).
  { intros msg Ha Hb. rewrite chat_unavailable by assumption.
    now rewrite fallback_ascii. }
  split; [|repeat split].
  - intros msg Hb.
    destruct (fallback_fires msg nc) as (k & r & Hf & Hr & Hs).
    exists k, r. repeat split; try assumption.
    + intros k' Hk'. exact (fires_unique _ _ _ Hk' Hf).
    + rewrite fallback_dispatch. now rewrite Hs.
    + rewrite chat_unavailable by assumption. now rewrite Hs.
  - rewrite Hex by reflexivity. vm_compute. reflexivity.
  - rewrite Hex by reflexivity. vm_compute. reflexivity.
  - rewrite Hex by reflexivity. vm_compute. reflexivity.
  - discriminate.
  - rewrite Hex by reflexivity. vm_compute. reflexivity.
Qed.

Lemma C2_fallback_ladder_first_match_witness :
  fst (chat offlineConfig (Some "I need help with a quiz") None aliceSession)
  = mkResponse 200 (JResponse helpOffer).
Proof.
  assert (Hcfg : aiUnavailable offlineConfig) by (left; reflexivity).
  assert (Hauth : authenticated aliceSession) by reflexivity.
  exact (proj1 (proj2 (proj2 (proj2
           (C2_fallback_ladder_first_match offlineConfig aliceSession None Hcfg Hauth))))).
Defined.

(** C9: the greeting predicate is substring containment: with the AI client
    unavailable, every message whose lower-cased text contains "hi" anywhere
    (so "this" and "think" too), "hello" or "hey" gets the greeting, before
    any later branch is looked at. *)
Theorem C9_greeting_by_substring `{CM : CaseMapping}
    (cfg : Config) (st : State) (nc : option string) (msg : string)
    (Hcfg : aiUnavailable cfg) (Hauth : authenticated st)
    (Hsub : includes (toLowerCase msg) "hi" = true
            \/ includes (toLowerCase msg) "hello" = true
            \/ includes (toLowerCase msg) "hey" = true) :
  fst (chat cfg (Some msg) nc st) = mkResponse 200 (JResponse greeting)
  /\ Ladder.fires 0 (toLowerCase msg)
  /\ includes (toLowerCase "this") "hi" = true
  /\ includes (toLowerCase "think") "hi" = true.
Proof.
  assert (Hb : blank msg = false).
  { destruct Hsub as [H|[H|H]];
      (eapply includes_not_blank; [|exact H]; reflexivity). }
  assert (Hg : (includes (toLowerCase msg) "hello" || includes (toLowerCase msg) "hi"
                || includes (toLowerCase msg) "hey") = true).
  { destruct Hsub as [H|[H|H]]; rewrite H; rewrite ?orb_true_r; reflexivity. }
  repeat split.
  - rewrite chat_unavailable by assumption. unfold fallback. now rewrite Hg.
  - exists (fun l => includes l "hello" || includes l "hi" || includes l "hey",
            fun _ => greeting).
    repeat split; [exact Hg|]. intros j r' Hj. lia.
  - rewrite toLowerCase_ascii by reflexivity. reflexivity.
  - rewrite toLowerCase_ascii by reflexivity. reflexivity.
Qed.

Lemma C9_greeting_by_substring_witness :
  fst (chat offlineConfig (Some "I think this test is hard, help") (Some "notes")
         aliceSession)
  = mkResponse 200 (JResponse greeting).
Proof.
  assert (Hcfg : aiUnavailable offlineConfig) by (left; reflexivity).
  assert (Hauth : authenticated aliceSession) by reflexivity.
  assert (Hsub : includes (toLowerCase "I think this test is hard, help") "hi" = true)
    by (vm_compute; reflexivity).
  exact (proj1 (C9_greeting_by_substring offlineConfig aliceSession (Some "notes")
                  "I think this test is hard, help" Hcfg Hauth (or_introl Hsub))).
Defined.

End FallbackTheorems.

(** ** The session history across requests *)

Section HistoryTheorems.
Import Js Chat Trace Sample.

Lemma authenticated_dec (st : State) : authenticated st \/ ~ authenticated st.
Proof. unfold authenticated. destruct (truthy _); [left|right]; congruence. Qed.

Lemma clearChat_ok (st : State) :
  authenticated st ->
  clearChat st = (mkResponse 200 (JMessage "Chat history cleared"), setHistory (Some []) st).
Proof.
  intros Ha. destruct (requireAuth_ok st Ha) as (uuid & _ & _ & Hr).
  unfold clearChat, handle, bind. now rewrite Hr.
Qed.

Lemma clearChat_unauth (st : State) : ~ authenticated st -> snd (clearChat st) = st.
Proof.
  intros Hn. unfold clearChat, handle, bind. now rewrite (requireAuth_fail st Hn).
Qed.

Lemma step_bound `{CM : CaseMapping} (st : State) (op : Op) :
  List.length (history st) <= 10 -> List.length (history (step st op)) <= 10.
Proof.
  intros H. destruct op as [cfg message nc|]; simpl.
  - destruct (authenticated_dec st) as [Ha|Hn].
    + destruct message as [msg|].
      * destruct (blank msg) eqn:Hb.
        -- destruct (chat_rejected cfg (Some msg) nc st) as [-> _]; [|exact H].
           left. now rewrite missingOrBlank_Some.
        -- rewrite chat_accepted by assumption. apply remember_length.
      * destruct (chat_rejected cfg None nc st) as [-> _]; [|exact H].
        now left.
    + destruct (chat_rejected cfg message nc st) as [-> _]; [|exact H].
      now right.
  - destruct (authenticated_dec st) as [Ha|Hn].
    + rewrite clearChat_ok by assumption. simpl. lia.
    + now rewrite clearChat_unauth.
Qed.

Lemma step_authenticated `{CM : CaseMapping} (st : State) (op : Op) :
  authenticated st -> authenticated (step st op).
Proof.
  intros Ha. destruct op as [cfg message nc|]; simpl.
  - destruct message as [msg|].
    + destruct (blank msg) eqn:Hb.
      * destruct (chat_rejected cfg (Some msg) nc st) as [-> _]; [|exact Ha].
        left. now rewrite missingOrBlank_Some.
      * rewrite chat_accepted by assumption. exact Ha.
    + destruct (chat_rejected cfg None nc st) as [-> _]; [|exact Ha]. now left.
  - rewrite clearChat_ok by assumption. exact Ha.
Qed.

Lemma run_bound `{CM : CaseMapping} (ops : list Op) (st : State) :
  List.length (history st) <= 10 -> List.length (history (run ops st)) <= 10.
Proof.
  revert st. induction ops as [|op ops IH]; intros st H; simpl; [exact H|].
  apply IH, step_bound, H.
Qed.

(** C3: along every sequence of chat operations of one session the history
    never holds more than 10 entries: each accepted chat stores the last 10
    of the old history followed by the user message and the response (what
    is dropped is dropped at the front, and nothing is dropped while there
    are at most 10); [clearChat] empties it; and [clearChat] followed by
    one exchange leaves exactly 2 entries. *)
Theorem C3_history_at_most_ten `{CM : CaseMapping}
    (st : State) (Hauth : authenticated st)
    (Hlen : List.length (history st) <= 10) :
  (forall ops, List.length (history (run ops st)) <= 10)
  /\ (forall cfg msg nc, blank msg = false ->
        history (step st (OpChat cfg (Some msg) nc))
        = sliceLast 10
            (history st ++
             [mkMsg "user" msg;
              mkMsg "assistant" (answer (tryGemini cfg nc (history st) msg) msg nc)]))
  /\ (forall cfg msg nc, blank msg = false ->
        let pushed :=
          history st ++
          [mkMsg "user" msg;
           mkMsg "assistant" (answer (tryGemini cfg nc (history st) msg) msg nc)] in
        let kept := history (step st (OpChat cfg (Some msg) nc)) in
        exists dropped,
          pushed = dropped ++ kept
          /\ List.length kept = Nat.min 10 (List.length pushed))
  /\ chatHistory (session (step st OpClearChat)) = Some []
  /\ (forall cfg msg nc, blank msg = false ->
        List.length (history (run [OpClearChat; OpChat cfg (Some msg) nc] st)) = 2)
  /\ (forall ops cfg msg nc, blank msg = false ->
        List.length
          (history (run (ops ++ [OpClearChat; OpChat cfg (Some msg) nc]) st)) = 2).
Proof.
  assert (Hclear : forall s, authenticated s ->
            forall cfg msg nc, blank msg = false ->
            List.length (history (run [OpClearChat; OpChat cfg (Some msg) nc] s)) = 2).
  { intros s Hs cfg msg nc Hb. simpl.
    rewrite clearChat_ok by assumption. simpl.
    rewrite chat_accepted by assumption. reflexivity. }
  assert (Hstep : forall cfg msg nc, blank msg = false ->
            history (step st (OpChat cfg (Some msg) nc))
            = sliceLast 10
                (history st ++
                 [mkMsg "user" msg;
                  mkMsg "assistant"
                    (answer (tryGemini cfg nc (history st) msg) msg nc)])).
  { intros cfg msg nc Hb. simpl. rewrite chat_accepted by assumption.
    unfold history at 1. simpl. apply remember_sliceLast. }
  split; [|split; [|split; [|split; [|split]]]].
  - intros ops. now apply run_bound.
  - exact Hstep.
  - intros cfg msg nc Hb. cbv zeta. rewrite (Hstep cfg msg nc Hb).
    eexists. split; [apply sliceLast_split|apply sliceLast_length].
  - simpl. now rewrite clearChat_ok.
  - now apply Hclear.
  - intros ops cfg msg nc Hb. unfold run. rewrite fold_left_app.
    apply Hclear; [|assumption].
    clear Hlen Hclear Hstep. revert st Hauth.
    induction ops as [|op ops IH]; intros st Hauth; simpl; [assumption|].
    apply IH, step_authenticated, Hauth.
Qed.

Lemma C3_history_at_most_ten_witness :
  List.length (history (run sixThenClearThenOne aliceSession)) = 2
  /\ List.length
       (history (run (repeat (OpChat offlineConfig (Some "what is a cell?") None) 6)
                   aliceSession)) <= 10.
Proof.
  assert (Ha : authenticated aliceSession) by reflexivity.
  assert (Hl : List.length (history aliceSession) <= 10) by (simpl; lia).
  destruct (C3_history_at_most_ten aliceSession Ha Hl)
    as (Hbound & _ & _ & _ & _ & Hclear).
  split.
  - apply Hclear. reflexivity.
  - apply Hbound.
Defined.

(** C8: an exception raised by the AI-client call does not fail the chat
    request: for a message that is not blank the answer is 200 with the
    fallback response, and whichever path produced the response, the user
    message and that response are the last two entries appended to the
    history; a message of white space only is refused before the AI client
    is consulted, with the same outcome under every configuration. *)
Theorem C8_ai_failure_recovered `{CM : CaseMapping}
    (cfg : Config) (st : State) (msg : string) (nc : option string)
    (Hauth : authenticated st) :
  (blank msg = false ->
     (forall m e,
         geminiReady cfg = true -> model cfg = Some m ->
         generateContent m (buildPrompt nc (history st) msg) = Raises e ->
         fst (chat cfg (Some msg) nc st) = mkResponse 200 (JResponse (fallback msg nc)))
     /\ exists response pre,
          fst (chat cfg (Some msg) nc st) = mkResponse 200 (JResponse response)
          /\ history (snd (chat cfg (Some msg) nc st))
             = sliceLast 10
                 (history st ++ [mkMsg "user" msg; mkMsg "assistant" response])
          /\ history (snd (chat cfg (Some msg) nc st))
             = pre ++ [mkMsg "user" msg; mkMsg "assistant" response])
  /\ (blank msg = true ->
      chat cfg (Some msg) nc st = (mkResponse 400 (JError "Message is required"), st)
      /\ forall cfg', chat cfg' (Some msg) nc st = chat cfg (Some msg) nc st).
Proof.
  split.
  - intros Hmsg. rewrite chat_accepted by assumption. split.
    + intros m e Hr Hm Hg. simpl. unfold tryGemini. now rewrite Hr, Hm, Hg.
    + set (response := answer _ _ _).
      destruct (remember_appended (history st) msg response) as [pre Hpre].
      exists response, pre. repeat split.
      * unfold history at 1. simpl. apply remember_sliceLast.
      * unfold history at 1. simpl. exact Hpre.
  - intros Hmsg. destruct (requireAuth_ok st Hauth) as (uuid & _ & _ & Hr).
    assert (H400 : forall c, chat c (Some msg) nc st
                     = (mkResponse 400 (JError "Message is required"), st)).
    { intros c. unfold chat, handle, chatBody, bind.
      now rewrite Hr, missingOrBlank_Some, Hmsg. }
    split; [apply H400|]. intros cfg'. now rewrite !H400.
Qed.

Lemma C8_ai_failure_recovered_witness :
  fst (chat failingConfig (Some "Can you quiz me?") None aliceSession)
  = mkResponse 200 (JResponse quizPrompt).
Proof.
  assert (Ha : authenticated aliceSession) by reflexivity.
  destruct (C8_ai_failure_recovered failingConfig aliceSession "Can you quiz me?"
              None Ha) as [Hvisible _].
  destruct (Hvisible eq_refl) as [Hraise _].
  apply (Hraise (mkModel (fun _ => Raises (ExternalError "fetch failed")))
                (ExternalError "fetch failed")); reflexivity.
Defined.

End HistoryTheorems.

(** ** The prompt sent to the AI client *)

Section PromptFacts.
Import Js Chat Prompt Sample.

Lemma append_cons (x : N) (a b : string) : String x a +:+ b = String x (a +:+ b).
Proof. reflexivity. Qed.

Lemma append_assoc (a b c : string) : (a +:+ b) +:+ c = a +:+ b +:+ c.
Proof.
  induction a as [|x a IH]; [reflexivity|].
  now rewrite !append_cons, IH.
Qed.

Lemma append_empty_r (a : string) : a +:+ "" = a.
Proof.
  induction a as [|x a IH]; [reflexivity|].
  now rewrite append_cons, IH.
Qed.

Lemma fold_left_lines (l : list ChatMsg) (init : string) :
  fold_left (fun acc msg => acc +:+ historyLine msg) l init = init +:+ joinLines l.
Proof.
  revert init. induction l as [|m l IH]; intros init; simpl.
  - now rewrite append_empty_r.
  - now rewrite IH, append_assoc.
Qed.

Lemma buildPrompt_layout (nc : option string) (h : list ChatMsg) (msg : string) :
  buildPrompt nc h msg = layout nc h msg.
Proof.
  unfold buildPrompt, layout, notesSection, historySection.
  destruct (sliceLast 6 h) as [|m recent] eqn:E.
  - cbn [List.length Nat.ltb Nat.leb].
    destruct (hasNotes nc); rewrite ?append_assoc; reflexivity.
  - cbn [List.length Nat.ltb Nat.leb]. rewrite fold_left_lines.
    destruct (hasNotes nc); rewrite ?append_assoc; reflexivity.
Qed.

Lemma substring0_prefix (n : nat) (s : string) : startsWith (substring0 n s) s = true.
Proof.
  unfold substring0. revert s. induction n as [|n IH]; intros [|c s]; simpl; try reflexivity.
  rewrite N.eqb_refl. apply IH.
Qed.

Lemma substring0_split (n : nat) (s : string) :
  exists rest, s = substring0 n s +:+ rest.
Proof.
  revert s. induction n as [|n IH]; intros [|c s]; simpl; eauto.
  destruct (IH s) as [rest Hrest]. exists rest. now rewrite <- Hrest.
Qed.

Lemma substring0_length (n : nat) (s : string) :
  Utf16.length (substring0 n s) = Nat.min n (Utf16.length s).
Proof.
  unfold substring0. revert s. induction n as [|n IH]; intros [|c s]; simpl; try reflexivity.
  now rewrite IH.
Qed.

Lemma answer_text `{CM : CaseMapping} (t msg : string) (nc : option string) :
  t <> "" -> answer (Some t) msg nc = t.
Proof. destruct t; [congruence|reflexivity]. Qed.

(** C5 (as the code has it): with the AI client configured, an accepted chat
    request calls it on the prompt made of the persona preamble, the notes
    context cut to its first 300 code units (when it is not blank), the
    last 6 history entries, each on a line "Student: {content}" for the
    role "user" and "AI: {content}" for any other role, and the new
    message; a text output that is not empty is the response, and an empty
    text output is answered by the fallback ladder. *)
Theorem C5_prompt_and_ai_answer `{CM : CaseMapping}
    (cfg : Config) (m : GenerativeModel) (st : State) (msg : string)
    (nc : option string)
    (Hauth : authenticated st) (Hmsg : blank msg = false)
    (Hready : geminiReady cfg = true) (Hmodel : model cfg = Some m) :
  let prompt := layout nc (history st) msg in
  buildPrompt nc (history st) msg = prompt
  /\ tryGemini cfg nc (history st) msg
     = match generateContent m prompt with Text t => Some t | Raises _ => None end
  /\ (forall s, exists rest,
        s = substring0 300 s +:+ rest
        /\ Utf16.length (substring0 300 s) = Nat.min 300 (Utf16.length s))
  /\ (exists older,
        history st = older ++ sliceLast 6 (history st)
        /\ List.length (sliceLast 6 (history st))
           = Nat.min 6 (List.length (history st)))
  /\ (forall e, historyLine e
                = (if Utf16.eqb (role e) "user" then "Student" else "AI")
                  +:+ ": " +:+ content e +:+ nl)
  /\ (forall t, generateContent m prompt = Text t -> t <> "" ->
        fst (chat cfg (Some msg) nc st) = mkResponse 200 (JResponse t))
  /\ (generateContent m prompt = Text "" ->
        fst (chat cfg (Some msg) nc st) = mkResponse 200 (JResponse (fallback msg nc))).
Proof.
  intros prompt. subst prompt.
  assert (Ht : tryGemini cfg nc (history st) msg
               = match generateContent m (layout nc (history st) msg) with
                 | Text t => Some t | Raises _ => None end).
  { unfold tryGemini. now rewrite Hready, Hmodel, buildPrompt_layout. }
  rewrite chat_accepted by assumption. simpl fst. rewrite Ht.
  split; [apply buildPrompt_layout|]. split; [reflexivity|].
  split; [|split; [|split; [|split]]].
  - intros s. destruct (substring0_split 300 s) as [rest Hrest].
    exists rest. split; [exact Hrest|apply substring0_length].
  - eexists. split; [apply sliceLast_split|apply sliceLast_length].
  - reflexivity.
  - intros t Hg Hne. rewrite Hg. now rewrite answer_text.
  - intros Hg. now rewrite Hg.
Qed.

Lemma C5_prompt_and_ai_answer_witness :
  fst (chat echoConfig (Some "What is osmosis?") (Some "Biology notes") aliceSession)
  = mkResponse 200 (JResponse "Osmosis moves water.").
Proof.
  assert (Ha : authenticated aliceSession) by reflexivity.
  assert (Hb : blank "What is osmosis?" = false) by reflexivity.
  destruct (C5_prompt_and_ai_answer echoConfig
              (mkModel (fun p => Text ("Osmosis moves water."))) aliceSession
              "What is osmosis?" (Some "Biology notes") Ha Hb eq_refl eq_refl)
    as (_ & _ & _ & _ & _ & Htext & _).
  apply Htext; [reflexivity|discriminate].
Defined.

(** C5 as stated fails: the call succeeds, its text output is the empty
    string, and the request is answered by the ladder instead; and a
    history entry of role "user" is not printed as "user: {content}". *)
Lemma C5_counterexample :
  generateContent (mkModel (fun _ => Text ""))
    (buildPrompt None (history aliceSession) "What is osmosis?") = Text ""
  /\ fst (chat silentConfig (Some "What is osmosis?") None aliceSession)
     = mkResponse 200 (JResponse (explanation None))
  /\ fst (chat silentConfig (Some "What is osmosis?") None aliceSession)
     <> mkResponse 200 (JResponse "")
  /\ includes (buildPrompt None [mkMsg "user" "hello"] "again")
              (specLine (mkMsg "user" "hello")) = false
  /\ includes (buildPrompt None [mkMsg "user" "hello"] "again")
              "Student: hello" = true.
Proof. repeat split; try reflexivity. vm_compute. discriminate. Qed.

End PromptFacts.

(** ** Facts about the note tree *)

Lemma loggedIn_requireAuth (st : State) (uuid : string) :
  loggedInAs st uuid -> requireAuth st = (Value uuid, st).
Proof.
  intros [Hu Hne]. unfold requireAuth. rewrite Hu.
  destruct uuid; [congruence|reflexivity].
Qed.

Lemma loggedIn_authenticated (st : State) (uuid : string) :
  loggedInAs st uuid -> authenticated st.
Proof.
  intros [Hu Hne]. unfold authenticated. rewrite Hu.
  destruct uuid; [congruence|reflexivity].
Qed.

Section SubjectFacts.
Import Js Notes Sample.

Lemma createSubject_invalid (env : Env) (name : option string) (st : State) (uuid : string) :
  loggedInAs st uuid -> missingOrBlank name = true ->
  createSubject env name st = (mkResponse 400 (JError "Subject name required"), st).
Proof.
  intros Hl Hb. unfold createSubject, handle, bind.
  now rewrite (loggedIn_requireAuth st uuid Hl), Hb.
Qed.

(** The accepted request, in one equation. *)
Lemma createSubject_accepted (env : Env) (name : string) (st : State) (uuid : string) :
  loggedInAs st uuid -> blank name = false ->
  let subject := mkSubject (oidCounter st) (trim name) [] (now env) in
  createSubject env (Some name) st
  = match users st !! uuid with
    | Some u =>
        (mkResponse 201 (JSubjects "Subject created" (u_subjects u ++ [subject])),
         mkState (<[uuid := pushSubject subject u]> (users st))
                 (oidCounter st + 1)%N (objects st) (session st))
    | None =>
        (mkResponse 201 (JSubjects "Subject created" [subject]),
         mkState (<[uuid := mkUser (oidCounter st + 1)%N uuid (now env) [subject]]> (users st))
                 (oidCounter st + 1 + 1)%N (objects st) (session st))
    end.
Proof.
  intros Hl Hb subject. unfold createSubject, handle, bind.
  rewrite (loggedIn_requireAuth st uuid Hl), missingOrBlank_Some, Hb.
  unfold findOneAndUpdate_push, bind, newObjectId, findOne, get, modify, setUsers.
  simpl. destruct (users st !! uuid); reflexivity.
Qed.

Lemma createSubject_ok (env : Env) (name : string) (st : State) (uuid : string) :
  loggedInAs st uuid -> blank name = false ->
  let r := createSubject env (Some name) st in
  let subject := mkSubject (oidCounter st) (trim name) [] (now env) in
  fst r = mkResponse 201 (JSubjects "Subject created" (subjectsOf st uuid ++ [subject]))
  /\ subjectsOf (snd r) uuid = subjectsOf st uuid ++ [subject]
  /\ (oidCounter st < oidCounter (snd r))%N
  /\ loggedInAs (snd r) uuid
  /\ (forall other, other <> uuid -> users (snd r) !! other = users st !! other).
Proof.
  intros Hl Hb r subject. subst r.
  rewrite (createSubject_accepted env name st uuid Hl Hb).
  unfold subjectsOf. destruct (users st !! uuid) as [u|] eqn:E; simpl.
  - rewrite lookup_insert_eq. repeat split; try (apply Hl); try lia.
    intros other Hne. now rewrite lookup_insert_ne.
  - rewrite lookup_insert_eq. repeat split; try (apply Hl); try lia.
    intros other Hne. now rewrite lookup_insert_ne.
Qed.

(** C4: [createSubject] answers a ValidationError for a name that is
    missing, empty or blank after trimming (spaces, or a no-break space and
    a space) and writes nothing; for a user
    without a profile it creates the profile together with the subject;
    it returns the whole updated subjects list; and creating "Math" twice
    leaves two subjects of that name with different ids. *)
Theorem C4_createSubject
    (env env' : Env) (st : State) (uuid : string) (Hin : loggedInAs st uuid) :
  (forall name, name = None \/ (exists s, name = Some s /\ trim s = "") ->
     ValidationError (fst (createSubject env name st))
     /\ snd (createSubject env name st) = st)
  /\ trim "" = "" /\ trim "   " = "" /\ trim (String 160%N " ") = ""
  /\ (forall name, blank name = false -> users st !! uuid = None ->
        exists subject profile,
          s_name subject = trim name /\ s_chapters subject = []
          /\ fst (createSubject env (Some name) st)
             = mkResponse 201 (JSubjects "Subject created" [subject])
          /\ users (snd (createSubject env (Some name) st)) !! uuid = Some profile
          /\ u_uuid profile = uuid /\ u_subjects profile = [subject])
  /\ (forall name, blank name = false ->
        exists subject,
          s_name subject = trim name /\ s_chapters subject = []
          /\ fst (createSubject env (Some name) st)
             = mkResponse 201 (JSubjects "Subject created" (subjectsOf st uuid ++ [subject]))
          /\ subjectsOf (snd (createSubject env (Some name) st)) uuid
             = subjectsOf st uuid ++ [subject])
  /\ (exists first second,
        fst (createSubject env' (Some "Math") (snd (createSubject env (Some "Math") st)))
        = mkResponse 201
            (JSubjects "Subject created" (subjectsOf st uuid ++ [first; second]))
        /\ s_id first <> s_id second
        /\ s_name first = "Math" /\ s_name second = "Math").
Proof.
  repeat split.
  - unfold ValidationError. rewrite (createSubject_invalid env name st uuid Hin); [reflexivity|].
    destruct H as [->|(s & -> & Ht)]; [reflexivity|].
    rewrite missingOrBlank_Some.
    destruct (blank s) eqn:E; [reflexivity|].
    apply trim_nonEmpty_iff in E. contradiction.
  - rewrite (createSubject_invalid env name st uuid Hin); [reflexivity|].
    destruct H as [->|(s & -> & Ht)]; [reflexivity|].
    rewrite missingOrBlank_Some.
    destruct (blank s) eqn:E; [reflexivity|].
    apply trim_nonEmpty_iff in E. contradiction.
  - intros name Hb Hnone.
    rewrite (createSubject_accepted env name st uuid Hin Hb), Hnone. simpl.
    exists (mkSubject (oidCounter st) (trim name) [] (now env)),
           (mkUser (oidCounter st + 1)%N uuid (now env)
                   [mkSubject (oidCounter st) (trim name) [] (now env)]).
    rewrite lookup_insert_eq. repeat split.
  - intros name Hb.
    destruct (createSubject_ok env name st uuid Hin Hb) as (Hr & Hs & _).
    exists (mkSubject (oidCounter st) (trim name) [] (now env)).
    rewrite Hr, Hs. repeat split.
  - assert (Hb : blank "Math" = false) by reflexivity.
    destruct (createSubject_ok env "Math" st uuid Hin Hb) as (_ & Hs & Hc & Hin' & _).
    destruct (createSubject_ok env' "Math" _ uuid Hin' Hb) as (Hr' & _).
    exists (mkSubject (oidCounter st) "Math" [] (now env)),
           (mkSubject (oidCounter (snd (createSubject env (Some "Math") st)))
                      "Math" [] (now env')).
    rewrite Hr', Hs, <- app_assoc. simpl.
    repeat split. lia.
Qed.

Lemma C4_createSubject_witness :
  exists first second,
    fst (createSubject (mkEnv 1700000000456 None None) (Some "Math")
           (snd (createSubject (mkEnv 1700000000123 None None) (Some "Math") aliceSession)))
    = mkResponse 201 (JSubjects "Subject created" ([] ++ [first; second]))
    /\ s_id first <> s_id second
    /\ s_name first = "Math" /\ s_name second = "Math".
Proof.
  assert (Hin : loggedInAs aliceSession "user-1") by (split; [reflexivity|discriminate]).
  exact (proj2 (proj2 (proj2 (proj2 (proj2 (proj2
           (C4_createSubject (mkEnv 1700000000123 None None)
              (mkEnv 1700000000456 None None) aliceSession "user-1" Hin))))))).
Defined.

End SubjectFacts.

(** ** Looking sub-documents up by id *)

Section LookupFacts.
Import Notes Sample.
Context {A : Type} (getId : A -> ObjectId).

Lemma findById_Some (l : list A) (id : option string) (i : nat) (x : A) :
  findById getId l id = Some (i, x) ->
  l !! i = Some x /\ matches getId id x
  /\ forall j y, l !! j = Some y -> j < i -> ~ matches getId id y.
Proof.
  unfold findById, matches. destruct (id ≫= castObjectId) as [oid|]; [|discriminate].
  intros H. apply list_find_Some in H as (Hl & Hx & Hfirst).
  repeat split; [assumption|congruence|].
  intros j y Hy Hj Hm. apply (Hfirst j y Hy Hj). congruence.
Qed.

Lemma findById_None (l : list A) (id : option string) :
  findById getId l id = None <-> forall x, x ∈ l -> ~ matches getId id x.
Proof.
  unfold findById, matches. destruct (id ≫= castObjectId) as [oid|].
  - rewrite list_find_None, Forall_forall. split.
    + intros H x Hx Hm. apply (H x Hx). congruence.
    + intros H x Hx Hm. apply (H x Hx). congruence.
  - split; [intros _ x _; discriminate|reflexivity].
Qed.

(** Replacing the sub-document found by one of the same id keeps it findable
    at the same place. *)
Lemma findById_insert (l : list A) (id : option string) (i : nat) (x y : A) :
  findById getId l id = Some (i, x) -> getId y = getId x ->
  findById getId (<[i := y]> l) id = Some (i, y).
Proof.
  unfold findById. destruct (id ≫= castObjectId) as [oid|]; [|discriminate].
  intros H Hy. apply list_find_Some in H as (Hl & Hx & Hfirst).
  apply list_find_Some. repeat split.
  - apply list_lookup_insert_eq. eapply lookup_lt_Some, Hl.
  - congruence.
  - intros j z Hz Hj. rewrite list_lookup_insert_ne in Hz by lia. eauto.
Qed.

End LookupFacts.

Section ChapterFacts.
Import Js Notes Sample.

Lemma truthy_Some (o : option string) :
  truthy o = true <-> exists s, o = Some s /\ s <> "".
Proof.
  destruct o as [[|a s]|]; simpl; split; try discriminate.
  - intros (s & [= <-] & H). congruence.
  - intros _. eexists. split; [reflexivity|discriminate].
  - reflexivity.
  - intros (s & H & _). discriminate.
Qed.

Lemma blank_false_truthy (s : string) : blank s = false -> truthy (Some s) = true.
Proof. destruct s; [discriminate|reflexivity]. Qed.

Lemma createChapter_invalid env subjectId name st uuid :
  loggedInAs st uuid ->
  truthy subjectId = false \/ truthy name = false ->
  createChapter env subjectId name st
  = (mkResponse 400 (JError "subjectId and name required"), st).
Proof.
  intros Hl H. unfold createChapter, handle, bind.
  rewrite (loggedIn_requireAuth st uuid Hl).
  destruct H as [-> | ->]; rewrite ?orb_true_r; reflexivity.
Qed.

Lemma createChapter_no_user env subjectId name st uuid :
  loggedInAs st uuid -> truthy subjectId = true -> truthy name = true ->
  users st !! uuid = None ->
  createChapter env subjectId name st = (mkResponse 404 (JError "User not found"), st).
Proof.
  intros Hl Hs Hn Hu. unfold createChapter, handle, bind.
  rewrite (loggedIn_requireAuth st uuid Hl), Hs, Hn. simpl.
  unfold findOne, get. now rewrite Hu.
Qed.

Lemma createChapter_no_subject env subjectId name st uuid user :
  loggedInAs st uuid -> truthy subjectId = true -> truthy name = true ->
  users st !! uuid = Some user ->
  findById s_id (u_subjects user) subjectId = None ->
  createChapter env subjectId name st = (mkResponse 404 (JError "Subject not found"), st).
Proof.
  intros Hl Hs Hn Hu Hf. unfold createChapter, handle, bind.
  rewrite (loggedIn_requireAuth st uuid Hl), Hs, Hn. simpl.
  unfold findOne, get. now rewrite Hu, Hf.
Qed.

(** The request that reaches [user.save()]. *)
Lemma createChapter_found env subjectId name st uuid user i subject :
  loggedInAs st uuid -> truthy subjectId = true -> truthy (Some name) = true ->
  users st !! uuid = Some user ->
  findById s_id (u_subjects user) subjectId = Some (i, subject) ->
  let chapter := mkChapter (oidCounter st) (trim name) [] (now env) in
  createChapter env subjectId (Some name) st
  = if blank name
    then (mkResponse 500 (JError "Server error"),
          mkState (users st) (oidCounter st + 1)%N (objects st) (session st))
    else (mkResponse 201
            (JChapters "Chapter created" (s_chapters subject ++ [chapter])),
          mkState (<[uuid := setSubject i (pushChapter chapter subject) user]> (users st))
                  (oidCounter st + 1)%N (objects st) (session st)).
Proof.
  intros Hl Hs Hn Hu Hf chapter. unfold createChapter, handle, bind.
  rewrite (loggedIn_requireAuth st uuid Hl), Hs, Hn. simpl.
  unfold findOne, get. rewrite Hu, Hf.
  unfold newObjectId, save, validateChapter, checkRequired. simpl.
  rewrite nonEmpty_trim. destruct (blank name); reflexivity.
Qed.

(** C6 (as the code has it): [createChapter] first answers a
    ValidationError when [subjectId] or [name] is missing or empty, before
    any lookup; otherwise NotFound when the user has no profile or when
    [subjectId] denotes no Subject of that user; otherwise, for a name that
    is not blank, it appends the chapter, with the trimmed name, to exactly
    the Subject that [subjectId] denotes and returns that subject's updated
    chapters list. *)
Theorem C6_createChapter
    (env : Env) (st : State) (uuid : string) (subjectId name : option string)
    (Hin : loggedInAs st uuid) :
  let r := createChapter env subjectId name st in
  (truthy subjectId = false \/ truthy name = false ->
     ValidationError (fst r) /\ snd r = st)
  /\ (truthy subjectId = true -> truthy name = true ->
      users st !! uuid = None -> NotFound (fst r) /\ snd r = st)
  /\ (forall user,
        truthy subjectId = true -> truthy name = true ->
        users st !! uuid = Some user ->
        (forall s, s ∈ u_subjects user -> ~ matches s_id subjectId s) ->
        NotFound (fst r) /\ snd r = st)
  /\ (forall user i subject nm,
        truthy subjectId = true -> name = Some nm -> blank nm = false ->
        users st !! uuid = Some user ->
        findById s_id (u_subjects user) subjectId = Some (i, subject) ->
        exists chapter,
          c_name chapter = trim nm /\ c_notes chapter = []
          /\ u_subjects user !! i = Some subject
          /\ matches s_id subjectId subject
          /\ fst r = mkResponse 201
                       (JChapters "Chapter created" (s_chapters subject ++ [chapter]))
          /\ subjectsOf (snd r) uuid
             = <[i := pushChapter chapter subject]> (u_subjects user)
          /\ (forall other, other <> uuid -> users (snd r) !! other = users st !! other)).
Proof.
  intros r. subst r. repeat split.
  - rewrite (createChapter_invalid env subjectId name st uuid Hin H). reflexivity.
  - now rewrite (createChapter_invalid env subjectId name st uuid Hin H).
  - now rewrite (createChapter_no_user env subjectId name st uuid Hin).
  - now rewrite (createChapter_no_user env subjectId name st uuid Hin).
  - rewrite (createChapter_no_subject env subjectId name st uuid user Hin);
      try assumption; [reflexivity|]. now apply findById_None.
  - rewrite (createChapter_no_subject env subjectId name st uuid user Hin);
      try assumption; [reflexivity|]. now apply findById_None.
  - intros user i subject nm Hs -> Hb Hu Hf.
    destruct (findById_Some s_id _ _ _ _ Hf) as (Hl & Hm & _).
    rewrite (createChapter_found env subjectId nm st uuid user i subject Hin Hs
               (blank_false_truthy nm Hb) Hu Hf), Hb.
    exists (mkChapter (oidCounter st) (trim nm) [] (now env)).
    unfold subjectsOf. simpl. rewrite lookup_insert_eq.
    repeat split; try assumption.
    intros other Hne. now rewrite lookup_insert_ne.
Qed.

End ChapterFacts.

(** ** A small concrete store *)

Section Examples.
Import Js Notes Sample.

Lemma alice_loggedIn (st : State) :
  session st = mkSession (Some "user-1") None -> loggedInAs st "user-1".
Proof. intros H. unfold loggedInAs. rewrite H. split; [reflexivity|discriminate]. Qed.

Lemma mathState_user : users mathState !! "user-1" = Some alice.
Proof. vm_compute. reflexivity. Qed.

Lemma algebraState_user : users algebraState !! "user-1" = Some aliceWithAlgebra.
Proof. vm_compute. reflexivity. Qed.

Lemma C6_createChapter_witness :
  exists chapter,
    c_name chapter = trim "  Algebra " /\ c_notes chapter = []
    /\ u_subjects alice !! 0 = Some math
    /\ matches s_id (Some mathId) math
    /\ fst (createChapter morning (Some mathId) (Some "  Algebra ") mathState)
       = mkResponse 201 (JChapters "Chapter created" (s_chapters math ++ [chapter]))
    /\ subjectsOf (snd (createChapter morning (Some mathId) (Some "  Algebra ") mathState))
         "user-1"
       = <[0 := pushChapter chapter math]> (u_subjects alice)
    /\ (forall other, other <> "user-1" ->
          users (snd (createChapter morning (Some mathId) (Some "  Algebra ") mathState))
            !! other
          = users mathState !! other).
Proof.
  assert (Hin : loggedInAs mathState "user-1") by (apply alice_loggedIn; reflexivity).
  apply (proj2 (proj2 (proj2
           (C6_createChapter morning mathState "user-1" (Some mathId)
              (Some "  Algebra ") Hin)))
           alice 0 math "  Algebra ");
    [reflexivity|reflexivity|reflexivity|exact mathState_user|reflexivity].
Defined.

(** C6 as stated fails: the empty [subjectId] denotes no Subject of the
    user, and the answer is the ValidationError of the first check, not
    NotFound. *)
Lemma C6_counterexample :
  users mathState !! "user-1" = Some alice
  /\ (forall s, s ∈ u_subjects alice -> ~ matches s_id (Some "") s)
  /\ fst (createChapter morning (Some "") (Some "Algebra") mathState)
     = mkResponse 400 (JError "subjectId and name required")
  /\ ~ NotFound (fst (createChapter morning (Some "") (Some "Algebra") mathState)).
Proof.
  assert (Hin : loggedInAs mathState "user-1") by (apply alice_loggedIn; reflexivity).
  assert (Hr : createChapter morning (Some "") (Some "Algebra") mathState
               = (mkResponse 400 (JError "subjectId and name required"), mathState)).
  { apply (createChapter_invalid _ _ _ _ "user-1" Hin). now left. }
  split; [exact mathState_user|].
  split; [intros s _; unfold matches; simpl; discriminate|].
  split; [now rewrite Hr|].
  rewrite Hr. unfold NotFound. simpl. discriminate.
Qed.

(** A name of white space only passes the first check, is trimmed to the
    empty string and is refused by the schema when the document is saved:
    the request ends in the handler's [catch]. *)
Lemma createChapter_blank_name :
  fst (createChapter morning (Some mathId) (Some "   ") mathState)
  = mkResponse 500 (JError "Server error")
  /\ users (snd (createChapter morning (Some mathId) (Some "   ") mathState))
     = users mathState.
Proof.
  assert (Hin : loggedInAs mathState "user-1") by (apply alice_loggedIn; reflexivity).
  rewrite (createChapter_found morning (Some mathId) "   " mathState "user-1"
             alice 0 math Hin eq_refl eq_refl mathState_user eq_refl).
  split; reflexivity.
Qed.

End Examples.

(** ** The upload route *)

Section UploadFacts.
Import Js Notes Upload Sample.

Lemma uploadNoteFile_outcome cfg env req st uuid :
  loggedInAs st uuid -> uploadNoteFile cfg env req st = outcome cfg env req st uuid.
Proof.
  intros Hl. unfold uploadNoteFile, handle, uploadNoteFileBody, bind, outcome.
  rewrite (loggedIn_requireAuth st uuid Hl).
  destruct (negb (defined (up_file req)) && negb (nonEmpty (default "" (up_title req))));
    [reflexivity|].
  unfold findOne, get.
  destruct (users st !! uuid) as [user|]; [|reflexivity].
  destruct (findById s_id (u_subjects user) (up_subjectId req)) as [[i subject]|];
    [|reflexivity].
  destruct (findById c_id (s_chapters subject) (up_chapterId req)) as [[j chapter]|];
    [|reflexivity].
  unfold resolved, refused, written, textNote, fileNote, objectName, published.
  destruct (up_file req) as [file|].
  - destruct (gcpConfigured cfg); [|reflexivity].
    destruct (storage cfg); [|reflexivity].
    destruct (bucket cfg) as [b|]; [|reflexivity].
    unfold blob_save, blob_makePublic, newObjectId, save, throw, modify, ret,
      setObjects, setUsers.
    destruct (blobSave env); [reflexivity|].
    destruct (makePublic env); simpl;
      match goal with |- context [validateNote ?n] => destruct (validateNote n) end;
      reflexivity.
  - unfold newObjectId, save, throw, modify, ret, setUsers. simpl.
    match goal with |- context [validateNote ?n] => destruct (validateNote n) end;
      reflexivity.
Qed.

Lemma uploadNoteFile_resolved cfg env req st uuid user i subject j chapter :
  loggedInAs st uuid -> resolves st uuid req user i subject j chapter ->
  defined (up_file req) = true \/ nonEmpty (default "" (up_title req)) = true ->
  uploadNoteFile cfg env req st = resolved cfg env req st uuid user i subject j chapter.
Proof.
  intros Hl (Hu & Hs & Hc) Hv. rewrite (uploadNoteFile_outcome _ _ _ _ uuid Hl).
  unfold outcome. rewrite Hu, Hs, Hc.
  destruct Hv as [-> | ->]; rewrite ?andb_false_r; reflexivity.
Qed.

Lemma notesOf_written st uuid sid cid user i subject j chapter n objs :
  findById s_id (u_subjects user) sid = Some (i, subject) ->
  findById c_id (s_chapters subject) cid = Some (j, chapter) ->
  notesOf (written st uuid user i subject j chapter n objs) uuid sid cid
  = Some (c_notes chapter ++ [n]).
Proof.
  intros Hs Hc. unfold notesOf, written. simpl. rewrite lookup_insert_eq. simpl.
  rewrite (findById_insert s_id _ _ _ subject
             (setChapter j (pushNote n chapter) subject) Hs eq_refl).
  simpl.
  now rewrite (findById_insert c_id _ _ _ chapter (pushNote n chapter) Hc eq_refl).
Qed.

Lemma notesOf_resolves st uuid req user i subject j chapter :
  resolves st uuid req user i subject j chapter ->
  notesOf st uuid (up_subjectId req) (up_chapterId req) = Some (c_notes chapter).
Proof. intros (Hu & Hs & Hc). unfold notesOf. now rewrite Hu, Hs, Hc. Qed.

Lemma not_succeeds (code : nat) (b : Body) :
  code <> 200 -> code <> 201 -> ~ Succeeds (mkResponse code b).
Proof. unfold Succeeds. simpl. lia. Qed.

End UploadFacts.

Section UploadTheorems.
Import Js Notes Upload Sample.

(** Unfold the route at a logged-in caller and split on its lookups. *)
Ltac upload_lookups Hin :=
  rewrite (uploadNoteFile_outcome _ _ _ _ _ Hin); unfold outcome;
  match goal with
  | |- context [negb (defined ?f) && negb (nonEmpty ?t)] =>
      destruct (negb (defined f) && negb (nonEmpty t)) eqn:?Hguard
  end;
  [|match goal with
    | |- context [users ?st !! ?u] =>
        destruct (users st !! u) as [?user|] eqn:?Huser
    end;
    [match goal with
     | |- context [findById s_id ?l ?id] =>
         destruct (findById s_id l id) as [[?i ?subject]|] eqn:?Hsubject
     end;
     [match goal with
      | |- context [findById c_id ?l ?id] =>
          destruct (findById c_id l id) as [[?j ?chapter]|] eqn:?Hchapter
      end|]|]].

Lemma upload_unconfigured cfg env req st uuid file :
  loggedInAs st uuid -> up_file req = Some file -> unconfigured cfg ->
  snd (uploadNoteFile cfg env req st) = st
  /\ ~ Succeeds (fst (uploadNoteFile cfg env req st)).
Proof.
  intros Hin Hfile Hcfg. upload_lookups Hin;
    try (split; [reflexivity|apply not_succeeds; lia]).
  unfold resolved. rewrite Hfile.
  destruct Hcfg as [-> | [Hc | Hc]].
  - split; [reflexivity|apply not_succeeds; lia].
  - rewrite Hc. destruct (gcpConfigured cfg);
      (split; [reflexivity|apply not_succeeds; lia]).
  - rewrite Hc. destruct (gcpConfigured cfg), (storage cfg);
      (split; [reflexivity|apply not_succeeds; lia]).
Qed.

Lemma upload_unconfigured_kind cfg env req st uuid file :
  loggedInAs st uuid -> up_file req = Some file -> unconfigured cfg ->
  ServiceUnavailable (fst (uploadNoteFile cfg env req st))
  \/ NotFound (fst (uploadNoteFile cfg env req st)).
Proof.
  intros Hin Hfile Hcfg. upload_lookups Hin; try (right; reflexivity).
  - rewrite Hfile in Hguard. discriminate.
  - left. unfold resolved. rewrite Hfile.
    destruct Hcfg as [-> | [Hc | Hc]]; [reflexivity| |]; rewrite Hc.
    + now destruct (gcpConfigured cfg).
    + now destruct (gcpConfigured cfg), (storage cfg).
Qed.

Lemma upload_unconfigured_resolved cfg env req st uuid file user i subject j chapter :
  loggedInAs st uuid -> up_file req = Some file -> unconfigured cfg ->
  resolves st uuid req user i subject j chapter ->
  uploadNoteFile cfg env req st
  = (mkResponse 500 (JError "Cloud storage not configured"), st).
Proof.
  intros Hin Hfile Hcfg Hres.
  rewrite (uploadNoteFile_resolved cfg env req st uuid user i subject j chapter Hin Hres)
    by (left; now rewrite Hfile).
  unfold resolved. rewrite Hfile.
  destruct Hcfg as [-> | [Hc | Hc]]; [reflexivity| |]; rewrite Hc.
  - now destruct (gcpConfigured cfg).
  - now destruct (gcpConfigured cfg), (storage cfg).
Qed.

Lemma upload_write_fails cfg env req st uuid file e :
  loggedInAs st uuid -> up_file req = Some file -> blobSave env = Some e ->
  snd (uploadNoteFile cfg env req st) = st
  /\ ~ Succeeds (fst (uploadNoteFile cfg env req st)).
Proof.
  intros Hin Hfile He. upload_lookups Hin;
    try (split; [reflexivity|apply not_succeeds; lia]).
  unfold resolved. rewrite Hfile, He.
  destruct (gcpConfigured cfg), (storage cfg), (bucket cfg);
    (split; [reflexivity|apply not_succeeds; lia]).
Qed.

(** A successful upload, spelled out. *)
Lemma upload_file_success cfg env req st uuid file :
  loggedInAs st uuid -> up_file req = Some file ->
  Succeeds (fst (uploadNoteFile cfg env req st)) ->
  blobSave env = None
  /\ exists b user i subject j chapter,
       gcpConfigured cfg = true /\ bucket cfg = Some b
       /\ resolves st uuid req user i subject j chapter
       /\ validateNote (fileNote env req st (publicUrl b (objectName env req uuid file)) file)
          = None
       /\ uploadNoteFile cfg env req st
          = (mkResponse 201
               (JFileUrl "File uploaded" (publicUrl b (objectName env req uuid file))),
             written st uuid user i subject j chapter
               (fileNote env req st (publicUrl b (objectName env req uuid file)) file)
               (published env (objectName env req uuid file)
                  (<[objectName env req uuid file
                     := mkObject (buffer file) (mimetype file) false]> (objects st)))).
Proof.
  intros Hin Hfile. upload_lookups Hin;
    try (intros Hs; exfalso; revert Hs; apply not_succeeds; lia).
  unfold resolved, refused. rewrite Hfile.
  destruct (gcpConfigured cfg) eqn:Hg;
    [|intros Hs; exfalso; revert Hs; apply not_succeeds; lia].
  destruct (storage cfg) eqn:Hst;
    [|intros Hs; exfalso; revert Hs; apply not_succeeds; lia].
  destruct (bucket cfg) as [b|] eqn:Hb;
    [|intros Hs; exfalso; revert Hs; apply not_succeeds; lia].
  destruct (blobSave env) eqn:He;
    [intros Hs; exfalso; revert Hs; apply not_succeeds; lia|].
  cbv zeta.
  destruct (validateNote _) eqn:Hv;
    [intros Hs; exfalso; revert Hs; apply not_succeeds; lia|].
  intros _. split; [reflexivity|].
  exists b, user, i, subject, j, chapter. repeat split; assumption.
Qed.

Lemma upload_changes_only_on_success cfg env req st uuid :
  loggedInAs st uuid ->
  Succeeds (fst (uploadNoteFile cfg env req st))
  \/ users (snd (uploadNoteFile cfg env req st)) = users st.
Proof.
  intros Hin. upload_lookups Hin; try (right; reflexivity).
  unfold resolved, refused.
  destruct (up_file req) as [file|].
  - destruct (gcpConfigured cfg), (storage cfg), (bucket cfg); try (right; reflexivity).
    destruct (blobSave env); [right; reflexivity|]. cbv zeta.
    destruct (validateNote _); [right; reflexivity|left; right; reflexivity].
  - cbv zeta. destruct (validateNote _); [right; reflexivity|left; right; reflexivity].
Qed.

Lemma published_lookup env name objs o :
  objs !! name = Some o ->
  exists o', published env name objs !! name = Some o'
             /\ o_data o' = o_data o /\ o_contentType o' = o_contentType o.
Proof.
  intros H. unfold published. destruct (makePublic env).
  - exists o. auto.
  - rewrite lookup_alter_eq, H. simpl. eexists. repeat split.
Qed.

(** C1: for a logged-in caller and a note-creation request that carries a
    file, with the object store not configured the request changes nothing
    and does not succeed, the addressed chapter's notes are as before, and
    the answer is ServiceUnavailable whenever the addressed chapter exists
    (NotFound of the earlier lookups when it does not); a store write that
    fails is a request failure that writes nothing; and a note is written
    only on success, which implies that the write to the object store
    completed: the object is in the bucket and the appended note carries
    its URL and the file's MIME type. *)
Theorem C1_no_note_without_stored_file
    (cfg : Config) (env : Env) (st : State) (uuid : string) (req : UploadBody)
    (file : UploadedFile)
    (Hin : loggedInAs st uuid) (Hfile : up_file req = Some file) :
  let r := uploadNoteFile cfg env req st in
  (unconfigured cfg ->
     snd r = st /\ ~ Succeeds (fst r)
     /\ notesOf (snd r) uuid (up_subjectId req) (up_chapterId req)
        = notesOf st uuid (up_subjectId req) (up_chapterId req)
     /\ (ServiceUnavailable (fst r) \/ NotFound (fst r))
     /\ forall user i subject j chapter,
          resolves st uuid req user i subject j chapter ->
          ServiceUnavailable (fst r)
          /\ notesOf (snd r) uuid (up_subjectId req) (up_chapterId req)
             = Some (c_notes chapter))
  /\ (forall e, blobSave env = Some e -> snd r = st /\ ~ Succeeds (fst r))
  /\ (Succeeds (fst r) \/ users (snd r) = users st)
  /\ (Succeeds (fst r) ->
      blobSave env = None
      /\ exists b user i subject j chapter note stored,
           bucket cfg = Some b
           /\ resolves st uuid req user i subject j chapter
           /\ objects (snd r) !! objectName env req uuid file = Some stored
           /\ o_data stored = buffer file /\ o_contentType stored = mimetype file
           /\ n_fileUrl note = publicUrl b (objectName env req uuid file)
           /\ n_mimeType note = mimetype file
           /\ fst r = mkResponse 201 (JFileUrl "File uploaded" (n_fileUrl note))
           /\ notesOf (snd r) uuid (up_subjectId req) (up_chapterId req)
              = Some (c_notes chapter ++ [note])).
Proof.
  intros r. subst r. split; [|split; [|split]].
  - intros Hcfg.
    destruct (upload_unconfigured cfg env req st uuid file Hin Hfile Hcfg) as [Hst Hns].
    pose proof (upload_unconfigured_kind cfg env req st uuid file Hin Hfile Hcfg) as Hk.
    rewrite Hst. repeat split; try assumption.
    + unfold ServiceUnavailable.
      now rewrite (upload_unconfigured_resolved cfg env req st uuid file
                     user i subject j chapter Hin Hfile Hcfg H).
    + exact (notesOf_resolves st uuid req user i subject j chapter H).
  - intros e He. exact (upload_write_fails cfg env req st uuid file e Hin Hfile He).
  - exact (upload_changes_only_on_success cfg env req st uuid Hin).
  - intros Hs.
    destruct (upload_file_success cfg env req st uuid file Hin Hfile Hs)
      as (He & b & user & i & subject & j & chapter & Hg & Hb & Hres & Hv & Hrun).
    split; [exact He|].
    destruct (published_lookup env (objectName env req uuid file)
                (<[objectName env req uuid file
                   := mkObject (buffer file) (mimetype file) false]> (objects st))
                _ (lookup_insert_eq _ _ _)) as (stored & Hlook & Hd & Hc).
    exists b, user, i, subject, j, chapter,
      (fileNote env req st (publicUrl b (objectName env req uuid file)) file), stored.
    rewrite Hrun. destruct Hres as (Hu & Hsu & Hch).
    repeat split; try assumption.
    cbn [snd]. now apply notesOf_written.
Qed.

Lemma algebraState_resolves (req : UploadBody) :
  up_subjectId req = Some mathId -> up_chapterId req = Some algebraId ->
  resolves algebraState "user-1" req aliceWithAlgebra 0 mathWithAlgebra 0 algebra.
Proof.
  intros Hs Hc. unfold resolves. rewrite Hs, Hc.
  split; [exact algebraState_user|]. split; reflexivity.
Qed.

Lemma C1_no_note_without_stored_file_witness :
  ServiceUnavailable (fst (uploadNoteFile offlineConfig morning lectureUpload algebraState))
  /\ notesOf (snd (uploadNoteFile offlineConfig morning lectureUpload algebraState))
       "user-1" (Some mathId) (Some algebraId)
     = Some [].
Proof.
  assert (Hin : loggedInAs algebraState "user-1") by (apply alice_loggedIn; reflexivity).
  destruct (C1_no_note_without_stored_file offlineConfig morning algebraState "user-1"
              lectureUpload lectureFile Hin eq_refl) as [Hun _].
  destruct Hun as (_ & _ & _ & _ & Hres); [left; reflexivity|].
  apply (Hres aliceWithAlgebra 0 mathWithAlgebra 0 algebra).
  apply algebraState_resolves; reflexivity.
Defined.




End UploadTheorems.

(** ** Object names *)

Section ObjectNames.
Import Js Notes Upload Sample.

Lemma append_inj_l (p a b : string) : p +:+ a = p +:+ b -> a = b.
Proof.
  induction p as [|c p IH]; [trivial|].
  rewrite !append_cons. intros [= H]. auto.
Qed.

Lemma allDigits_uint (d : Decimal.uint) : allDigits (digits d) = true.
Proof. induction d; simpl; trivial. Qed.

Lemma allDigits_decimal (n : N) : allDigits (decimal n) = true.
Proof. apply allDigits_uint. Qed.

Lemma digits_inj (d e : Decimal.uint) : digits d = digits e -> d = e.
Proof.
  revert e. induction d as [|d IH|d IH|d IH|d IH|d IH|d IH|d IH|d IH|d IH|d IH];
    intros [|e|e|e|e|e|e|e|e|e|e]; simpl; intros H; try discriminate H;
    try reflexivity; injection H as H; f_equal; auto.
Qed.

Lemma decimal_inj (a b : N) : decimal a = decimal b -> a = b.
Proof.
  unfold decimal. intros H.
  apply DecimalN.Unsigned.to_uint_inj. now apply digits_inj.
Qed.

(** Digits, then an underscore, then anything: the underscore that ends the
    digits is found again. *)
Lemma digits_underscore_inj (a a' b b' : string) :
  allDigits a = true -> allDigits a' = true ->
  a +:+ String "_" b = a' +:+ String "_" b' -> a = a' /\ b = b'.
Proof.
  revert a'. induction a as [|c a IH]; intros [|c' a'] Ha Ha' H.
  - simpl in H. injection H as <-. auto.
  - rewrite append_cons in H. simpl in H. injection H as <- _.
    simpl in Ha'. discriminate.
  - rewrite append_cons in H. simpl in H. injection H as -> _.
    simpl in Ha. discriminate.
  - rewrite !append_cons in H. injection H as -> H.
    simpl in Ha, Ha'. apply andb_true_iff in Ha as [_ Ha].
    apply andb_true_iff in Ha' as [_ Ha'].
    destruct (IH a' Ha Ha' H) as [-> ->]. auto.
Qed.

Lemma gcsFileName_collide (u s c : string) (t1 t2 : N) (f1 f2 : string) :
  gcsFileName u s c t1 f1 = gcsFileName u s c t2 f2 <-> t1 = t2 /\ f1 = f2.
Proof.
  split; [|intros [-> ->]; reflexivity].
  unfold gcsFileName. intros H.
  do 6 apply append_inj_l in H.
  apply digits_underscore_inj in H as [Ht Hf]; try apply allDigits_decimal.
  split; [now apply decimal_inj|assumption].
Qed.

Lemma findById_defined {A} (getId : A -> ObjectId) l id i x :
  findById getId l id = Some (i, x) -> exists s, id = Some s.
Proof.
  unfold findById. destruct id as [s|]; [eauto|discriminate].
Qed.

(** C7 (as the code has it): a stored file is named
    {userId}/{subjectId}/{chapterId}/{epochMillis}_{originalFilename}, and
    the URL returned is https://storage.googleapis.com/{bucket}/{objectName};
    two uploads with the same userId, subjectId and chapterId get the same
    object name exactly when they agree in millisecond timestamp and file
    name. *)
Theorem C7_object_name_and_url
    (cfg : Config) (env : Env) (st : State) (uuid : string) (req : UploadBody)
    (file : UploadedFile)
    (Hin : loggedInAs st uuid) (Hfile : up_file req = Some file)
    (Hok : Succeeds (fst (uploadNoteFile cfg env req st))) :
  (exists b subjectId chapterId stored,
      bucket cfg = Some b
      /\ up_subjectId req = Some subjectId /\ up_chapterId req = Some chapterId
      /\ let objectName :=
           uuid +:+ "/" +:+ subjectId +:+ "/" +:+ chapterId +:+ "/"
           +:+ decimal (now env) +:+ "_" +:+ originalname file in
         fst (uploadNoteFile cfg env req st)
         = mkResponse 201
             (JFileUrl "File uploaded"
                ("https://storage.googleapis.com/" +:+ bucket_name b +:+ "/" +:+ objectName))
         /\ objects (snd (uploadNoteFile cfg env req st)) !! objectName = Some stored
         /\ o_data stored = buffer file)
  /\ (forall subjectId chapterId t1 f1 t2 f2,
        gcsFileName uuid subjectId chapterId t1 f1
        = gcsFileName uuid subjectId chapterId t2 f2
        <-> t1 = t2 /\ f1 = f2).
Proof.
  split; [|intros; apply gcsFileName_collide].
  destruct (upload_file_success cfg env req st uuid file Hin Hfile Hok)
    as (He & b & user & i & subject & j & chapter & Hg & Hb & Hres & Hv & Hrun).
  destruct Hres as (Hu & Hs & Hc).
  destruct (findById_defined _ _ _ _ _ Hs) as [sid Hsid].
  destruct (findById_defined _ _ _ _ _ Hc) as [cid Hcid].
  destruct (published_lookup env (objectName env req uuid file)
              (<[objectName env req uuid file
                 := mkObject (buffer file) (mimetype file) false]> (objects st))
              _ (lookup_insert_eq _ _ _)) as (stored & Hlook & Hd & _).
  exists b, sid, cid, stored. rewrite Hrun.
  unfold objectName in *. rewrite Hsid, Hcid in *.
  repeat split; assumption.
Qed.

Lemma storeConfig_upload :
  uploadNoteFile storeConfig morning lectureUpload algebraState
  = (mkResponse 201
       (JFileUrl "File uploaded"
          "https://storage.googleapis.com/study-files/user-1/000000000000000000000000/000000000000000000000002/1700000000123_lecture1.pdf"),
     snd (uploadNoteFile storeConfig morning lectureUpload algebraState)).
Proof. vm_compute. reflexivity. Qed.

Lemma C7_object_name_and_url_witness :
  exists b subjectId chapterId stored,
    bucket storeConfig = Some b
    /\ up_subjectId lectureUpload = Some subjectId
    /\ up_chapterId lectureUpload = Some chapterId
    /\ let objectName :=
         "user-1" +:+ "/" +:+ subjectId +:+ "/" +:+ chapterId +:+ "/"
         +:+ decimal (now morning) +:+ "_" +:+ originalname lectureFile in
       fst (uploadNoteFile storeConfig morning lectureUpload algebraState)
       = mkResponse 201
           (JFileUrl "File uploaded"
              ("https://storage.googleapis.com/" +:+ bucket_name b +:+ "/" +:+ objectName))
       /\ objects (snd (uploadNoteFile storeConfig morning lectureUpload algebraState))
            !! objectName = Some stored
       /\ o_data stored = buffer lectureFile.
Proof.
  assert (Hin : loggedInAs algebraState "user-1") by (apply alice_loggedIn; reflexivity).
  assert (Hok : Succeeds (fst (uploadNoteFile storeConfig morning lectureUpload algebraState))).
  { rewrite storeConfig_upload. right. reflexivity. }
  exact (proj1 (C7_object_name_and_url storeConfig morning algebraState "user-1"
                  lectureUpload lectureFile Hin eq_refl Hok)).
Defined.

(** C7 as stated fails: two distinct uploads get one object name; the
    second replaces the first file in the bucket, and both notes point to
    it. *)
Lemma C7_counterexample :
  let first := uploadNoteFile storeConfig morning lectureUpload algebraState in
  let second := uploadNoteFile storeConfig morning revisedUpload (snd first) in
  lectureUpload <> revisedUpload
  /\ buffer lectureFile <> buffer revisedFile
  /\ fst first
     = mkResponse 201
         (JFileUrl "File uploaded" ("https://storage.googleapis.com/study-files/" +:+ lectureObject))
  /\ fst second = fst first
  /\ objects (snd first) !! lectureObject
     = Some (mkObject (buffer lectureFile) "application/pdf" true)
  /\ objects (snd second) !! lectureObject
     = Some (mkObject (buffer revisedFile) "application/pdf" true)
  /\ size (objects (snd second)) = 1
  /\ (n_fileUrl <$> default [] (notesOf (snd second) "user-1" (Some mathId) (Some algebraId)))
     = ["https://storage.googleapis.com/study-files/" +:+ lectureObject;
        "https://storage.googleapis.com/study-files/" +:+ lectureObject].
Proof.
  cbv zeta. split; [discriminate|]. split; [discriminate|].
  repeat split; vm_compute; reflexivity.
Qed.

End ObjectNames.

(** * Further properties of the routes *)

(** ** Requests without a session *)

Section Guard.
Import Js Chat Notes NoteRoute Server Upload Sample Cases.

Lemma serve_unauthenticated `{CM : CaseMapping} (r : Request) (st : State) :
  ~ authenticated st ->
  serve r st = (mkResponse 401 (JError "Not authenticated. Please log in."), st).
Proof.
  intros Hn. pose proof (requireAuth_fail st Hn) as Hr.
  destruct r; simpl;
    unfold chat, clearChat, getSubjects, createSubject, createChapter, createNote,
      uploadNoteFile, chatBody, uploadNoteFileBody, handle, bind;
    now rewrite Hr.
Qed.

End Guard.

(** ** Reading the note tree back *)

Section ReadBack.
Import Js Chat Notes NoteRoute Server Upload Sample Cases.

Lemma getSubjects_run (st : State) (uuid : string) :
  loggedInAs st uuid ->
  getSubjects st
  = (mkResponse 200
       (match subjectsOf st uuid with
        | [] => firstUse
        | subjects => JSubjectList true None subjects
        end), st).
Proof.
  intros Hin. unfold getSubjects, handle, bind, findOne, get, subjectsOf.
  rewrite (loggedIn_requireAuth st uuid Hin).
  destruct (users st !! uuid) as [u|]; [destruct (u_subjects u)|]; reflexivity.
Qed.

(** Listing never writes, and the first-use answer (no subjects, with the
    hint to add one) is given exactly when the caller has no profile or a
    profile without subjects; otherwise the stored list comes back whole
    and in order. *)
Theorem getSubjects_first_use (st : State) (uuid : string) :
  loggedInAs st uuid ->
  snd (getSubjects st) = st
  /\ (users st !! uuid = None -> fst (getSubjects st) = mkResponse 200 firstUse)
  /\ (fst (getSubjects st) = mkResponse 200 firstUse <-> subjectsOf st uuid = [])
  /\ (subjectsOf st uuid <> [] ->
      fst (getSubjects st) = mkResponse 200 (JSubjectList true None (subjectsOf st uuid))).
Proof.
  intros Hin. rewrite (getSubjects_run st uuid Hin). simpl.
  split; [reflexivity|]. split; [|split].
  - intros Hnone. unfold subjectsOf. now rewrite Hnone.
  - destruct (subjectsOf st uuid); split; intros H; try reflexivity; discriminate.
  - intros Hne. destruct (subjectsOf st uuid); [contradiction|reflexivity].
Qed.

Lemma getSubjects_first_use_witness :
  fst (getSubjects aliceSession) = mkResponse 200 firstUse.
Proof.
  assert (Hin : loggedInAs aliceSession "user-1") by (split; [reflexivity|discriminate]).
  apply (proj1 (proj2 (getSubjects_first_use aliceSession "user-1" Hin))).
  reflexivity.
Defined.

(** A subject just created is listed: the list that [createSubject]
    returned is what [getSubjects] answers next, the new subject last. *)
Theorem createSubject_then_list (env : Env) (name : string) (st : State) (uuid : string) :
  loggedInAs st uuid -> blank name = false ->
  let st' := snd (createSubject env (Some name) st) in
  let subject := mkSubject (oidCounter st) (trim name) [] (now env) in
  fst (getSubjects st')
  = mkResponse 200 (JSubjectList true None (subjectsOf st uuid ++ [subject]))
  /\ fst (createSubject env (Some name) st)
     = mkResponse 201 (JSubjects "Subject created" (subjectsOf st uuid ++ [subject])).
Proof.
  intros Hin Hb st' subject.
  destruct (createSubject_ok env name st uuid Hin Hb) as (Hr & Hs & _ & Hin' & _).
  split; [|exact Hr].
  subst st'. rewrite (getSubjects_run _ uuid Hin'), Hs. simpl.
  now destruct (subjectsOf st uuid).
Qed.

Lemma createSubject_then_list_witness :
  fst (getSubjects (snd (createSubject morning (Some " Math ") aliceSession)))
  = mkResponse 200
      (JSubjectList true None ([] ++ [mkSubject 0%N "Math" [] 1700000000123%N])).
Proof.
  assert (Hin : loggedInAs aliceSession "user-1") by (split; [reflexivity|discriminate]).
  exact (proj1 (createSubject_then_list morning " Math " aliceSession "user-1" Hin eq_refl)).
Defined.

End ReadBack.

(** ** Chapters and notes, written and read back *)

Section WriteAndRead.
Import Js Chat Notes NoteRoute Server Upload Sample Cases.

Lemma loggedInAs_frame (st st' : State) (uuid : string) :
  session st' = session st -> loggedInAs st uuid -> loggedInAs st' uuid.
Proof. unfold loggedInAs. now intros ->. Qed.

(** A chapter just created is listed under the subject it was created in,
    at the end of that subject's chapters; every other subject of the
    caller is listed as before. *)
Theorem createChapter_then_list
    (env : Env) (subjectId : option string) (name : string) (st : State)
    (uuid : string) (user : User) (i : nat) (subject : Subject) :
  loggedInAs st uuid -> blank name = false ->
  users st !! uuid = Some user ->
  findById s_id (u_subjects user) subjectId = Some (i, subject) ->
  let st' := snd (createChapter env subjectId (Some name) st) in
  let chapter := mkChapter (oidCounter st) (trim name) [] (now env) in
  exists listed,
    fst (getSubjects st') = mkResponse 200 (JSubjectList true None listed)
    /\ listed !! i = Some (pushChapter chapter subject)
    /\ s_chapters (pushChapter chapter subject) = s_chapters subject ++ [chapter]
    /\ List.length listed = List.length (u_subjects user)
    /\ forall k, k <> i -> listed !! k = u_subjects user !! k.
Proof.
  intros Hin Hb Hu Hf st' chapter.
  destruct (findById_Some s_id _ _ _ _ Hf) as (Hl & _ & _).
  assert (Hs : truthy subjectId = true).
  { destruct (findById_defined _ _ _ _ _ Hf) as [s ->].
    unfold findById in Hf. simpl in Hf. destruct s; [discriminate|reflexivity]. }
  subst st'.
  rewrite (createChapter_found env subjectId name st uuid user i subject Hin Hs
             (blank_false_truthy name Hb) Hu Hf), Hb.
  cbn [snd]. set (st' := mkState _ _ _ _).
  assert (Hin' : loggedInAs st' uuid) by (apply (loggedInAs_frame st); [reflexivity|assumption]).
  rewrite (getSubjects_run st' uuid Hin').
  assert (Hsub : subjectsOf st' uuid = <[i := pushChapter chapter subject]> (u_subjects user)).
  { unfold subjectsOf, st'. simpl. now rewrite lookup_insert_eq. }
  rewrite Hsub.
  exists (<[i := pushChapter chapter subject]> (u_subjects user)).
  assert (Hlt : i < List.length (u_subjects user)) by (eapply lookup_lt_Some, Hl).
  split.
  - cbn [fst]. destruct (<[i := pushChapter chapter subject]> (u_subjects user)) eqn:E;
      [|reflexivity].
    apply (f_equal List.length) in E. rewrite length_insert in E. simpl in E. lia.
  - split; [now apply list_lookup_insert_eq|]. split; [reflexivity|].
    split; [apply length_insert|].
    intros k Hk. now apply list_lookup_insert_ne.
Qed.

Lemma createChapter_then_list_witness :
  exists listed,
    fst (getSubjects (snd (createChapter morning (Some mathId) (Some "Algebra") mathState)))
    = mkResponse 200 (JSubjectList true None listed)
    /\ listed !! 0 = Some (pushChapter (mkChapter 2%N "Algebra" [] 1700000000123%N) math)
    /\ s_chapters (pushChapter (mkChapter 2%N "Algebra" [] 1700000000123%N) math)
       = s_chapters math ++ [mkChapter 2%N "Algebra" [] 1700000000123%N]
    /\ List.length listed = List.length (u_subjects alice)
    /\ forall k, k <> 0 -> listed !! k = u_subjects alice !! k.
Proof.
  assert (Hin : loggedInAs mathState "user-1") by (apply alice_loggedIn; reflexivity).
  exact (createChapter_then_list morning (Some mathId) "Algebra" mathState "user-1"
           alice 0 math Hin eq_refl mathState_user eq_refl).
Defined.

(** A chapter name of white space only is not refused by the first check:
    it is trimmed to nothing, the save is refused, and the request ends in
    a 500 with the note tree as it was. *)
Theorem createChapter_blank_refused
    (env : Env) (subjectId : option string) (name : string) (st : State)
    (uuid : string) (user : User) (i : nat) (subject : Subject) :
  loggedInAs st uuid -> name <> "" -> blank name = true ->
  users st !! uuid = Some user ->
  findById s_id (u_subjects user) subjectId = Some (i, subject) ->
  fst (createChapter env subjectId (Some name) st)
  = mkResponse 500 (JError "Server error")
  /\ users (snd (createChapter env subjectId (Some name) st)) = users st
  /\ fst (getSubjects (snd (createChapter env subjectId (Some name) st)))
     = fst (getSubjects st).
Proof.
  intros Hin Hne Hb Hu Hf.
  assert (Hs : truthy subjectId = true).
  { destruct (findById_defined _ _ _ _ _ Hf) as [s ->].
    unfold findById in Hf. simpl in Hf. destruct s; [discriminate|reflexivity]. }
  assert (Hn : truthy (Some name) = true) by (destruct name; [congruence|reflexivity]).
  rewrite (createChapter_found env subjectId name st uuid user i subject Hin Hs Hn Hu Hf), Hb.
  cbn [fst snd]. set (st' := mkState _ _ _ _).
  assert (Hin' : loggedInAs st' uuid) by (apply (loggedInAs_frame st); [reflexivity|assumption]).
  repeat split.
  rewrite (getSubjects_run st' uuid Hin'), (getSubjects_run st uuid Hin). reflexivity.
Qed.

Lemma createChapter_blank_refused_witness :
  fst (createChapter morning (Some mathId) (Some "   ") mathState)
  = mkResponse 500 (JError "Server error")
  /\ users (snd (createChapter morning (Some mathId) (Some "   ") mathState))
     = users mathState
  /\ fst (getSubjects (snd (createChapter morning (Some mathId) (Some "   ") mathState)))
     = fst (getSubjects mathState).
Proof.
  assert (Hin : loggedInAs mathState "user-1") by (apply alice_loggedIn; reflexivity).
  apply (createChapter_blank_refused morning (Some mathId) "   " mathState "user-1"
           alice 0 math Hin); [discriminate|reflexivity|exact mathState_user|reflexivity].
Defined.

End WriteAndRead.

(** ** POST /api/user/notes *)

Section NoteRouteFacts.
Import Js Chat Notes NoteRoute Server Upload Sample Cases.

(** The route for a logged-in caller, case by case. *)
Lemma createNote_outcome env subjectId chapterId title content type st uuid :
  loggedInAs st uuid ->
  createNote env subjectId chapterId title content type st
  = if negb (truthy subjectId) || negb (truthy chapterId) || negb (truthy title)
    then (mkResponse 400 (JError "subjectId, chapterId and title required"), st)
    else
      match users st !! uuid with
      | None => (mkResponse 404 (JError "User not found"), st)
      | Some user =>
          match findById s_id (u_subjects user) subjectId with
          | None => (mkResponse 404 (JError "Subject not found"), st)
          | Some (i, subject) =>
              match findById c_id (s_chapters subject) chapterId with
              | None => (mkResponse 404 (JError "Chapter not found"), st)
              | Some (j, chapter) =>
                  let n := mkNote (oidCounter st) (trim (default "" title))
                             (default "" content) (default "notes" type) "" "" (now env) in
                  match validateNote n with
                  | None =>
                      (mkResponse 201 (JNotes "Note added" (c_notes chapter ++ [n])),
                       written st uuid user i subject j chapter n (objects st))
                  | Some e =>
                      (mkResponse 500 (JError "Server error"),
                       mkState (users st) (oidCounter st + 1)%N (objects st) (session st))
                  end
              end
          end
      end.
Proof.
  intros Hin. unfold createNote, handle, bind.
  rewrite (loggedIn_requireAuth st uuid Hin).
  destruct (negb (truthy subjectId) || negb (truthy chapterId) || negb (truthy title));
    [reflexivity|].
  unfold findOne, get.
  destruct (users st !! uuid) as [user|]; [|reflexivity].
  destruct (findById s_id (u_subjects user) subjectId) as [[i subject]|]; [|reflexivity].
  destruct (findById c_id (s_chapters subject) chapterId) as [[j chapter]|]; [|reflexivity].
  unfold newObjectId, save, throw, modify, ret, setUsers, written. simpl.
  match goal with |- context [validateNote ?n] => destruct (validateNote n) end;
    reflexivity.
Qed.

Lemma validateNote_ok (n : Note) :
  validateNote n = None <-> n_title n <> "" /\ n_type n ∈ noteTypes.
Proof.
  unfold validateNote, checkRequired. destruct (n_title n) eqn:Et; simpl.
  - split; [discriminate|]. intros [H _]. congruence.
  - destruct (bool_decide (n_type n ∈ noteTypes)) eqn:E.
    + apply bool_decide_eq_true_1 in E. split; [|reflexivity]. intros _.
      split; [discriminate|assumption].
    + apply bool_decide_eq_false_1 in E. split; [discriminate|]. intros [_ H]. contradiction.
Qed.

(** The notes route checks its three required fields before any lookup,
    then the profile, the subject and the chapter in that order; it stores
    a note only when the trimmed title is not empty and the type is one of
    the schema's, and then answers the chapter's notes with the new note,
    which has no file, last.  In every other case no note is stored. *)
Theorem createNote_cases
    (env : Env) (subjectId chapterId title content type : option string)
    (st : State) (uuid : string) :
  loggedInAs st uuid ->
  let r := createNote env subjectId chapterId title content type st in
  (truthy subjectId = false \/ truthy chapterId = false \/ truthy title = false ->
     fst r = mkResponse 400 (JError "subjectId, chapterId and title required")
     /\ snd r = st)
  /\ (truthy subjectId = true -> truthy chapterId = true -> truthy title = true ->
      notesOf st uuid subjectId chapterId = None ->
      NotFound (fst r) /\ snd r = st)
  /\ (forall user i subject j chapter t,
        title = Some t -> t <> "" ->
        resolves st uuid (mkUpload subjectId chapterId title type content None)
                 user i subject j chapter ->
        let n := mkNote (oidCounter st) (trim t) (default "" content)
                        (default "notes" type) "" "" (now env) in
        (blank t = false /\ default "notes" type ∈ noteTypes ->
           fst r = mkResponse 201 (JNotes "Note added" (c_notes chapter ++ [n]))
           /\ notesOf (snd r) uuid subjectId chapterId = Some (c_notes chapter ++ [n]))
        /\ (blank t = true \/ default "notes" type ∉ noteTypes ->
           fst r = mkResponse 500 (JError "Server error")
           /\ users (snd r) = users st))
  /\ (Succeeds (fst r) \/ users (snd r) = users st).
Proof.
  intros Hin r. subst r. rewrite (createNote_outcome _ _ _ _ _ _ _ uuid Hin).
  split; [|split; [|split]].
  - intros H.
    assert (E : negb (truthy subjectId) || negb (truthy chapterId) || negb (truthy title)
                = true).
    { destruct H as [-> | [-> | ->]]; rewrite ?orb_true_r; reflexivity. }
    rewrite E. split; reflexivity.
  - intros -> -> ->. simpl. unfold notesOf.
    destruct (users st !! uuid) as [user|]; [|split; reflexivity].
    destruct (findById s_id (u_subjects user) subjectId) as [[i subject]|];
      [|split; reflexivity].
    destruct (findById c_id (s_chapters subject) chapterId) as [[j chapter]|];
      [discriminate|split; reflexivity].
  - intros user i subject j chapter t -> Ht (Hu & Hs & Hc) n. simpl in Hs, Hc.
    assert (Hsid : truthy subjectId = true).
    { destruct (findById_defined _ _ _ _ _ Hs) as [s ->].
      unfold findById in Hs. simpl in Hs. destruct s; [discriminate|reflexivity]. }
    assert (Hcid : truthy chapterId = true).
    { destruct (findById_defined _ _ _ _ _ Hc) as [s ->].
      unfold findById in Hc. simpl in Hc. destruct s; [discriminate|reflexivity]. }
    assert (Htt : truthy (Some t) = true) by (destruct t; [congruence|reflexivity]).
    rewrite Hsid, Hcid, Htt, Hu, Hs, Hc. cbv zeta. simpl default. fold n.
    split.
    + intros [Hb Hty].
      assert (Hv : validateNote n = None).
      { apply validateNote_ok. split; [|exact Hty].
        subst n. simpl. now apply trim_nonEmpty_iff. }
      rewrite Hv. split; [reflexivity|]. cbn [snd]. now apply notesOf_written.
    + intros Hbad. destruct (validateNote n) eqn:Hv; [split; reflexivity|].
      apply validateNote_ok in Hv as [Hv1 Hv2]. subst n. simpl in Hv1, Hv2.
      destruct Hbad as [Hb|Hty]; [|contradiction].
      apply trim_nonEmpty_iff in Hv1. congruence.
  - destruct (negb (truthy subjectId) || negb (truthy chapterId) || negb (truthy title));
      [right; reflexivity|].
    destruct (users st !! uuid) as [user|]; [|right; reflexivity].
    destruct (findById s_id (u_subjects user) subjectId) as [[i subject]|];
      [|right; reflexivity].
    destruct (findById c_id (s_chapters subject) chapterId) as [[j chapter]|];
      [|right; reflexivity].
    cbv zeta. destruct (validateNote _); [right; reflexivity|left; right; reflexivity].
Qed.

Lemma createNote_cases_witness :
  fst (createNote morning (Some mathId) (Some algebraId) (Some " Factoring ")
         (Some "x^2 - 1") None algebraState)
  = mkResponse 201
      (JNotes "Note added"
         ([] ++ [mkNote 3%N "Factoring" "x^2 - 1" "notes" "" "" 1700000000123%N])).
Proof.
  assert (Hin : loggedInAs algebraState "user-1") by (apply alice_loggedIn; reflexivity).
  assert (Hty : default "notes" (@None string) ∈ noteTypes).
  { apply (bool_decide_unpack _). vm_compute. exact I. }
  destruct (createNote_cases morning (Some mathId) (Some algebraId) (Some " Factoring ")
              (Some "x^2 - 1") None algebraState "user-1" Hin) as (_ & _ & Hok & _).
  destruct (Hok aliceWithAlgebra 0 mathWithAlgebra 0 algebra " Factoring " eq_refl
              ltac:(discriminate)
              (algebraState_resolves
                 (mkUpload (Some mathId) (Some algebraId) (Some " Factoring ") None
                    (Some "x^2 - 1") None) eq_refl eq_refl)) as [Hgood _].
  exact (proj1 (Hgood (conj eq_refl Hty))).
Defined.

Lemma nonEmpty_default (o : option string) : nonEmpty (default "" o) = truthy o.
Proof. now destruct o as [[|a s]|]. Qed.

(** A missing or empty id denotes no sub-document. *)
Lemma findById_falsy {A} (getId : A -> ObjectId) (l : list A) (id : option string) :
  truthy id = false -> findById getId l id = None.
Proof. destruct id as [[|a s]|]; try discriminate; reflexivity. Qed.

(** The notes route and the upload route without a file leave the same
    state behind for the same fields, whatever they answer; with both ids
    present they also answer with the same status. *)
Theorem createNote_as_upload_without_file
    (cfg : Config) (env : Env) (subjectId chapterId title content type : option string)
    (st : State) :
  let viaNotes := createNote env subjectId chapterId title content type st in
  let viaUpload :=
    uploadNoteFile cfg env (mkUpload subjectId chapterId title type content None) st in
  snd viaNotes = snd viaUpload
  /\ (truthy subjectId = true -> truthy chapterId = true ->
      status (fst viaNotes) = status (fst viaUpload)).
Proof.
  cbv zeta. destruct (authenticated_dec st) as [Ha|Hn].
  - destruct (requireAuth_ok st Ha) as (uuid & Hu & Hne & _).
    assert (Hin : loggedInAs st uuid) by (split; assumption).
    rewrite (createNote_outcome _ _ _ _ _ _ _ uuid Hin),
            (uploadNoteFile_outcome _ _ _ _ uuid Hin).
    unfold outcome, resolved, refused, textNote. cbn [up_file up_title up_subjectId
      up_chapterId up_type up_content defined negb andb].
    rewrite nonEmpty_default.
    destruct (truthy title) eqn:Ht; cbn [negb orb].
    + destruct (truthy subjectId) eqn:Hs; cbn [negb orb].
      * destruct (truthy chapterId) eqn:Hc; cbn [negb orb].
        -- destruct (users st !! uuid) as [user|]; [|split; reflexivity].
           destruct (findById s_id (u_subjects user) subjectId) as [[i subject]|];
             [|split; reflexivity].
           destruct (findById c_id (s_chapters subject) chapterId) as [[k chapter]|];
             [|split; reflexivity].
           cbv zeta. destruct (validateNote _); split; reflexivity.
        -- split; [|discriminate].
           destruct (users st !! uuid) as [user|]; [|reflexivity].
           destruct (findById s_id (u_subjects user) subjectId) as [[i subject]|];
             [|reflexivity].
           now rewrite (findById_falsy c_id _ _ Hc).
      * split; [|discriminate].
        destruct (users st !! uuid) as [user|]; [|reflexivity].
        now rewrite (findById_falsy s_id _ _ Hs).
    + rewrite !orb_true_r. split; reflexivity.
  - pose proof (serve_unauthenticated
                  (CreateNoteReq env subjectId chapterId title content type) st Hn) as H1.
    pose proof (serve_unauthenticated
                  (UploadReq cfg env (mkUpload subjectId chapterId title type content None))
                  st Hn) as H2.
    simpl in H1, H2. rewrite H1, H2. split; reflexivity.
Qed.

Lemma createNote_as_upload_without_file_witness :
  status (fst (createNote morning (Some mathId) (Some algebraId) (Some "Factoring")
                 (Some "x^2 - 1") (Some "notes") algebraState))
  = status (fst (uploadNoteFile offlineConfig morning
                   (mkUpload (Some mathId) (Some algebraId) (Some "Factoring")
                      (Some "notes") (Some "x^2 - 1") None)
                   algebraState)).
Proof.
  apply (proj2 (createNote_as_upload_without_file offlineConfig morning
                  (Some mathId) (Some algebraId) (Some "Factoring") (Some "x^2 - 1")
                  (Some "notes") algebraState)); reflexivity.
Defined.

End NoteRouteFacts.

(** ** Nothing is deleted or edited *)

Section GrowthFacts.
Import Js Chat Notes NoteRoute Server Upload Growth Sample Cases.

Lemma grows_refl {A} (R : A -> A -> Prop) (l : list A) :
  (forall x, R x x) -> grows R l l.
Proof.
  intros HR. exists l, []. split; [now rewrite app_nil_r|].
  apply Forall_Forall2_diag, Forall_forall. auto.
Qed.

Lemma grows_trans {A} (R : A -> A -> Prop) (l1 l2 l3 : list A) :
  (forall x y z, R x y -> R y z -> R x z) ->
  grows R l1 l2 -> grows R l2 l3 -> grows R l1 l3.
Proof.
  intros HR (m & k & -> & H12) (m' & k' & -> & H23).
  apply Forall2_app_inv_l in H23 as (m1 & m2 & H1 & H2 & ->).
  exists m1, (m2 ++ k'). split; [now rewrite app_assoc|].
  eapply Forall2_trans; eauto.
Qed.

Lemma grows_push {A} (R : A -> A -> Prop) (l : list A) (x : A) :
  (forall x, R x x) -> grows R l (l ++ [x]).
Proof.
  intros HR. exists l, [x]. split; [reflexivity|].
  apply Forall_Forall2_diag, Forall_forall. auto.
Qed.

Lemma grows_insert {A} (R : A -> A -> Prop) (l : list A) (i : nat) (x y : A) :
  (forall x, R x x) -> l !! i = Some x -> R x y -> grows R l (<[i := y]> l).
Proof.
  intros HR Hl Hxy. exists (<[i := y]> l), []. split; [now rewrite app_nil_r|].
  rewrite <- (list_insert_id l i x Hl) at 1.
  apply Forall2_insert; [|assumption].
  apply Forall_Forall2_diag, Forall_forall. auto.
Qed.

Lemma chapterGrows_refl (c : Chapter) : chapterGrows c c.
Proof. repeat split. exists []. now rewrite app_nil_r. Qed.

Lemma chapterGrows_trans (a b c : Chapter) :
  chapterGrows a b -> chapterGrows b c -> chapterGrows a c.
Proof.
  intros (H1 & H2 & H3 & k & H4) (G1 & G2 & G3 & k' & G4).
  repeat split; try congruence. exists (k ++ k'). now rewrite G4, H4, app_assoc.
Qed.

Lemma subjectGrows_refl (s : Subject) : subjectGrows s s.
Proof. repeat split. apply grows_refl, chapterGrows_refl. Qed.

Lemma subjectGrows_trans (a b c : Subject) :
  subjectGrows a b -> subjectGrows b c -> subjectGrows a c.
Proof.
  intros (H1 & H2 & H3 & H4) (G1 & G2 & G3 & G4).
  repeat split; try congruence.
  eapply grows_trans; eauto using chapterGrows_trans.
Qed.

Lemma userGrows_refl (u : User) : userGrows u u.
Proof. repeat split. apply grows_refl, subjectGrows_refl. Qed.

Lemma userGrows_trans (a b c : User) : userGrows a b -> userGrows b c -> userGrows a c.
Proof.
  intros (H1 & H2 & H3 & H4) (G1 & G2 & G3 & G4).
  repeat split; try congruence.
  eapply grows_trans; eauto using subjectGrows_trans.
Qed.

Lemma storeGrows_refl (m : gmap string User) : storeGrows m m.
Proof. intros uuid u Hu. exists u. split; [assumption|apply userGrows_refl]. Qed.

Lemma storeGrows_trans (a b c : gmap string User) :
  storeGrows a b -> storeGrows b c -> storeGrows a c.
Proof.
  intros Hab Hbc uuid u Hu.
  destruct (Hab uuid u Hu) as (u' & Hu' & H1).
  destruct (Hbc uuid u' Hu') as (u'' & Hu'' & H2).
  exists u''. split; [assumption|]. eapply userGrows_trans; eauto.
Qed.

Lemma storeGrows_insert (m : gmap string User) (uuid : string) (u' : User) :
  (forall u, m !! uuid = Some u -> userGrows u u') ->
  storeGrows m (<[uuid := u']> m).
Proof.
  intros H k u Hu. destruct (decide (k = uuid)) as [->|Hne].
  - exists u'. rewrite lookup_insert_eq. split; [reflexivity|auto].
  - exists u. rewrite lookup_insert_ne by congruence.
    split; [assumption|apply userGrows_refl].
Qed.

Lemma userGrows_pushSubject (u : User) (s : Subject) : userGrows u (pushSubject s u).
Proof. repeat split. apply grows_push, subjectGrows_refl. Qed.

Lemma userGrows_pushChapter (u : User) (i : nat) (s : Subject) (c : Chapter) :
  u_subjects u !! i = Some s -> userGrows u (setSubject i (pushChapter c s) u).
Proof.
  intros Hi. repeat split. simpl.
  apply (grows_insert _ _ _ s); [apply subjectGrows_refl|assumption|].
  repeat split. simpl. apply grows_push, chapterGrows_refl.
Qed.

Lemma userGrows_pushNote (u : User) (i : nat) (s : Subject) (j : nat) (c : Chapter)
    (n : Note) :
  u_subjects u !! i = Some s -> s_chapters s !! j = Some c ->
  userGrows u (setSubject i (setChapter j (pushNote n c) s) u).
Proof.
  intros Hi Hj. repeat split. simpl.
  apply (grows_insert _ _ _ s); [apply subjectGrows_refl|assumption|].
  repeat split. simpl.
  apply (grows_insert _ _ _ c); [apply chapterGrows_refl|assumption|].
  repeat split. simpl. now exists [n].
Qed.

(** What one request can do to the store: nothing, or replace the caller's
    document by a grown one (or create it). *)
Lemma serve_effect `{CM : CaseMapping} (r : Request) (st : State) (uuid : string) :
  loggedInAs st uuid ->
  users (snd (serve r st)) = users st
  \/ exists u', users (snd (serve r st)) = <[uuid := u']> (users st)
                /\ writesNotes r = true
                /\ forall u, users st !! uuid = Some u -> userGrows u u'.
Proof.
  intros Hin. pose proof (loggedIn_authenticated st uuid Hin) as Ha.
  destruct r as [cfg message nc| | |env name|env subjectId name
                |env subjectId chapterId title content type|cfg env req]; simpl.
  - left. destruct message as [msg|].
    + destruct (blank msg) eqn:Hb.
      * destruct (chat_rejected cfg (Some msg) nc st) as [-> _]; [|reflexivity].
        left. now rewrite missingOrBlank_Some.
      * now rewrite chat_accepted.
    + destruct (chat_rejected cfg None nc st) as [-> _]; [now left|reflexivity].
  - left. now rewrite clearChat_ok.
  - left. now rewrite (getSubjects_run st uuid Hin).
  - destruct name as [name|]; [destruct (blank name) eqn:Hb|].
    + left. rewrite (createSubject_invalid env (Some name) st uuid Hin); [reflexivity|].
      now rewrite missingOrBlank_Some.
    + right. rewrite (createSubject_accepted env name st uuid Hin Hb).
      destruct (users st !! uuid) as [u|] eqn:Hu.
      * eexists. split; [reflexivity|]. split; [reflexivity|].
        intros u0 [= <-]. apply userGrows_pushSubject.
      * eexists. split; [reflexivity|]. split; [reflexivity|]. discriminate.
    + left. now rewrite (createSubject_invalid env None st uuid Hin).
  - destruct (truthy subjectId) eqn:Hs;
      [|left; rewrite (createChapter_invalid env subjectId name st uuid Hin); auto].
    destruct (truthy name) eqn:Hn;
      [|left; rewrite (createChapter_invalid env subjectId name st uuid Hin); auto].
    destruct (users st !! uuid) as [user|] eqn:Hu;
      [|left; now rewrite (createChapter_no_user env subjectId name st uuid Hin)].
    destruct (findById s_id (u_subjects user) subjectId) as [[i subject]|] eqn:Hf;
      [|left; now rewrite (createChapter_no_subject env subjectId name st uuid user Hin)].
    destruct name as [nm|]; [|discriminate].
    rewrite (createChapter_found env subjectId nm st uuid user i subject Hin Hs Hn Hu Hf).
    destruct (blank nm); [left; reflexivity|right].
    eexists. split; [reflexivity|]. split; [reflexivity|].
    intros u0 [= <-]. apply userGrows_pushChapter.
    apply (findById_Some s_id _ _ _ _ Hf).
  - rewrite (createNote_outcome _ _ _ _ _ _ _ uuid Hin).
    destruct (negb (truthy subjectId) || negb (truthy chapterId) || negb (truthy title));
      [left; reflexivity|].
    destruct (users st !! uuid) as [user|] eqn:Hu; [|left; reflexivity].
    destruct (findById s_id (u_subjects user) subjectId) as [[i subject]|] eqn:Hf;
      [|left; reflexivity].
    destruct (findById c_id (s_chapters subject) chapterId) as [[j chapter]|] eqn:Hc;
      [|left; reflexivity].
    cbv zeta. destruct (validateNote _); [left; reflexivity|right].
    eexists. split; [reflexivity|]. split; [reflexivity|].
    intros u0 [= <-]. apply userGrows_pushNote.
    + apply (findById_Some s_id _ _ _ _ Hf).
    + apply (findById_Some c_id _ _ _ _ Hc).
  - rewrite (uploadNoteFile_outcome _ _ _ _ uuid Hin). unfold outcome.
    destruct (negb (defined (up_file req)) && negb (nonEmpty (default "" (up_title req))));
      [left; reflexivity|].
    destruct (users st !! uuid) as [user|] eqn:Hu; [|left; reflexivity].
    destruct (findById s_id (u_subjects user) (up_subjectId req)) as [[i subject]|] eqn:Hf;
      [|left; reflexivity].
    destruct (findById c_id (s_chapters subject) (up_chapterId req)) as [[j chapter]|] eqn:Hc;
      [|left; reflexivity].
    assert (Hg : forall n, forall u0, Some user = Some u0 ->
              userGrows u0 (setSubject i (setChapter j (pushNote n chapter) subject) user)).
    { intros n u0 [= <-]. apply userGrows_pushNote.
      - apply (findById_Some s_id _ _ _ _ Hf).
      - apply (findById_Some c_id _ _ _ _ Hc). }
    unfold resolved, refused. destruct (up_file req) as [file|].
    + destruct (gcpConfigured cfg), (storage cfg), (bucket cfg); try (left; reflexivity).
      destruct (blobSave env); [left; reflexivity|]. cbv zeta.
      destruct (validateNote _); [left; reflexivity|right].
      eexists. split; [reflexivity|]. split; [reflexivity|]. apply Hg.
    + cbv zeta. destruct (validateNote _); [left; reflexivity|right].
      eexists. split; [reflexivity|]. split; [reflexivity|]. apply Hg.
Qed.

End GrowthFacts.

Section Frames.
Import Js Chat Notes NoteRoute Server Upload Growth Sample Cases.

(** What one request leaves alone. *)
Lemma serve_frame `{CM : CaseMapping} (r : Request) (st : State) :
  userUUID (session (snd (serve r st))) = userUUID (session st)
  /\ (writesSession r = false -> session (snd (serve r st)) = session st)
  /\ (writesNotes r = false ->
      users (snd (serve r st)) = users st
      /\ objects (snd (serve r st)) = objects st
      /\ oidCounter (snd (serve r st)) = oidCounter st).
Proof.
  destruct (authenticated_dec st) as [Ha|Hn];
    [|rewrite (serve_unauthenticated r st Hn); repeat split].
  destruct (requireAuth_ok st Ha) as (uuid & Hu & Hne & _).
  assert (Hin : loggedInAs st uuid) by (split; assumption).
  destruct r as [cfg message nc| | |env name|env subjectId name
                |env subjectId chapterId title content type|cfg env req]; simpl.
  - destruct message as [msg|]; [destruct (blank msg) eqn:Hb|].
    + destruct (chat_rejected cfg (Some msg) nc st) as [-> _]; [|repeat split; discriminate].
      left. now rewrite missingOrBlank_Some.
    + rewrite chat_accepted by assumption. repeat split; discriminate.
    + destruct (chat_rejected cfg None nc st) as [-> _]; [now left|repeat split; discriminate].
  - rewrite clearChat_ok by assumption. repeat split; discriminate.
  - rewrite (getSubjects_run st uuid Hin). repeat split.
  - destruct name as [name|]; [destruct (blank name) eqn:Hb|].
    + rewrite (createSubject_invalid env (Some name) st uuid Hin);
        [repeat split; discriminate|now rewrite missingOrBlank_Some].
    + rewrite (createSubject_accepted env name st uuid Hin Hb).
      destruct (users st !! uuid); repeat split; discriminate.
    + rewrite (createSubject_invalid env None st uuid Hin); [|reflexivity].
      repeat split; discriminate.
  - destruct (truthy subjectId) eqn:Hs;
      [|rewrite (createChapter_invalid env subjectId name st uuid Hin); auto;
        repeat split; discriminate].
    destruct (truthy name) eqn:Hn;
      [|rewrite (createChapter_invalid env subjectId name st uuid Hin); auto;
        repeat split; discriminate].
    destruct (users st !! uuid) as [user|] eqn:Hus;
      [|rewrite (createChapter_no_user env subjectId name st uuid Hin); auto;
        repeat split; discriminate].
    destruct (findById s_id (u_subjects user) subjectId) as [[i subject]|] eqn:Hf;
      [|rewrite (createChapter_no_subject env subjectId name st uuid user Hin); auto;
        repeat split; discriminate].
    destruct name as [nm|]; [|discriminate].
    rewrite (createChapter_found env subjectId nm st uuid user i subject Hin Hs Hn Hus Hf).
    destruct (blank nm); repeat split; discriminate.
  - rewrite (createNote_outcome _ _ _ _ _ _ _ uuid Hin).
    destruct (negb (truthy subjectId) || negb (truthy chapterId) || negb (truthy title));
      [repeat split; discriminate|].
    destruct (users st !! uuid) as [user|]; [|repeat split; discriminate].
    destruct (findById s_id (u_subjects user) subjectId) as [[i subject]|];
      [|repeat split; discriminate].
    destruct (findById c_id (s_chapters subject) chapterId) as [[j chapter]|];
      [|repeat split; discriminate].
    cbv zeta. destruct (validateNote _); repeat split; discriminate.
  - rewrite (uploadNoteFile_outcome _ _ _ _ uuid Hin). unfold outcome.
    destruct (negb (defined (up_file req)) && negb (nonEmpty (default "" (up_title req))));
      [repeat split; discriminate|].
    destruct (users st !! uuid) as [user|]; [|repeat split; discriminate].
    destruct (findById s_id (u_subjects user) (up_subjectId req)) as [[i subject]|];
      [|repeat split; discriminate].
    destruct (findById c_id (s_chapters subject) (up_chapterId req)) as [[j chapter]|];
      [|repeat split; discriminate].
    unfold resolved, refused. destruct (up_file req) as [file|].
    + destruct (gcpConfigured cfg), (storage cfg), (bucket cfg);
        try (repeat split; discriminate).
      destruct (blobSave env); [repeat split; discriminate|]. cbv zeta.
      destruct (validateNote _); repeat split; discriminate.
    + cbv zeta. destruct (validateNote _); repeat split; discriminate.
Qed.

(** Without a logged-in session every session route answers 401 and leaves
    the store, the bucket and the session as they are; with one, no route
    answers 401. *)
Theorem unauthenticated_rejected `{CM : CaseMapping} (r : Request) (st : State) :
  (~ authenticated st ->
     serve r st = (mkResponse 401 (JError "Not authenticated. Please log in."), st))
  /\ (authenticated st -> ~ Unauthenticated (fst (serve r st))).
Proof.
  split; [exact (serve_unauthenticated r st)|].
  intros Ha. unfold Unauthenticated. destruct (requireAuth_ok st Ha) as (uuid & Hu & Hne & _).
  assert (Hin : loggedInAs st uuid) by (split; assumption).
  destruct r as [cfg message nc| | |env name|env subjectId name
                |env subjectId chapterId title content type|cfg env req]; simpl.
  - destruct message as [msg|]; [destruct (blank msg) eqn:Hb|].
    + unfold chat, handle, chatBody, bind.
      rewrite (loggedIn_requireAuth st uuid Hin), missingOrBlank_Some, Hb. discriminate.
    + rewrite chat_accepted by assumption. discriminate.
    + unfold chat, handle, chatBody, bind.
      rewrite (loggedIn_requireAuth st uuid Hin). discriminate.
  - unfold clearChat, handle, bind.
    rewrite (loggedIn_requireAuth st uuid Hin). discriminate.
  - rewrite (getSubjects_run st uuid Hin). discriminate.
  - destruct name as [name|]; [destruct (blank name) eqn:Hb|].
    + rewrite (createSubject_invalid env (Some name) st uuid Hin);
        [discriminate|now rewrite missingOrBlank_Some].
    + rewrite (createSubject_accepted env name st uuid Hin Hb).
      destruct (users st !! uuid); discriminate.
    + rewrite (createSubject_invalid env None st uuid Hin); [discriminate|reflexivity].
  - destruct (truthy subjectId) eqn:Hs;
      [|rewrite (createChapter_invalid env subjectId name st uuid Hin);
        [discriminate|auto]].
    destruct (truthy name) eqn:Hn;
      [|rewrite (createChapter_invalid env subjectId name st uuid Hin);
        [discriminate|auto]].
    destruct (users st !! uuid) as [user|] eqn:Hus;
      [|rewrite (createChapter_no_user env subjectId name st uuid Hin);
        [discriminate|assumption..]].
    destruct (findById s_id (u_subjects user) subjectId) as [[i subject]|] eqn:Hf;
      [|rewrite (createChapter_no_subject env subjectId name st uuid user Hin);
        [discriminate|assumption..]].
    destruct name as [nm|]; [|discriminate].
    rewrite (createChapter_found env subjectId nm st uuid user i subject Hin Hs Hn Hus Hf).
    destruct (blank nm); discriminate.
  - rewrite (createNote_outcome _ _ _ _ _ _ _ uuid Hin).
    destruct (negb (truthy subjectId) || negb (truthy chapterId) || negb (truthy title));
      [discriminate|].
    destruct (users st !! uuid) as [user|]; [|discriminate].
    destruct (findById s_id (u_subjects user) subjectId) as [[i subject]|]; [|discriminate].
    destruct (findById c_id (s_chapters subject) chapterId) as [[j chapter]|];
      [|discriminate].
    cbv zeta. destruct (validateNote _); discriminate.
  - rewrite (uploadNoteFile_outcome _ _ _ _ uuid Hin). unfold outcome.
    destruct (negb (defined (up_file req)) && negb (nonEmpty (default "" (up_title req))));
      [discriminate|].
    destruct (users st !! uuid) as [user|]; [|discriminate].
    destruct (findById s_id (u_subjects user) (up_subjectId req)) as [[i subject]|];
      [|discriminate].
    destruct (findById c_id (s_chapters subject) (up_chapterId req)) as [[j chapter]|];
      [|discriminate].
    unfold resolved, refused. destruct (up_file req) as [f|].
    + destruct (gcpConfigured cfg), (storage cfg), (bucket cfg); try discriminate.
      destruct (blobSave env); [discriminate|]. cbv zeta.
      destruct (validateNote _); discriminate.
    + cbv zeta. destruct (validateNote _); discriminate.
Qed.

Lemma unauthenticated_rejected_witness :
  serve (CreateSubjectReq morning (Some "Math")) visitor
  = (mkResponse 401 (JError "Not authenticated. Please log in."), visitor).
Proof.
  apply (proj1 (unauthenticated_rejected (CreateSubjectReq morning (Some "Math")) visitor)).
  unfold authenticated. simpl. discriminate.
Defined.

(** The chat routes never touch the note tree, the bucket or the id
    counter, and the routes of the note tree never touch the session, so
    the chat history survives them; no route changes who is logged in. *)
Theorem chat_and_notes_apart `{CM : CaseMapping} (r : Request) (st : State) :
  userUUID (session (snd (serve r st))) = userUUID (session st)
  /\ (writesSession r = true ->
      users (snd (serve r st)) = users st
      /\ objects (snd (serve r st)) = objects st
      /\ oidCounter (snd (serve r st)) = oidCounter st)
  /\ (writesNotes r = true -> history (snd (serve r st)) = history st).
Proof.
  destruct (serve_frame r st) as (Hu & Hs & Hn). split; [exact Hu|]. split.
  - intros Hw. apply Hn. now destruct r.
  - intros Hw. unfold history. rewrite Hs; [reflexivity|now destruct r].
Qed.

Lemma chat_and_notes_apart_witness :
  history (snd (serve (CreateChapterReq morning (Some mathId) (Some "Algebra")) mathState))
  = history mathState.
Proof.
  exact (proj2 (proj2 (chat_and_notes_apart
                         (CreateChapterReq morning (Some mathId) (Some "Algebra"))
                         mathState)) eq_refl).
Defined.

(** No request reads or writes the document of another user: whatever the
    caller sends, the documents stored under other identities are the same
    afterwards. *)
Theorem other_users_untouched `{CM : CaseMapping} (r : Request) (st : State) (other : string) :
  userUUID (session st) <> Some other ->
  users (snd (serve r st)) !! other = users st !! other.
Proof.
  intros Hne. destruct (authenticated_dec st) as [Ha|Hn];
    [|now rewrite (serve_unauthenticated r st Hn)].
  destruct (requireAuth_ok st Ha) as (uuid & Hu & Hnz & _).
  assert (Hin : loggedInAs st uuid) by (split; assumption).
  destruct (serve_effect r st uuid Hin) as [-> | (u' & -> & _)]; [reflexivity|].
  apply lookup_insert_ne. congruence.
Qed.

Lemma other_users_untouched_witness :
  users (snd (serve (CreateSubjectReq morning (Some "Physics")) mathState)) !! "user-2"
  = users mathState !! "user-2".
Proof.
  apply (other_users_untouched (CreateSubjectReq morning (Some "Physics")) mathState
           "user-2").
  simpl. discriminate.
Defined.

Lemma serve_grows `{CM : CaseMapping} (r : Request) (st : State) :
  storeGrows (users st) (users (snd (serve r st))).
Proof.
  destruct (authenticated_dec st) as [Ha|Hn];
    [|rewrite (serve_unauthenticated r st Hn); apply storeGrows_refl].
  destruct (requireAuth_ok st Ha) as (uuid & Hu & Hnz & _).
  assert (Hin : loggedInAs st uuid) by (split; assumption).
  destruct (serve_effect r st uuid Hin) as [-> | (u' & -> & _ & Hg)];
    [apply storeGrows_refl|now apply storeGrows_insert].
Qed.

Lemma serveAll_grows `{CM : CaseMapping} (rs : list Request) (st : State) :
  storeGrows (users st) (users (serveAll rs st)).
Proof.
  revert st. induction rs as [|r rs IH]; intros st; simpl; [apply storeGrows_refl|].
  eapply storeGrows_trans; [apply serve_grows|apply IH].
Qed.

(** A sub-document found by id in a list is found at the same place, grown,
    in every list the first grows into, when growing keeps ids. *)
Lemma findById_grows {A} (getId : A -> ObjectId) (R : A -> A -> Prop)
    (l l' : list A) (id : option string) (i : nat) (x : A) :
  (forall a b, R a b -> getId b = getId a) ->
  grows R l l' -> findById getId l id = Some (i, x) ->
  exists x', findById getId l' id = Some (i, x') /\ R x x'.
Proof.
  intros Hid (m & k & -> & HF) Hf. unfold findById in *.
  destruct (id ≫= castObjectId) as [oid|]; [|discriminate].
  apply list_find_Some in Hf as (Hl & Hx & Hfirst).
  destruct (Forall2_lookup_l _ _ _ _ _ HF Hl) as (x' & Hx' & HR).
  exists x'. split; [|exact HR]. apply list_find_Some. repeat split.
  - now apply lookup_app_l_Some.
  - rewrite (Hid _ _ HR). exact Hx.
  - intros j y Hy Hj.
    assert (Hjm : j < List.length m).
    { apply lookup_lt_Some in Hx'. lia. }
    rewrite lookup_app_l in Hy by assumption.
    destruct (Forall2_lookup_r _ _ _ _ _ HF Hy) as (y0 & Hy0 & HR0).
    rewrite (Hid _ _ HR0). eauto.
Qed.

(** No route deletes or edits: along any sequence of requests every
    document, subject, chapter and note of the store stays, with its id,
    name and position, and lists only get longer at the end.  In
    particular the notes found in a chapter are still found there, in
    front of the ones added since. *)
Theorem nothing_deleted `{CM : CaseMapping} (rs : list Request) (st : State) :
  storeGrows (users st) (users (serveAll rs st))
  /\ forall uuid subjectId chapterId notes,
       notesOf st uuid subjectId chapterId = Some notes ->
       exists more,
         notesOf (serveAll rs st) uuid subjectId chapterId = Some (notes ++ more).
Proof.
  pose proof (serveAll_grows rs st) as HG. split; [exact HG|].
  intros uuid subjectId chapterId notes. unfold notesOf.
  destruct (users st !! uuid) as [u|] eqn:Hu; [|discriminate].
  destruct (HG uuid u Hu) as (u' & -> & _ & _ & _ & Hsub).
  destruct (findById s_id (u_subjects u) subjectId) as [[i s]|] eqn:Hs; [|discriminate].
  destruct (findById_grows s_id subjectGrows _ _ _ _ _
              (fun a b H => proj1 H) Hsub Hs) as (s' & -> & _ & _ & _ & Hch).
  destruct (findById c_id (s_chapters s) chapterId) as [[j c]|] eqn:Hc; [|discriminate].
  destruct (findById_grows c_id chapterGrows _ _ _ _ _
              (fun a b H => proj1 H) Hch Hc) as (c' & -> & _ & _ & _ & more & Hn).
  intros [= <-]. exists more. now rewrite Hn.
Qed.

Lemma nothing_deleted_witness :
  exists more,
    notesOf (serveAll [UploadReq storeConfig morning lectureUpload;
                       CreateSubjectReq morning (Some "Physics");
                       ClearChatReq] algebraState)
            "user-1" (Some mathId) (Some algebraId)
    = Some ([] ++ more).
Proof.
  apply (proj2 (nothing_deleted [UploadReq storeConfig morning lectureUpload;
                                 CreateSubjectReq morning (Some "Physics");
                                 ClearChatReq] algebraState)).
  vm_compute. reflexivity.
Defined.

End Frames.

(** ** The shape of the chat history *)

Section ExchangeFacts.
Import Js Chat Notes NoteRoute Server Upload Sample Cases.

Lemma exchanges_app (h : list ChatMsg) (m a : string) :
  exchanges h -> exchanges (h ++ [mkMsg "user" m; mkMsg "assistant" a]).
Proof.
  induction 1 as [|m' a' h H IH]; simpl.
  - repeat constructor.
  - now constructor.
Qed.

Lemma exchanges_even (h : list ChatMsg) :
  exchanges h -> exists n, List.length h = 2 * n.
Proof.
  induction 1 as [|m a h H [n IH]]; [now exists 0|].
  exists (S n). simpl. lia.
Qed.

Lemma exchanges_skipn (h : list ChatMsg) (j : nat) :
  exchanges h -> exchanges (skipn (2 * j) h).
Proof.
  intros H. revert j. induction H as [|m a h H IH]; intros j.
  - rewrite skipn_nil. constructor.
  - destruct j as [|j]; [now constructor|].
    replace (2 * S j) with (S (S (2 * j))) by lia. simpl. apply IH.
Qed.

Lemma exchanges_sliceLast (h : list ChatMsg) (k : nat) :
  exchanges h -> exchanges (sliceLast (2 * k) h).
Proof.
  intros H. unfold sliceLast. destruct (exchanges_even h H) as [n Hn].
  rewrite Hn. replace (2 * n - 2 * k) with (2 * (n - k)) by lia.
  now apply exchanges_skipn.
Qed.

Lemma serve_exchanges `{CM : CaseMapping} (r : Request) (st : State) :
  exchanges (history st) -> exchanges (history (snd (serve r st))).
Proof.
  intros H. destruct (writesSession r) eqn:Hw.
  - destruct (authenticated_dec st) as [Ha|Hn];
      [|now rewrite (serve_unauthenticated r st Hn)].
    destruct r as [cfg message nc| | | | | |]; try discriminate; simpl.
    + destruct message as [msg|]; [destruct (blank msg) eqn:Hb|].
      * destruct (chat_rejected cfg (Some msg) nc st) as [-> _]; [|exact H].
        left. now rewrite missingOrBlank_Some.
      * rewrite chat_accepted by assumption. unfold history at 1. simpl.
        rewrite remember_sliceLast. apply (exchanges_sliceLast _ 5).
        now apply exchanges_app.
      * destruct (chat_rejected cfg None nc st) as [-> _]; [now left|exact H].
    + rewrite clearChat_ok by assumption. constructor.
  - unfold history. destruct (serve_frame r st) as (_ & -> & _); [exact H|exact Hw].
Qed.

(** From a session whose history is empty (or made of whole exchanges),
    whatever is requested, the history stays a sequence of whole exchanges,
    a user entry followed by the assistant's answer; so the six entries
    quoted in a prompt are whole exchanges too, the oldest one starting
    with a Student line.  A history of at most ten entries, five
    exchanges, never grows past ten. *)
Theorem history_whole_exchanges `{CM : CaseMapping} (rs : list Request) (st : State) :
  exchanges (history st) ->
  exchanges (history (serveAll rs st))
  /\ exchanges (sliceLast 6 (history (serveAll rs st)))
  /\ (List.length (history st) <= 10 ->
      List.length (history (serveAll rs st)) <= 10).
Proof.
  intros H.
  assert (HE : exchanges (history (serveAll rs st))).
  { revert st H. induction rs as [|r rs IH]; intros st H; simpl; [exact H|].
    apply IH, serve_exchanges, H. }
  split; [exact HE|]. split; [exact (exchanges_sliceLast _ 3 HE)|].
  revert st H HE. induction rs as [|r rs IH]; intros st H _ Hlen; simpl; [exact Hlen|].
  assert (H' := serve_exchanges r st H).
  apply IH; [exact H'| |].
  - clear IH. revert H'. generalize (snd (serve r st)). intros s Hs.
    revert s Hs. induction rs as [|q rs IH]; intros s Hs; simpl; [exact Hs|].
    apply IH, serve_exchanges, Hs.
  - destruct (writesSession r) eqn:Hw.
    + destruct (authenticated_dec st) as [Ha|Hn];
        [|now rewrite (serve_unauthenticated r st Hn)].
      destruct r as [cfg message nc| | | | | |]; try discriminate; simpl.
      * destruct message as [msg|]; [destruct (blank msg) eqn:Hb|].
        -- destruct (chat_rejected cfg (Some msg) nc st) as [-> _]; [|exact Hlen].
           left. now rewrite missingOrBlank_Some.
        -- rewrite chat_accepted by assumption. apply remember_length.
        -- destruct (chat_rejected cfg None nc st) as [-> _]; [now left|exact Hlen].
      * rewrite clearChat_ok by assumption. simpl. lia.
    + unfold history. destruct (serve_frame r st) as (_ & -> & _); [exact Hlen|exact Hw].
Qed.

Lemma history_whole_exchanges_witness :
  exchanges
    (history (serveAll
                (repeat (ChatReq offlineConfig (Some "what is a cell?") None) 7
                 ++ [CreateSubjectReq morning (Some "Biology")])
                aliceSession)).
Proof.
  assert (H : exchanges (history aliceSession)) by constructor.
  exact (proj1 (history_whole_exchanges
                  (repeat (ChatReq offlineConfig (Some "what is a cell?") None) 7
                   ++ [CreateSubjectReq morning (Some "Biology")]) aliceSession H)).
Defined.

End ExchangeFacts.

(** ** Registration, login, logout *)

Section AuthFacts.
Import Js Chat Notes NoteRoute Server Upload Auth Sample Cases.

Lemma withEmail_none (email : string) (rows : list Account) :
  (forall a, a ∈ rows -> a_email a <> email) -> withEmail email rows = [].
Proof.
  unfold withEmail. induction rows as [|a rows IH]; intros H; simpl; [reflexivity|].
  destruct (Utf16.eqb (a_email a) email) eqn:E.
  - apply string_eqb_eq in E. exfalso. apply (H a); [left|assumption].
  - apply IH. intros a' Ha'. apply H. now right.
Qed.

Lemma withEmail_app (email : string) (l k : list Account) :
  withEmail email (l ++ k) = withEmail email l ++ withEmail email k.
Proof. unfold withEmail. apply List.filter_app. Qed.

Lemma withEmail_elem (email : string) (rows : list Account) (a : Account) :
  a ∈ withEmail email rows <-> a ∈ rows /\ a_email a = email.
Proof.
  unfold withEmail. rewrite !list_elem_of_In, List.filter_In, string_eqb_eq. tauto.
Qed.

Lemma maybeSingle_cases (env : AuthEnv) (rows : list Account) (email : string) :
  maybeSingle env rows email
  = match selectFails env with
    | Some e => SelectError e
    | None =>
        match withEmail email rows with
        | [] => NoRow
        | [a] => OneRow a
        | _ => SelectError (ExternalError "more than one row")
        end
    end.
Proof. reflexivity. Qed.

(** A login logs in only the owner of a password: it answers 200 exactly
    when the one account with that email has a stored hash that accepts
    the password, and only then is the session given that account's id;
    every other login leaves everything as it was, and an unknown email
    and a wrong password get the very same answer. *)
Theorem login_only_with_password
    (b : Bcrypt) (env : AuthEnv) (email password : option string) (site : Site) :
  let r := login b env email password site in
  (a_status (fst r) = 200 ->
     exists user hashed e p,
       email = Some e /\ password = Some p
       /\ user ∈ accounts site /\ a_email user = e
       /\ a_password user = Some hashed /\ bcompare b p hashed = true
       /\ userUUID (session (app (snd r))) = Some (a_id user)
       /\ accounts (snd r) = accounts site
       /\ users (app (snd r)) = users (app site))
  /\ (a_status (fst r) <> 200 -> snd r = site)
  /\ (forall e p, email = Some e -> password = Some p -> e <> "" -> p <> "" ->
      selectFails env = None ->
      (withEmail e (accounts site) = [] -> fst r = invalidLogin)
      /\ (forall user hashed,
            withEmail e (accounts site) = [user] -> a_password user = Some hashed ->
            bcompare b p hashed = false -> fst r = invalidLogin)).
Proof.
  cbv zeta. unfold login. rewrite maybeSingle_cases.
  destruct email as [[|a e]|], password as [[|c p]|]; simpl;
    try (split; [discriminate|split; [reflexivity|intros; congruence]]).
  destruct (selectFails env) as [err|] eqn:Hsel.
  { split; [discriminate|split; [reflexivity|intros; congruence]]. }
  destruct (withEmail (String a e) (accounts site)) as [|user [|u2 rest]] eqn:Hw.
  - split; [discriminate|split; [reflexivity|]].
    intros e0 p0 [= <-] [= <-] _ _ _. rewrite Hw.
    split; [reflexivity|]. intros; discriminate.
  - assert (Huser : user ∈ accounts site /\ a_email user = String a e).
    { apply withEmail_elem. rewrite Hw. left. }
    destruct (a_password user) as [[|h0 hs]|] eqn:Hp.
    + split; [discriminate|split; [reflexivity|]].
      intros e0 p0 [= <-] [= <-] _ _ _. rewrite Hw. split; [discriminate|].
      intros u h [= <-] Hh Hc. reflexivity.
    + destruct (bcompare b (String c p) (String h0 hs)) eqn:Hc.
      * split; [|split; [intros H; now destruct H|]].
        -- intros _. exists user, (String h0 hs), (String a e), (String c p).
           destruct Huser as [Hu1 Hu2]. repeat split; assumption.
        -- intros e0 p0 [= <-] [= <-] _ _ _. rewrite Hw. split; [discriminate|].
           intros u h [= <-] Hh Hc'. rewrite Hp in Hh. injection Hh as <-. congruence.
      * split; [discriminate|split; [reflexivity|]].
        intros e0 p0 [= <-] [= <-] _ _ _. rewrite Hw. split; [discriminate|].
        intros u h [= <-] Hh Hc'. reflexivity.
    + split; [discriminate|split; [reflexivity|]].
      intros e0 p0 [= <-] [= <-] _ _ _. rewrite Hw. split; [discriminate|].
      intros u h [= <-] Hh Hc. reflexivity.
  - split; [discriminate|split; [reflexivity|]].
    intros e0 p0 [= <-] [= <-] _ _ _. rewrite Hw. split; intros; discriminate.
Qed.

Lemma endsWith_refl (t : string) : endsWith t t = true.
Proof. destruct t; simpl; [reflexivity|]. now rewrite string_eqb_refl, N.eqb_refl. Qed.

Lemma endsWith_app (t s : string) : endsWith t (s +:+ t) = true.
Proof.
  induction s as [|c s IH]; [apply endsWith_refl|].
  rewrite append_cons. cbn [endsWith]. rewrite IH. apply orb_true_r.
Qed.

Lemma toyBcrypt_sound : sound toyBcrypt.
Proof.
  intros password salt. simpl. split.
  - destruct salt; discriminate.
  - apply endsWith_app.
Qed.

Lemma login_only_with_password_witness :
  fst (login toyBcrypt calm (Some "ann@example.org") (Some "secret")
         (mkSite [mkAccount "user-7" "ann" "ann@example.org" (Some "salt$other")] visitor))
  = invalidLogin.
Proof.
  apply (proj2 (proj2 (proj2 (login_only_with_password toyBcrypt calm
                  (Some "ann@example.org") (Some "secret")
                  (mkSite [mkAccount "user-7" "ann" "ann@example.org"
                             (Some "salt$other")] visitor)))
           "ann@example.org" "secret" eq_refl eq_refl
           ltac:(discriminate) ltac:(discriminate) eq_refl)
           (mkAccount "user-7" "ann" "ann@example.org" (Some "salt$other"))
           "salt$other");
    reflexivity.
Defined.

Lemma truthy_nonempty (s : string) : s <> "" -> truthy (Some s) = true.
Proof. destruct s; [congruence|reflexivity]. Qed.

(** The registration that goes through, in one equation. *)
Lemma register_accepted (b : Bcrypt) (env : AuthEnv) (u e p : string) (site : Site) :
  u <> "" -> e <> "" -> p <> "" ->
  (forall a, maybeSingle env (accounts site) e <> OneRow a) ->
  insertFails env = None ->
  generatedId env <> "" -> users (app site) !! generatedId env = None ->
  register b env (Some u) (Some e) (Some p) site
  = (mkAuthResponse 200 (ARegistered "User registered successfully" "/login.html"),
     mkSite (accounts site
             ++ [mkAccount (generatedId env) u e (Some (bhash b p (salt env)))])
            (mkState (<[generatedId env
                        := mkUser (oidCounter (app site)) (generatedId env) (today env) []]>
                        (users (app site)))
                     (oidCounter (app site) + 1)%N (objects (app site))
                     (session (app site)))).
Proof.
  intros Hu He Hp Hsel Hins Hid Hfree. unfold register.
  rewrite (truthy_nonempty u Hu), (truthy_nonempty e He), (truthy_nonempty p Hp).
  simpl. rewrite Hins. unfold createProfile. simpl.
  replace (nonEmpty (generatedId env)) with true
    by (destruct (generatedId env); [congruence|reflexivity]).
  rewrite Hfree.
  destruct (maybeSingle env (accounts site) e) eqn:E; try reflexivity.
  exfalso. eapply Hsel. reflexivity.
Qed.

(** Register, then log in with the same email and password: the login is
    accepted, the session belongs to the new account, whose note tree is
    empty, and a chat history the session already had is still there. *)
Theorem register_then_login
    (b : Bcrypt) (env env' : AuthEnv) (u e p : string) (site : Site) :
  sound b -> u <> "" -> e <> "" -> p <> "" ->
  selectFails env = None -> insertFails env = None ->
  withEmail e (accounts site) = [] ->
  generatedId env <> "" -> users (app site) !! generatedId env = None ->
  selectFails env' = None ->
  let registered := register b env (Some u) (Some e) (Some p) site in
  let loggedIn := login b env' (Some e) (Some p) (snd registered) in
  a_status (fst registered) = 200
  /\ fst loggedIn
     = mkAuthResponse 200
         (ALoggedIn "Login successful" "/dashboard.html" u e (generatedId env))
  /\ loggedInAs (app (snd loggedIn)) (generatedId env)
  /\ fst (getSubjects (app (snd loggedIn))) = mkResponse 200 firstUse
  /\ history (app (snd loggedIn)) = history (app site).
Proof.
  intros Hb Hu He Hp Hsel Hins Hnone Hid Hfree Hsel' registered loggedIn.
  subst loggedIn registered.
  rewrite (register_accepted b env u e p site Hu He Hp); try assumption.
  2:{ intros a. rewrite maybeSingle_cases, Hsel, Hnone. discriminate. }
  cbn [fst snd]. split; [reflexivity|].
  unfold login. rewrite (truthy_nonempty e He), (truthy_nonempty p Hp). simpl.
  rewrite maybeSingle_cases, Hsel'. cbn [accounts].
  rewrite withEmail_app, Hnone. unfold withEmail at 1. simpl.
  rewrite string_eqb_refl. simpl.
  destruct (Hb p (salt env)) as [Hne Hc].
  destruct (bhash b p (salt env)) as [|h0 hs] eqn:Eh; [congruence|].
  rewrite Hc. cbn [fst snd app].
  split; [reflexivity|]. split; [split; [reflexivity|assumption]|].
  split; [|reflexivity].
  set (st := setUser _ _).
  assert (Hin : loggedInAs st (generatedId env)) by (split; [reflexivity|assumption]).
  rewrite (getSubjects_run st _ Hin). unfold subjectsOf, st. simpl.
  now rewrite lookup_insert_eq.
Qed.

Lemma register_then_login_witness :
  fst (login toyBcrypt calm (Some "ann@example.org") (Some "secret")
         (snd (register toyBcrypt calm (Some "ann") (Some "ann@example.org")
                 (Some "secret") emptySite)))
  = mkAuthResponse 200
      (ALoggedIn "Login successful" "/dashboard.html" "ann" "ann@example.org" "user-7").
Proof.
  refine (proj1 (proj2 (register_then_login toyBcrypt calm calm "ann" "ann@example.org"
                          "secret" emptySite toyBcrypt_sound _ _ _ eq_refl eq_refl
                          eq_refl _ eq_refl eq_refl)));
    discriminate.
Defined.

Lemma withEmail_absent (email : string) (rows : list Account) :
  withEmail email rows = [] -> email ∉ map a_email rows.
Proof.
  unfold withEmail. induction rows as [|a rows IH]; simpl; intros H.
  - apply not_elem_of_nil.
  - destruct (Utf16.eqb (a_email a) email) eqn:E; [discriminate|].
    apply string_eqb_neq in E. apply not_elem_of_cons. split; [congruence|auto].
Qed.

(** While the lookup by email works, registration keeps emails unique: it
    adds at most one row, at the end, never one whose email is already in
    the table, and never changes or removes a row. *)
Theorem register_keeps_emails_unique
    (b : Bcrypt) (env : AuthEnv) (username email password : option string) (site : Site) :
  selectFails env = None ->
  NoDup (map a_email (accounts site)) ->
  let site' := snd (register b env username email password site) in
  NoDup (map a_email (accounts site'))
  /\ (accounts site' = accounts site
      \/ exists row, accounts site' = accounts site ++ [row]
                     /\ Some (a_email row) = email
                     /\ a_password row
                        = Some (bhash b (default "" password) (salt env))).
Proof.
  intros Hsel Hnd. cbv zeta. unfold register.
  destruct (negb (truthy username) || negb (truthy email) || negb (truthy password)) eqn:Hg;
    [split; [exact Hnd|now left]|].
  assert (He : exists e, email = Some e).
  { destruct email as [e|]; [eauto|]. simpl in Hg. now rewrite orb_true_r in Hg. }
  destruct He as [e ->]. simpl default.
  rewrite maybeSingle_cases, Hsel.
  destruct (withEmail e (accounts site)) as [|a [|a2 rest]] eqn:Hw.
  - assert (Hnew : NoDup (map a_email (accounts site ++
                     [mkAccount (generatedId env) (default "" username) e
                        (Some (bhash b (default "" password) (salt env)))]))).
    { rewrite map_app. apply NoDup_app. split; [exact Hnd|]. split.
      - intros x Hx Hx'. simpl in Hx'. apply list_elem_of_singleton in Hx'. subst x.
        now apply (withEmail_absent e (accounts site)).
      - simpl. apply NoDup_singleton. }
    destruct (insertFails env); [split; [exact Hnd|now left]|].
    destruct (createProfile env _ (app site)); simpl;
      (split; [exact Hnew|right; eexists; repeat split]).
  - split; [exact Hnd|now left].
  - exfalso.
    assert (H1 : a ∈ withEmail e (accounts site)) by (rewrite Hw; left).
    assert (H2 : a2 ∈ withEmail e (accounts site)) by (rewrite Hw; right; left).
    clear Hg H1 H2. unfold withEmail in Hw. revert Hnd Hw.
    generalize (accounts site) as rows.
    induction rows as [|r rows IH]; simpl; intros Hnd Hw; [discriminate|].
    apply NoDup_cons in Hnd as [Hnot Hnd].
    destruct (Utf16.eqb (a_email r) e) eqn:E.
    + injection Hw as -> Hrest.
      apply string_eqb_eq in E. apply Hnot.
      assert (Ha2 : a2 ∈ withEmail e rows) by (unfold withEmail; rewrite Hrest; left).
      apply withEmail_elem in Ha2 as [Hin Hem].
      rewrite E, <- Hem. now apply list_elem_of_fmap_2.
    + now apply IH.
Qed.

Lemma register_keeps_emails_unique_witness :
  NoDup (map a_email
           (accounts (snd (register toyBcrypt calm (Some "ann") (Some "ann@example.org")
                             (Some "secret") emptySite)))).
Proof.
  apply (register_keeps_emails_unique toyBcrypt calm (Some "ann")
           (Some "ann@example.org") (Some "secret") emptySite eq_refl).
  simpl. apply NoDup_nil_2.
Defined.

(** Registration does not look at the error of its lookup by email: when
    that query fails and the insert goes through, an email that is already
    registered gets a second row; from then on the lookup of a login finds
    two rows for it and every login with that email, also the first
    owner's, is answered 500. *)
Theorem register_after_failed_lookup
    (b : Bcrypt) (env : AuthEnv) (u e p : string) (site : Site)
    (err : JsError) (old : Account) :
  u <> "" -> e <> "" -> p <> "" ->
  selectFails env = Some err -> insertFails env = None ->
  generatedId env <> "" -> users (app site) !! generatedId env = None ->
  old ∈ accounts site -> a_email old = e ->
  let registered := register b env (Some u) (Some e) (Some p) site in
  a_status (fst registered) = 200
  /\ accounts (snd registered)
     = accounts site ++ [mkAccount (generatedId env) u e (Some (bhash b p (salt env)))]
  /\ forall env' password,
       selectFails env' = None -> password <> "" ->
       login b env' (Some e) (Some password) (snd registered)
       = (mkAuthResponse 500 (AError "Database query failed"), snd registered).
Proof.
  intros Hu He Hp Hsel Hins Hid Hfree Hold Hem registered. subst registered.
  rewrite (register_accepted b env u e p site Hu He Hp); try assumption.
  2:{ intros a. rewrite maybeSingle_cases, Hsel. discriminate. }
  cbn [fst snd accounts]. split; [reflexivity|]. split; [reflexivity|].
  intros env' password Hsel' Hpw. unfold login.
  rewrite (truthy_nonempty e He), (truthy_nonempty password Hpw). simpl.
  rewrite maybeSingle_cases, Hsel'. cbn [accounts].
  rewrite withEmail_app. unfold withEmail at 2. simpl. rewrite string_eqb_refl.
  assert (Hin : old ∈ withEmail e (accounts site)) by (apply withEmail_elem; auto).
  destruct (withEmail e (accounts site)) as [|a [|a2 rest]]; simpl.
  - now apply elem_of_nil in Hin.
  - reflexivity.
  - reflexivity.
Qed.

Lemma register_after_failed_lookup_witness :
  login toyBcrypt calm (Some "ann@example.org") (Some "secret")
    (snd (register toyBcrypt shakyLookup (Some "eve") (Some "ann@example.org") (Some "guess")
            (snd (register toyBcrypt calm (Some "ann") (Some "ann@example.org")
                    (Some "secret") emptySite))))
  = (mkAuthResponse 500 (AError "Database query failed"),
     snd (register toyBcrypt shakyLookup (Some "eve") (Some "ann@example.org") (Some "guess")
            (snd (register toyBcrypt calm (Some "ann") (Some "ann@example.org")
                    (Some "secret") emptySite)))).
Proof.
  refine (proj2 (proj2 (register_after_failed_lookup toyBcrypt shakyLookup "eve"
                          "ann@example.org" "guess"
                          (snd (register toyBcrypt calm (Some "ann")
                                  (Some "ann@example.org") (Some "secret") emptySite))
                          (ExternalError "fetch failed")
                          (mkAccount "user-7" "ann" "ann@example.org" (Some "salt$secret"))
                          _ _ _ eq_refl eq_refl _ eq_refl _ eq_refl))
                calm "secret" eq_refl _);
    try discriminate.
  vm_compute. left.
Defined.

(** A logout that goes through leaves a session without identity and
    without chat history: every session route answers 401 afterwards, and
    the accounts, the note trees and the bucket are as before.  A logout
    whose session cannot be destroyed changes nothing.  A login, on the
    other hand, keeps the chat history the session already has. *)
Theorem session_ends_at_logout `{CM : CaseMapping} (b : Bcrypt) (env : AuthEnv) (site : Site) :
  (destroyFails env = None ->
     let site' := snd (logout env site) in
     a_status (fst (logout env site)) = 200
     /\ accounts site' = accounts site
     /\ users (app site') = users (app site)
     /\ objects (app site') = objects (app site)
     /\ history (app site') = []
     /\ forall r,
          serve r (app site')
          = (mkResponse 401 (JError "Not authenticated. Please log in."), app site'))
  /\ (destroyFails env <> None -> snd (logout env site) = site)
  /\ (forall email password,
        history (app (snd (login b env email password site))) = history (app site)).
Proof.
  split; [|split].
  - intros Hd. cbv zeta. unfold logout. rewrite Hd. cbn [fst snd app accounts].
    repeat split. intros r. apply serve_unauthenticated.
    unfold authenticated. simpl. discriminate.
  - intros Hd. unfold logout. destruct (destroyFails env); [reflexivity|congruence].
  - intros email password. unfold login.
    destruct (negb (truthy email) || negb (truthy password)); [reflexivity|].
    destruct (maybeSingle env (accounts site) (default "" email)) as [|user|]; try reflexivity.
    destruct (a_password user) as [[|h0 hs]|]; try reflexivity.
    destruct (bcompare b (default "" password) (String h0 hs)); reflexivity.
Qed.

Lemma session_ends_at_logout_witness :
  serve GetSubjectsReq (app (snd (logout calm (mkSite [] mathState))))
  = (mkResponse 401 (JError "Not authenticated. Please log in."),
     app (snd (logout calm (mkSite [] mathState)))).
Proof.
  exact (proj2 (proj2 (proj2 (proj2 (proj2
           (proj1 (session_ends_at_logout toyBcrypt calm (mkSite [] mathState))
              eq_refl))))) GetSubjectsReq).
Defined.

End AuthFacts.

(** ** The notes context built by the page *)

Section FormatFacts.
Import Js Chat Notes NoteRoute Server Upload Client Sample Cases.

Lemma formatNote_text (context : string) (note : Note) :
  formatNote context note = context +:+ noteText note.
Proof.
  unfold formatNote, noteText. destruct (nonEmpty (n_content note));
    rewrite ?append_assoc, ?append_empty_r; reflexivity.
Qed.

Lemma fold_left_text {A} (f : string -> A -> string) (g : A -> string)
    (l : list A) (context : string) :
  (forall c x, f c x = c +:+ g x) ->
  fold_left f l context = context +:+ concatMap g l.
Proof.
  intros H. revert context. induction l as [|x l IH]; intros context; simpl.
  - now rewrite append_empty_r.
  - now rewrite IH, H, append_assoc.
Qed.

Lemma formatChapter_text (context : string) (chapter : Chapter) :
  formatChapter context chapter = context +:+ chapterText chapter.
Proof.
  unfold formatChapter, chapterText. cbv zeta.
  destruct (c_notes chapter) as [|n notes] eqn:E.
  - cbn [List.length Nat.ltb Nat.leb concatMap fold_right].
    rewrite ?append_assoc, ?append_empty_r. reflexivity.
  - cbn [List.length Nat.ltb Nat.leb].
    rewrite (fold_left_text formatNote noteText) by apply formatNote_text.
    now rewrite !append_assoc.
Qed.

Lemma formatSubject_text (context : string) (subject : Subject) :
  formatSubject context subject = context +:+ subjectText subject.
Proof.
  unfold formatSubject, subjectText. cbv zeta.
  destruct (s_chapters subject) as [|c chapters] eqn:E.
  - cbn [List.length Nat.ltb Nat.leb concatMap fold_right].
    rewrite ?append_assoc. reflexivity.
  - cbn [List.length Nat.ltb Nat.leb].
    rewrite (fold_left_text formatChapter chapterText) by apply formatChapter_text.
    now rewrite !append_assoc.
Qed.

Lemma concatMap_app {A} (g : A -> string) (l k : list A) :
  concatMap g (l ++ k) = concatMap g l +:+ concatMap g k.
Proof.
  induction l as [|x l IH]; simpl; [reflexivity|]. now rewrite IH, append_assoc.
Qed.

Lemma formatNotesForAI_text (subjects : list Subject) :
  formatNotesForAI subjects = notesHeader +:+ concatMap subjectText subjects.
Proof. apply fold_left_text, formatSubject_text. Qed.

(** The notes context is the header followed by one block per subject, in
    the order of the list, each block made of the subject line, its
    chapters and their notes in order, and an empty line; a block does not
    depend on what precedes it.  So subjects added at the end of the list
    only add text at the end, and a subject just created on the server
    adds exactly its own line and an empty line. *)
Theorem formatNotesForAI_blocks
    (env : Env) (name : string) (st : State) (uuid : string) :
  loggedInAs st uuid -> blank name = false ->
  (forall subjects, formatNotesForAI subjects
                    = notesHeader +:+ concatMap subjectText subjects)
  /\ (forall subjects more,
        formatNotesForAI (subjects ++ more)
        = formatNotesForAI subjects +:+ concatMap subjectText more)
  /\ formatNotesForAI (subjectsOf (snd (createSubject env (Some name) st)) uuid)
     = formatNotesForAI (subjectsOf st uuid)
       +:+ "Subject: " +:+ trim name +:+ nl +:+ nl.
Proof.
  intros Hin Hb. split; [exact formatNotesForAI_text|].
  assert (Happ : forall subjects more,
             formatNotesForAI (subjects ++ more)
             = formatNotesForAI subjects +:+ concatMap subjectText more).
  { intros subjects more.
    now rewrite !formatNotesForAI_text, concatMap_app, append_assoc. }
  split; [exact Happ|].
  destruct (createSubject_ok env name st uuid Hin Hb) as (_ & -> & _).
  rewrite Happ. cbn [concatMap fold_right]. rewrite append_empty_r. reflexivity.
Qed.

Lemma formatNotesForAI_blocks_text_app (subjects more : list Subject) :
  exists tail, formatNotesForAI (subjects ++ more) = formatNotesForAI subjects +:+ tail.
Proof.
  exists (concatMap subjectText more).
  now rewrite !formatNotesForAI_text, concatMap_app, append_assoc.
Qed.

Lemma formatNotesForAI_blocks_witness :
  formatNotesForAI (subjectsOf (snd (createSubject morning (Some "Physics") mathState))
                      "user-1")
  = formatNotesForAI (subjectsOf mathState "user-1")
    +:+ "Subject: " +:+ trim "Physics" +:+ nl +:+ nl.
Proof.
  assert (Hin : loggedInAs mathState "user-1") by (apply alice_loggedIn; reflexivity).
  exact (proj2 (proj2 (formatNotesForAI_blocks morning "Physics" mathState "user-1"
                         Hin eq_refl))).
Defined.

Lemma startsWith_app (t s : string) : startsWith t (t +:+ s) = true.
Proof.
  induction t as [|c t IH]; [reflexivity|].
  rewrite append_cons. simpl. now rewrite N.eqb_refl.
Qed.

Lemma startsWith_app_l (t s c : string) :
  startsWith t s = true -> startsWith t (s +:+ c) = true.
Proof.
  revert s. induction t as [|a t IH]; intros s H; [reflexivity|].
  destruct s as [|b s]; [discriminate|]. rewrite append_cons. simpl in *.
  apply andb_true_iff in H as [-> H]. simpl. now apply IH.
Qed.

Lemma includes_app_l (s c t : string) :
  includes s t = true -> includes (s +:+ c) t = true.
Proof.
  induction s as [|b s IH]; intros H.
  - simpl in H. rewrite orb_false_r in H.
    destruct t; [now destruct c|discriminate].
  - rewrite append_cons, includes_cons. rewrite includes_cons in H.
    apply orb_true_iff in H as [H|H].
    + rewrite <- append_cons, (startsWith_app_l _ _ _ H). reflexivity.
    + rewrite (IH H). apply orb_true_r.
Qed.

Lemma includes_app_r (a s t : string) :
  includes s t = true -> includes (a +:+ s) t = true.
Proof.
  intros H. induction a as [|b a IH]; [exact H|].
  rewrite append_cons, includes_cons, IH. apply orb_true_r.
Qed.

Lemma includes_self (t : string) : includes t t = true.
Proof.
  destruct t as [|a t]; [reflexivity|]. rewrite includes_cons.
  rewrite <- (append_empty_r (String a t)) at 2.
  now rewrite startsWith_app.
Qed.

(** [t] occurs in [a ++ t ++ c]. *)
Lemma includes_middle (a t c : string) : includes (a +:+ t +:+ c) t = true.
Proof. apply includes_app_r, includes_app_l, includes_self. Qed.

Lemma includes_concatMap {A} (g : A -> string) (l : list A) (x : A) (t : string) :
  x ∈ l -> includes (g x) t = true -> includes (concatMap g l) t = true.
Proof.
  intros Hx Ht. induction Hx as [x l|x y l Hx IH]; simpl.
  - now apply includes_app_l.
  - apply includes_app_r, IH, Ht.
Qed.

(** Nothing of the tree is left out of the notes context: the line of
    every subject, of every chapter and of every note is in it, and so is
    the content line of every note that has content. *)
Theorem formatNotesForAI_mentions
    (subjects : list Subject) (subject : Subject) (chapter : Chapter) (note : Note) :
  subject ∈ subjects -> chapter ∈ s_chapters subject -> note ∈ c_notes chapter ->
  let context := formatNotesForAI subjects in
  includes context ("Subject: " +:+ s_name subject +:+ nl) = true
  /\ includes context ("  Chapter: " +:+ c_name chapter +:+ nl) = true
  /\ includes context
       ("    - " +:+ n_title note +:+ " (" +:+ n_type note +:+ ")" +:+ nl) = true
  /\ (n_content note <> "" ->
      includes context ("      Content: " +:+ n_content note +:+ nl) = true).
Proof.
  intros Hs Hc Hn context. subst context. rewrite formatNotesForAI_text.
  assert (Hnote1 : includes (noteText note)
            ("    - " +:+ n_title note +:+ " (" +:+ n_type note +:+ ")" +:+ nl) = true).
  { unfold noteText.
    replace ("    - " +:+ n_title note +:+ " (" +:+ n_type note +:+ ")" +:+ nl +:+
             (if nonEmpty (n_content note)
              then "      Content: " +:+ n_content note +:+ nl else ""))
      with (("    - " +:+ n_title note +:+ " (" +:+ n_type note +:+ ")" +:+ nl) +:+
            (if nonEmpty (n_content note)
             then "      Content: " +:+ n_content note +:+ nl else ""))
      by (now rewrite !append_assoc).
    apply includes_app_l, includes_self. }
  assert (Hnote2 : n_content note <> "" ->
            includes (noteText note) ("      Content: " +:+ n_content note +:+ nl) = true).
  { intros Hne. unfold noteText.
    replace (nonEmpty (n_content note)) with true
      by (destruct (n_content note); [congruence|reflexivity]).
    do 6 apply includes_app_r. apply includes_self. }
  assert (Hchap : forall t, includes (noteText note) t = true ->
                            includes (chapterText chapter) t = true).
  { intros t Ht. unfold chapterText. do 3 apply includes_app_r.
    now apply (includes_concatMap noteText _ note). }
  assert (Hsub : forall t, includes (chapterText chapter) t = true ->
                           includes (subjectText subject) t = true).
  { intros t Ht. unfold subjectText. do 3 apply includes_app_r.
    apply includes_app_l. now apply (includes_concatMap chapterText _ chapter). }
  assert (Hall : forall t, includes (subjectText subject) t = true ->
                           includes (notesHeader +:+ concatMap subjectText subjects) t = true).
  { intros t Ht. apply includes_app_r.
    now apply (includes_concatMap subjectText _ subject). }
  repeat split.
  - apply Hall. unfold subjectText.
    replace ("Subject: " +:+ s_name subject +:+ nl +:+
             concatMap chapterText (s_chapters subject) +:+ nl)
      with (("Subject: " +:+ s_name subject +:+ nl) +:+
            concatMap chapterText (s_chapters subject) +:+ nl)
      by (now rewrite !append_assoc).
    apply includes_app_l, includes_self.
  - apply Hall, Hsub. unfold chapterText.
    replace ("  Chapter: " +:+ c_name chapter +:+ nl +:+ concatMap noteText (c_notes chapter))
      with (("  Chapter: " +:+ c_name chapter +:+ nl) +:+ concatMap noteText (c_notes chapter))
      by (now rewrite !append_assoc).
    apply includes_app_l, includes_self.
  - apply Hall, Hsub, Hchap, Hnote1.
  - intros Hne. apply Hall, Hsub, Hchap, Hnote2, Hne.
Qed.

Lemma formatNotesForAI_mentions_witness :
  includes (formatNotesForAI [math; mathWithNote])
           ("      Content: " +:+ n_content factoring +:+ nl) = true.
Proof.
  apply (formatNotesForAI_mentions [math; mathWithNote] mathWithNote algebraWithNote
           factoring).
  - right. left.
  - left.
  - left.
  - discriminate.
Defined.

Lemma substring0_app_long (n : nat) (a b : string) :
  n <= Utf16.length a -> substring0 n (a +:+ b) = substring0 n a.
Proof.
  unfold substring0. revert a. induction n as [|n IH]; intros a H.
  - destruct a; [now destruct b|reflexivity].
  - destruct a as [|c a]; [simpl in H; lia|].
    rewrite append_cons. simpl. rewrite IH; [reflexivity|]. simpl in H. lia.
Qed.

Lemma formatNotesForAI_visible (subjects : list Subject) :
  exists rest, formatNotesForAI subjects = String "U" rest.
Proof. rewrite formatNotesForAI_text. eexists. reflexivity. Qed.

Lemma sentContext_format (subjects : list Subject) :
  sentContext (Some (formatNotesForAI subjects)) = Some (formatNotesForAI subjects).
Proof.
  destruct (formatNotesForAI_visible subjects) as [rest ->]. reflexivity.
Qed.

Lemma hasNotes_format (subjects : list Subject) :
  hasNotes (Some (formatNotesForAI subjects)) = true.
Proof.
  destruct (formatNotesForAI_visible subjects) as [rest ->].
  unfold hasNotes. rewrite nonEmpty_trim. reflexivity.
Qed.

(** The chat route reads the notes context up to its 300th code unit and
    no further: once the context built for a list of subjects is at least
    300 code units long, subjects that follow in the list change nothing
    in the request's outcome, neither the prompt, nor the answer, nor the
    history. *)
Theorem chat_reads_300_characters `{CM : CaseMapping}
    (cfg : Config) (message : option string) (st : State)
    (subjects more : list Subject) :
  300 <= Utf16.length (formatNotesForAI subjects) ->
  (forall h msg,
      buildPrompt (sentContext (Some (formatNotesForAI (subjects ++ more)))) h msg
      = buildPrompt (sentContext (Some (formatNotesForAI subjects))) h msg)
  /\ chat cfg message (sentContext (Some (formatNotesForAI (subjects ++ more)))) st
     = chat cfg message (sentContext (Some (formatNotesForAI subjects))) st.
Proof.
  intros Hlen. rewrite !sentContext_format.
  assert (Hp : forall h msg,
             buildPrompt (Some (formatNotesForAI (subjects ++ more))) h msg
             = buildPrompt (Some (formatNotesForAI subjects)) h msg).
  { intros h msg. unfold buildPrompt. rewrite !hasNotes_format. simpl default.
    destruct (formatNotesForAI_blocks_text_app subjects more) as [tail ->].
    now rewrite substring0_app_long. }
  split; [exact Hp|].
  assert (Ht : truthy (Some (formatNotesForAI (subjects ++ more)))
               = truthy (Some (formatNotesForAI subjects))).
  { destruct (formatNotesForAI_visible (subjects ++ more)) as [r1 ->].
    now destruct (formatNotesForAI_visible subjects) as [r2 ->]. }
  unfold chat, handle, chatBody, bind.
  destruct (requireAuth st) as [[uuid|r|e] st1]; try reflexivity.
  destruct (missingOrBlank message); [reflexivity|].
  unfold get, modify, ret. simpl. unfold tryGemini. rewrite Hp.
  unfold answer, fallback, explanation, defaultAnswer. rewrite Ht. reflexivity.
Qed.

Lemma chat_reads_300_characters_witness :
  chat offlineConfig (Some "explain factoring")
    (sentContext (Some (formatNotesForAI (repeat mathWithNote 4 ++ [math])))) aliceSession
  = chat offlineConfig (Some "explain factoring")
      (sentContext (Some (formatNotesForAI (repeat mathWithNote 4)))) aliceSession.
Proof.
  apply (chat_reads_300_characters offlineConfig (Some "explain factoring") aliceSession
           (repeat mathWithNote 4) [math]).
  apply Nat.leb_le. vm_compute. reflexivity.
Defined.

End FormatFacts.

(** ** Counting notes *)

Section CountFacts.
Import Js Chat Notes NoteRoute Server Upload Client Sample Cases.

Lemma fold_left_sum {A} (f : A -> nat) (l : list A) (a : nat) :
  fold_left (fun acc x => acc + f x) l a = a + sum_list_with f l.
Proof.
  revert a. induction l as [|x l IH]; intros a; simpl; [lia|]. rewrite IH. lia.
Qed.

Lemma countNotes_sum (subject : Subject) :
  countNotes subject = sum_list_with notesIn (s_chapters subject).
Proof. unfold countNotes. now rewrite (fold_left_sum notesIn). Qed.

Lemma countTotalNotes_sum (subjects : list Subject) :
  countTotalNotes subjects = sum_list_with countNotes subjects.
Proof.
  unfold countTotalNotes.
  assert (H : forall l a,
             fold_left (fun total subject =>
                          fold_left (fun total chapter => total + List.length (c_notes chapter))
                                    (s_chapters subject) total) l a
             = a + sum_list_with countNotes l).
  { induction l as [|s l IH]; intros a; simpl; [lia|].
    rewrite IH, (fold_left_sum notesIn), countNotes_sum. lia. }
  apply H.
Qed.

Lemma sum_insert {A} (f : A -> nat) (l : list A) (i : nat) (x y : A) :
  l !! i = Some x ->
  sum_list_with f (<[i := y]> l) + f x = sum_list_with f l + f y.
Proof.
  revert i. induction l as [|z l IH]; intros [|i] H; simpl in *; try discriminate.
  - injection H as ->. lia.
  - specialize (IH i H). lia.
Qed.

Lemma notesIn_pushNote (n : Note) (c : Chapter) :
  notesIn (pushNote n c) = S (notesIn c).
Proof. unfold notesIn. simpl. rewrite length_app. simpl. lia. Qed.

Lemma count_after_note (user : User) (i j : nat) (subject : Subject) (chapter : Chapter)
    (n : Note) :
  u_subjects user !! i = Some subject -> s_chapters subject !! j = Some chapter ->
  countTotalNotes
    (u_subjects (setSubject i (setChapter j (pushNote n chapter) subject) user))
  = S (countTotalNotes (u_subjects user)).
Proof.
  intros Hi Hj. rewrite !countTotalNotes_sum. simpl.
  pose proof (sum_insert countNotes _ i subject
                (setChapter j (pushNote n chapter) subject) Hi) as H1.
  rewrite !countNotes_sum in H1. simpl in H1.
  pose proof (sum_insert notesIn _ j chapter (pushNote n chapter) Hj) as H2.
  rewrite notesIn_pushNote in H2. lia.
Qed.

Lemma count_after_chapter (user : User) (i : nat) (subject : Subject) (c : Chapter) :
  u_subjects user !! i = Some subject -> c_notes c = [] ->
  countTotalNotes (u_subjects (setSubject i (pushChapter c subject) user))
  = countTotalNotes (u_subjects user).
Proof.
  intros Hi Hc. rewrite !countTotalNotes_sum. simpl.
  pose proof (sum_insert countNotes _ i subject (pushChapter c subject) Hi) as H1.
  rewrite !countNotes_sum in H1. unfold pushChapter in H1. cbn [s_chapters] in H1.
  rewrite sum_list_with_app in H1. cbn [sum_list_with] in H1.
  assert (H0 : notesIn c = 0) by (unfold notesIn; now rewrite Hc).
  unfold pushChapter. lia.
Qed.

(** The two counters of the pages agree ([countTotalNotes] is the sum of
    [countNotes] over the subjects), and the count of the caller's notes
    goes up by exactly one with every note route that answers 201 and
    stays the same with every other request. *)
Theorem note_count_follows_requests `{CM : CaseMapping} (r : Request) (st : State) (uuid : string) :
  loggedInAs st uuid ->
  let before := countTotalNotes (subjectsOf st uuid) in
  let after := countTotalNotes (subjectsOf (snd (serve r st)) uuid) in
  before = sum_list_with countNotes (subjectsOf st uuid)
  /\ after = match r with
             | CreateNoteReq _ _ _ _ _ _ | UploadReq _ _ _ =>
                 if Nat.eqb (status (fst (serve r st))) 201 then S before else before
             | _ => before
             end.
Proof.
  intros Hin. cbv zeta. split; [apply countTotalNotes_sum|].
  destruct r as [cfg message nc| | |env name|env subjectId name
                |env subjectId chapterId title content type|cfg env req].
  - destruct (serve_frame (ChatReq cfg message nc) st) as (_ & _ & H).
    unfold subjectsOf. now rewrite (proj1 (H eq_refl)).
  - destruct (serve_frame ClearChatReq st) as (_ & _ & H).
    unfold subjectsOf. now rewrite (proj1 (H eq_refl)).
  - simpl. now rewrite (getSubjects_run st uuid Hin).
  - simpl. destruct name as [name|]; [destruct (blank name) eqn:Hb|].
    + rewrite (createSubject_invalid env (Some name) st uuid Hin);
        [reflexivity|now rewrite missingOrBlank_Some].
    + destruct (createSubject_ok env name st uuid Hin Hb) as (_ & -> & _).
      rewrite !countTotalNotes_sum, sum_list_with_app. simpl.
      unfold countNotes. simpl. lia.
    + now rewrite (createSubject_invalid env None st uuid Hin).
  - simpl. destruct (truthy subjectId) eqn:Hs;
      [|rewrite (createChapter_invalid env subjectId name st uuid Hin); auto].
    destruct (truthy name) eqn:Hn;
      [|rewrite (createChapter_invalid env subjectId name st uuid Hin); auto].
    destruct (users st !! uuid) as [user|] eqn:Hu;
      [|now rewrite (createChapter_no_user env subjectId name st uuid Hin)].
    destruct (findById s_id (u_subjects user) subjectId) as [[i subject]|] eqn:Hf;
      [|now rewrite (createChapter_no_subject env subjectId name st uuid user Hin)].
    destruct name as [nm|]; [|discriminate].
    rewrite (createChapter_found env subjectId nm st uuid user i subject Hin Hs Hn Hu Hf).
    unfold subjectsOf. destruct (blank nm); simpl; [now rewrite Hu|].
    rewrite lookup_insert_eq, Hu. apply count_after_chapter; [|reflexivity].
    apply (findById_Some s_id _ _ _ _ Hf).
  - simpl. rewrite (createNote_outcome _ _ _ _ _ _ _ uuid Hin).
    destruct (negb (truthy subjectId) || negb (truthy chapterId) || negb (truthy title));
      [reflexivity|].
    unfold subjectsOf.
    destruct (users st !! uuid) as [user|] eqn:Hu; [|simpl; now rewrite Hu].
    destruct (findById s_id (u_subjects user) subjectId) as [[i subject]|] eqn:Hf;
      [|simpl; now rewrite Hu].
    destruct (findById c_id (s_chapters subject) chapterId) as [[j chapter]|] eqn:Hc;
      [|simpl; now rewrite Hu].
    cbv zeta. destruct (validateNote _); simpl; [now rewrite Hu|].
    rewrite lookup_insert_eq. apply count_after_note.
    + apply (findById_Some s_id _ _ _ _ Hf).
    + apply (findById_Some c_id _ _ _ _ Hc).
  - simpl. rewrite (uploadNoteFile_outcome _ _ _ _ uuid Hin). unfold outcome.
    destruct (negb (defined (up_file req)) && negb (nonEmpty (default "" (up_title req))));
      [reflexivity|].
    unfold subjectsOf.
    destruct (users st !! uuid) as [user|] eqn:Hu; [|simpl; now rewrite Hu].
    destruct (findById s_id (u_subjects user) (up_subjectId req)) as [[i subject]|] eqn:Hf;
      [|simpl; now rewrite Hu].
    destruct (findById c_id (s_chapters subject) (up_chapterId req)) as [[j chapter]|] eqn:Hc;
      [|simpl; now rewrite Hu].
    assert (Hcount : forall n,
              countTotalNotes
                (u_subjects (setSubject i (setChapter j (pushNote n chapter) subject) user))
              = S (countTotalNotes (u_subjects user))).
    { intros n. apply count_after_note.
      - apply (findById_Some s_id _ _ _ _ Hf).
      - apply (findById_Some c_id _ _ _ _ Hc). }
    unfold resolved, refused. destruct (up_file req) as [file|].
    + destruct (gcpConfigured cfg), (storage cfg), (bucket cfg);
        try (simpl; now rewrite Hu).
      destruct (blobSave env); [simpl; now rewrite Hu|]. cbv zeta.
      destruct (validateNote _); simpl; [now rewrite Hu|].
      rewrite lookup_insert_eq. apply Hcount.
    + cbv zeta. destruct (validateNote _); simpl; [now rewrite Hu|].
      rewrite lookup_insert_eq. apply Hcount.
Qed.

Lemma note_count_follows_requests_witness :
  countTotalNotes
    (subjectsOf (snd (serve (UploadReq storeConfig morning lectureUpload) algebraState))
       "user-1")
  = S (countTotalNotes (subjectsOf algebraState "user-1")).
Proof.
  assert (Hin : loggedInAs algebraState "user-1") by (apply alice_loggedIn; reflexivity).
  pose proof (proj2 (note_count_follows_requests
                       (UploadReq storeConfig morning lectureUpload) algebraState
                       "user-1" Hin)) as H.
  cbv zeta in H. simpl serve in H. rewrite storeConfig_upload in H. exact H.
Defined.

End CountFacts.

(** ** Escaping text for the page *)

Section EscapeFacts.
Import Js Client.

Lemma escapeChar_cases (c : N) :
  (c = "&"%char /\ forall x, escapeChar c +:+ x
      = String "&" (String "a" (String "m" (String "p" (String ";" x)))))
  \/ (c = "<"%char /\ forall x, escapeChar c +:+ x
      = String "&" (String "l" (String "t" (String ";" x))))
  \/ (c = ">"%char /\ forall x, escapeChar c +:+ x
      = String "&" (String "g" (String "t" (String ";" x))))
  \/ (c = quot /\ forall x, escapeChar c +:+ x
      = String "&" (String "q" (String "u" (String "o" (String "t" (String ";" x))))))
  \/ (c = apos /\ forall x, escapeChar c +:+ x
      = String "&" (String "#" (String "3" (String "9" (String ";" x)))))
  \/ (c <> "&"%char /\ markup c = false /\ forall x, escapeChar c +:+ x = String c x).
Proof.
  unfold escapeChar, markup.
  destruct (N.eqb c "&"%char) eqn:E1;
    [apply N.eqb_eq in E1; left; split; [assumption|reflexivity]|].
  destruct (N.eqb c "<"%char) eqn:E2;
    [apply N.eqb_eq in E2; right; left; split; [assumption|reflexivity]|].
  destruct (N.eqb c ">"%char) eqn:E3;
    [apply N.eqb_eq in E3; do 2 right; left; split; [assumption|reflexivity]|].
  destruct (N.eqb c quot) eqn:E4;
    [apply N.eqb_eq in E4; do 3 right; left; split; [assumption|reflexivity]|].
  destruct (N.eqb c apos) eqn:E5;
    [apply N.eqb_eq in E5; do 4 right; left; split; [assumption|reflexivity]|].
  do 5 right. apply N.eqb_neq in E1. repeat split; assumption.
Qed.

Lemma escapeHtml_app (a b : string) :
  escapeHtml (a +:+ b) = escapeHtml a +:+ escapeHtml b.
Proof.
  induction a as [|c a IH]; [reflexivity|].
  rewrite append_cons. simpl. now rewrite IH, append_assoc.
Qed.

(** What [escapeHtml] returns holds no angle bracket and no quote, so it
    cannot open a tag or close an attribute; text without any of the five
    characters comes back unchanged; and escaping goes through
    concatenation. *)
Theorem escapeHtml_no_markup (s : string) :
  noMarkup (escapeHtml s) = true
  /\ (forall t, escapeHtml (s +:+ t) = escapeHtml s +:+ escapeHtml t)
  /\ (noMarkup s = true -> includes s "&" = false -> escapeHtml s = s).
Proof.
  split; [|split; [intros t; apply escapeHtml_app|]].
  - induction s as [|c s IH]; [reflexivity|]. simpl.
    destruct (escapeChar_cases c) as [[_ H]|[[_ H]|[[_ H]|[[_ H]|[[_ H]|(_ & Hm & H)]]]]];
      rewrite H; simpl; rewrite ?Hm; exact IH.
  - induction s as [|c s IH]; [reflexivity|]. simpl. intros Hm Hi.
    apply andb_true_iff in Hm as [Hc Hs]. apply negb_true_iff in Hc.
    apply orb_false_iff in Hi as [Hi1 Hi2].
    assert (Hamp : c <> "&"%char).
    { intros ->. simpl in Hi1. discriminate. }
    assert (Hi3 : includes s "&" = false).
    { destruct s; [reflexivity|]. rewrite includes_cons. exact Hi2. }
    destruct (escapeChar_cases c) as [[-> H]|[[-> H]|[[-> H]|[[-> H]|[[-> H]|(_ & _ & H)]]]]];
      try congruence; try discriminate.
    rewrite H. f_equal. now apply IH.
Qed.

(** Two different texts are never escaped to the same text. *)
Theorem escapeHtml_injective (s t : string) : escapeHtml s = escapeHtml t -> s = t.
Proof.
  revert t. induction s as [|c s IH]; intros [|d t] H; simpl in H.
  - reflexivity.
  - exfalso.
    destruct (escapeChar_cases d) as [[_ E]|[[_ E]|[[_ E]|[[_ E]|[[_ E]|(_ & _ & E)]]]]];
      rewrite E in H; discriminate.
  - exfalso.
    destruct (escapeChar_cases c) as [[_ E]|[[_ E]|[[_ E]|[[_ E]|[[_ E]|(_ & _ & E)]]]]];
      rewrite E in H; discriminate.
  - destruct (escapeChar_cases c)
      as [[-> E]|[[-> E]|[[-> E]|[[-> E]|[[-> E]|(Hc & _ & E)]]]]];
    destruct (escapeChar_cases d)
      as [[-> F]|[[-> F]|[[-> F]|[[-> F]|[[-> F]|(Hd & _ & F)]]]]];
    rewrite E, F in H; try discriminate H;
      injection H as H; subst; try congruence; f_equal; auto.
Qed.

Lemma escapeHtml_injective_witness :
  "a < b" = "a < b".
Proof. apply (escapeHtml_injective "a < b" "a < b"). reflexivity. Defined.

Lemma escapeHtml_no_markup_witness : escapeHtml "Cell theory" = "Cell theory".
Proof.
  apply (proj2 (proj2 (escapeHtml_no_markup "Cell theory"))); reflexivity.
Defined.

End EscapeFacts.

(** ** The pages against the routes *)

Section PageFacts.
Import Js Chat Notes NoteRoute Server Upload Client Sample Cases.

Lemma blank_trimEnd (s : string) : blank (trimEnd s) = blank s.
Proof.
  induction s as [|c s IH]; [reflexivity|]. simpl.
  destruct (trimEnd s) as [|d r] eqn:E.
  - simpl in IH. rewrite <- IH, andb_true_r.
    destruct (isWhiteSpace c) eqn:W; simpl; [reflexivity|]. now rewrite W.
  - simpl. simpl in IH. now rewrite IH.
Qed.

(** Trimming twice is trimming once, as far as blankness goes. *)
Lemma blank_trim (s : string) : blank (trim s) = blank s.
Proof. unfold trim. now rewrite blank_trimEnd, blank_trimStart. Qed.

Lemma typeOptions_valid (t : string) : t ∈ typeOptions -> t ∈ noteTypes.
Proof.
  unfold typeOptions, noteTypes. rewrite !elem_of_cons.
  intros [->|[->|[->|[->|H]]]]; try (now apply elem_of_nil in H); auto 10.
Qed.

Lemma upload_never_400 cfg env req st uuid :
  loggedInAs st uuid ->
  defined (up_file req) = true \/ nonEmpty (default "" (up_title req)) = true ->
  status (fst (uploadNoteFile cfg env req st)) <> 400.
Proof.
  intros Hin Hv. rewrite (uploadNoteFile_outcome _ _ _ _ uuid Hin). unfold outcome.
  replace (negb (defined (up_file req)) && negb (nonEmpty (default "" (up_title req))))
    with false by (destruct Hv as [-> | ->]; rewrite ?andb_false_r; reflexivity).
  destruct (users st !! uuid) as [user|]; [|discriminate].
  destruct (findById s_id (u_subjects user) (up_subjectId req)) as [[i subject]|];
    [|discriminate].
  destruct (findById c_id (s_chapters subject) (up_chapterId req)) as [[j chapter]|];
    [|discriminate].
  unfold resolved, refused. destruct (up_file req) as [f|].
  - destruct (gcpConfigured cfg), (storage cfg), (bucket cfg); try discriminate.
    destruct (blobSave env); [discriminate|]. cbv zeta.
    destruct (validateNote _); discriminate.
  - cbv zeta. destruct (validateNote _); discriminate.
Qed.

Lemma upload_text_201 cfg env req st uuid user i subject j chapter t :
  loggedInAs st uuid -> resolves st uuid req user i subject j chapter ->
  up_file req = None -> up_title req = Some t -> blank t = false ->
  default "notes" (up_type req) ∈ noteTypes ->
  fst (uploadNoteFile cfg env req st) = mkResponse 201 (JMessage "Note saved").
Proof.
  intros Hin Hres Hf Ht Hb Hty.
  rewrite (uploadNoteFile_resolved cfg env req st uuid user i subject j chapter Hin Hres)
    by (right; rewrite Ht; simpl; destruct t; [discriminate|reflexivity]).
  unfold resolved. rewrite Hf. cbv zeta.
  assert (Hv : validateNote (textNote env req st) = None).
  { apply validateNote_ok. unfold textNote. simpl. rewrite Ht. simpl.
    split; [now apply trim_nonEmpty_iff|assumption]. }
  now rewrite Hv.
Qed.

Lemma upload_file_201 cfg env req st uuid user i subject j chapter t f b client :
  loggedInAs st uuid -> resolves st uuid req user i subject j chapter ->
  up_file req = Some f -> up_title req = Some t -> t <> "" ->
  default "notes" (up_type req) ∈ noteTypes ->
  gcpConfigured cfg = true -> storage cfg = Some client -> bucket cfg = Some b ->
  blobSave env = None ->
  status (fst (uploadNoteFile cfg env req st)) = 201.
Proof.
  intros Hin Hres Hf Ht Hne Hty Hg Hs Hb He.
  rewrite (uploadNoteFile_resolved cfg env req st uuid user i subject j chapter Hin Hres)
    by (left; now rewrite Hf).
  unfold resolved. rewrite Hf, Hg, Hs, Hb, He. cbv zeta.
  match goal with |- context [validateNote ?n] => assert (Hv : validateNote n = None) end.
  { apply validateNote_ok. unfold fileNote. simpl. rewrite Ht. simpl.
    split; [|assumption]. destruct t; [congruence|discriminate]. }
  now rewrite Hv.
Qed.

(** The form of the notes page asks for a title or a file before it sends
    anything, and what it sends is never refused for a missing title: the
    upload route does not answer 400 to it, and when the chapter exists and
    the type is one of the selector's, a request without a file is stored
    with 201, and so is one with a named file once the bucket takes it. *)
Theorem saveNoteForm_is_accepted
    (cfg : Config) (env : Env) (st : State) (uuid : string)
    (subjectId chapterId titleInput contentInput typeInput : string)
    (file : option UploadedFile) :
  loggedInAs st uuid ->
  (saveNoteForm subjectId chapterId titleInput contentInput typeInput file = None
   <-> blank titleInput = true /\ file = None)
  /\ forall req,
       saveNoteForm subjectId chapterId titleInput contentInput typeInput file = Some req ->
       status (fst (uploadNoteFile cfg env req st)) <> 400
       /\ forall user i subject j chapter,
            typeInput ∈ typeOptions ->
            resolves st uuid req user i subject j chapter ->
            (file = None ->
               fst (uploadNoteFile cfg env req st) = mkResponse 201 (JMessage "Note saved"))
            /\ (forall f b client,
                  file = Some f -> originalname f <> "" ->
                  gcpConfigured cfg = true -> storage cfg = Some client ->
                  bucket cfg = Some b -> blobSave env = None ->
                  status (fst (uploadNoteFile cfg env req st)) = 201).
Proof.
  intros Hin. unfold saveNoteForm. cbv zeta. rewrite nonEmpty_trim.
  destruct (blank titleInput) eqn:Hb; [destruct file as [f|]|]; simpl.
  - split; [split; [discriminate|intros [_ H]; discriminate]|].
    intros req [= <-]. split; [apply (upload_never_400 _ _ _ _ uuid Hin); now left|].
    intros user i subject j chapter Hty Hres. split; [discriminate|].
    intros f0 b client [= <-] Hname Hg Hs Hbk He.
    apply (upload_file_201 cfg env _ st uuid user i subject j chapter
             (originalname f) f b client); auto.
    now apply typeOptions_valid.
  - split; [split; auto|]. intros req H. discriminate.
  - split; [split; [discriminate|intros [H _]; discriminate]|].
    intros req [= <-].
    assert (Ht : trim titleInput <> "") by now apply trim_nonEmpty_iff.
    split.
    + apply (upload_never_400 _ _ _ _ uuid Hin). right. simpl.
      destruct (trim titleInput); [congruence|reflexivity].
    + intros user i subject j chapter Hty Hres. split.
      * intros ->.
        apply (upload_text_201 cfg env _ st uuid user i subject j chapter
                 (trim titleInput)); auto.
        -- now rewrite blank_trim.
        -- now apply typeOptions_valid.
      * intros f b client -> Hname Hg Hs Hbk He.
        apply (upload_file_201 cfg env _ st uuid user i subject j chapter
                 (trim titleInput) f b client); auto.
        now apply typeOptions_valid.
Qed.

Lemma saveNoteForm_is_accepted_witness :
  fst (uploadNoteFile offlineConfig morning
         (mkUpload (Some mathId) (Some algebraId) (Some (trim "  Factoring "))
            (Some "assignment") (Some (trim " due Friday ")) None)
         algebraState)
  = mkResponse 201 (JMessage "Note saved").
Proof.
  assert (Hin : loggedInAs algebraState "user-1") by (apply alice_loggedIn; reflexivity).
  assert (Hty : "assignment" ∈ typeOptions).
  { apply (bool_decide_unpack _). vm_compute. exact I. }
  refine (proj1 (proj2 (proj2 (saveNoteForm_is_accepted offlineConfig morning algebraState
             "user-1" mathId algebraId "  Factoring " " due Friday " "assignment" None Hin)
             _ eq_refl) aliceWithAlgebra 0 mathWithAlgebra 0 algebra Hty _) eq_refl).
  apply algebraState_resolves; reflexivity.
Defined.

Lemma fallback_nonEmpty `{CM : CaseMapping} (msg : string) (nc : option string) : fallback msg nc <> "".
Proof.
  unfold fallback, explanation, defaultAnswer. cbv zeta.
  repeat match goal with |- context [if ?b then _ else _] => destruct b end;
    intros H; vm_compute in H; discriminate.
Qed.

Lemma answer_nonEmpty `{CM : CaseMapping} (ai : option string) (msg : string) (nc : option string) :
  answer ai msg nc <> "".
Proof.
  destruct ai as [[|a t]|]; simpl; try apply fallback_nonEmpty. discriminate.
Qed.

(** What the chat page shows for a typed or spoken text.  Without a login
    it is the invitation to log in again, and with a blank text the request
    to try again with the server's "Message is required"; neither changes
    the session.  Any other text of a logged-in user is answered: the page
    shows a text that is not empty, and the session history ends with the
    text sent and that answer. *)
Theorem chat_answer_shown `{CM : CaseMapping}
    (cfg : Config) (messageOf : JsError -> string) (userText : string)
    (notesContext : option string) (st : State) :
  (~ authenticated st ->
     processUserInput cfg messageOf userText notesContext st
     = (Some "Sorry, I couldn't process that. Please log in again.", st))
  /\ (authenticated st -> blank userText = true ->
        processUserInput cfg messageOf userText notesContext st
        = (Some "Sorry, I couldn't process that. Please try again. Message is required",
           st))
  /\ (authenticated st -> blank userText = false ->
        exists a pre,
          a <> ""
          /\ fst (processUserInput cfg messageOf userText notesContext st) = Some a
          /\ history (snd (processUserInput cfg messageOf userText notesContext st))
             = pre ++ [mkMsg "user" userText; mkMsg "assistant" a]).
Proof.
  unfold processUserInput. split; [|split].
  - intros Hn. unfold chat, handle, chatBody, bind.
    rewrite (requireAuth_fail st Hn). reflexivity.
  - intros Ha Hb. unfold chat, handle, chatBody, bind.
    destruct (requireAuth_ok st Ha) as (uuid & _ & _ & Hr).
    rewrite Hr, missingOrBlank_Some, Hb. reflexivity.
  - intros Ha Hb. rewrite chat_accepted by assumption.
    set (a := answer _ _ _).
    destruct (remember_appended (history st) userText a) as [pre Hpre].
    exists a, pre. split; [apply answer_nonEmpty|]. split; [reflexivity|].
    simpl. unfold history at 1. simpl. exact Hpre.
Qed.

Lemma chat_answer_shown_witness :
  processUserInput offlineConfig (fun _ => "") "hello" None visitor
  = (Some "Sorry, I couldn't process that. Please log in again.", visitor).
Proof.
  apply (proj1 (chat_answer_shown offlineConfig (fun _ => "") "hello" None visitor)).
  unfold authenticated. simpl. discriminate.
Defined.

(** Loading the notes on the chat page writes nothing and yields a context
    exactly when the logged-in user has a subject: then it is the text
    formatted from the whole stored list, which the chat route accepts as
    the student's materials, whether or not the list holds a note; with no
    subject, or without a login, nothing is loaded and the chat is sent
    the empty context. *)
Theorem notes_context_loaded (st : State) :
  snd (loadUserNotes st) = st
  /\ (~ authenticated st -> fst (loadUserNotes st) = None)
  /\ forall uuid, loggedInAs st uuid ->
       (subjectsOf st uuid = [] ->
          fst (loadUserNotes st) = None
          /\ sentContext (fst (loadUserNotes st)) = Some "")
       /\ (subjectsOf st uuid <> [] ->
          fst (loadUserNotes st) = Some (formatNotesForAI (subjectsOf st uuid))
          /\ sentContext (fst (loadUserNotes st))
             = Some (formatNotesForAI (subjectsOf st uuid))
          /\ hasNotes (sentContext (fst (loadUserNotes st))) = true).
Proof.
  assert (D : authenticated st \/ ~ authenticated st).
  { unfold authenticated. destruct (truthy _); [left|right]; congruence. }
  assert (Hout : ~ authenticated st -> loadUserNotes st = (None, st)).
  { intros Hn. unfold loadUserNotes, getSubjects, handle, bind.
    rewrite (requireAuth_fail st Hn). reflexivity. }
  assert (Hin : forall uuid, loggedInAs st uuid ->
            loadUserNotes st
            = (match subjectsOf st uuid with
               | [] => None
               | l => Some (formatNotesForAI l)
               end, st)).
  { intros uuid H. unfold loadUserNotes. rewrite (getSubjects_run st uuid H).
    destruct (subjectsOf st uuid); reflexivity. }
  split; [|split].
  - destruct D as [Ha|Hn]; [|now rewrite Hout].
    destruct (requireAuth_ok st Ha) as (uuid & Hu & Hne & _).
    now rewrite (Hin uuid (conj Hu Hne)).
  - intros Hn. now rewrite Hout.
  - intros uuid H. rewrite (Hin uuid H). cbn [fst]. split.
    + intros ->. split; reflexivity.
    + intros Hne. destruct (subjectsOf st uuid) as [|s l]; [contradiction|].
      cbn [fst]. rewrite sentContext_format. repeat split. apply hasNotes_format.
Qed.

Lemma notes_context_loaded_witness :
  fst (loadUserNotes algebraState) = Some (formatNotesForAI [mathWithAlgebra]).
Proof.
  assert (Hin : loggedInAs algebraState "user-1") by (apply alice_loggedIn; reflexivity).
  refine (proj1 (proj2 (proj2 (proj2 (notes_context_loaded algebraState)) "user-1" Hin) _)).
  vm_compute. discriminate.
Defined.

End PageFacts.
